(** * The order engine of the storefront backend (app.js)

    A shallow embedding of the Express handlers of [app.js] that make up
    the cart, order, payment, coupon and reporting endpoints, together
    with the PostgreSQL session they talk to, and the properties of the
    order-placement engine proved (or refuted) on that embedding.

    Modelling conventions.
    - A table is the list of its rows, in heap order.  Integer and numeric
      columns are [Z], text columns are [string], a nullable column is an
      [option].
    - The handlers run one after the other on one session: [Db] holds the
      tables, the snapshot taken by [BEGIN], the sequence behind
      [customer_order.id] and the number of statements issued so far.
    - Any statement may raise (lost connection, time-out, violated
      constraint), and a statement that raises changes nothing.  Which
      ones do is decided by an arbitrary schedule [raises : nat -> bool]
      over the statement counter, so that a property quantified over
      [raises] holds for every failure point.  This goes for [ROLLBACK]
      too: when it raises, the transaction stays open on the connection
      that the handler releases, and the next handler finds it open.
    - A query without [ORDER BY] returns its rows in an order that the
      storage layer chooses; the model lists them in table order, and no
      property below depends on that order unless it says so.
    - [verifyToken] and [isAdmin] are middleware; a handler is modelled from
      the point where they have called [next()], with [req.userId] as the
      argument [userId].  The middleware itself, the remaining read and
      catalog endpoints and the first server of the repository (shopping
      carts, order lines with a price) are modelled after the order engine,
      under "Further endpoints", and their properties come last. *)

From Stdlib Require Import ZArith List String Bool Lia Permutation Sorted.
Import ListNotations.
Open Scope string_scope.
Open Scope list_scope.
Open Scope Z_scope.

(** ** Tables *)

(** [cart (customer_id, product_id, quantity)] *)
Record cart_row := mk_cart {
  cart_customer_id : Z;
  cart_product_id : Z;
  cart_quantity : Z
}.

(** [customer_order (id, customer_id, status, shipping_address,
    payment_method, created_at)] *)
Record customer_order_row := mk_order {
  co_id : Z;
  co_customer_id : Z;
  co_status : string;
  co_shipping_address : string;
  co_payment_method : option string;
  co_created_at : Z
}.

(** [order_item (order_id, product_id, quantity)] *)
Record order_item_row := mk_item {
  oi_order_id : Z;
  oi_product_id : Z;
  oi_quantity : Z
}.

(** [product (id, name, description, price, category_id, stock_quantity)] *)
Record product_row := mk_product {
  p_id : Z;
  p_name : string;
  p_description : string;
  p_price : Z;
  p_category_id : Z;
  p_stock_quantity : Z
}.

(** [coupon (code, discount_percent, valid_from, valid_to)] *)
Record coupon_row := mk_coupon {
  cp_code : string;
  cp_discount_percent : Z;
  cp_valid_from : Z;
  cp_valid_to : Z
}.

Record Tables := mk_tables {
  cart : list cart_row;
  customer_order : list customer_order_row;
  order_item : list order_item_row;
  product : list product_row;
  coupon : list coupon_row
}.

Definition empty_tables : Tables := mk_tables [] [] [] [] [].

Definition with_cart (c : list cart_row) (t : Tables) : Tables :=
  mk_tables c (customer_order t) (order_item t) (product t) (coupon t).
Definition with_customer_order (o : list customer_order_row) (t : Tables) : Tables :=
  mk_tables (cart t) o (order_item t) (product t) (coupon t).
Definition with_order_item (i : list order_item_row) (t : Tables) : Tables :=
  mk_tables (cart t) (customer_order t) i (product t) (coupon t).
Definition with_product (p : list product_row) (t : Tables) : Tables :=
  mk_tables (cart t) (customer_order t) (order_item t) p (coupon t).
Definition with_coupon (c : list coupon_row) (t : Tables) : Tables :=
  mk_tables (cart t) (customer_order t) (order_item t) (product t) c.

(** ** The session *)

Record Db := mk_db {
  tables : Tables;                 (* what a query sees *)
  tx_saved : option Tables;        (* the tables as they were at BEGIN *)
  customer_order_id_seq : Z;       (* next value of customer_order.id *)
  stmts : nat                      (* statements issued so far *)
}.

Definition fresh_db (t : Tables) (seq : Z) : Db := mk_db t None seq 0.

Definition set_tables (t : Tables) (s : Db) : Db :=
  mk_db t (tx_saved s) (customer_order_id_seq s) (stmts s).

Definition tick (s : Db) : Db :=
  mk_db (tables s) (tx_saved s) (customer_order_id_seq s) (S (stmts s)).

(** ** Responses *)

(** A row of [SELECT c.*, p.name, p.price FROM cart c JOIN product p]. *)
Record cart_view := mk_cart_view {
  cv_row : cart_row;
  cv_name : string;
  cv_price : Z
}.

(** A row of [SELECT oi.*, p.name, p.price FROM order_item oi JOIN product p]. *)
Record order_item_view := mk_item_view {
  iv_row : order_item_row;
  iv_name : string;
  iv_price : Z
}.

(** A row of the sales report: [p.id, p.name, total_sold, revenue]. *)
Record sales_row := mk_sales {
  sr_id : Z;
  sr_name : string;
  sr_total_sold : Z;
  sr_revenue : Z
}.

(** A row of the low-stock query: [id, name, stock_quantity]. *)
Record stock_row := mk_stock {
  st_id : Z;
  st_name : string;
  st_stock_quantity : Z
}.

Inductive body :=
| Message (message : string)
| OrderCreated (message : string) (orderId : Z)
| OrderDetails (order : customer_order_row) (items : list order_item_view)
| OrderUpdated (message : string) (order : customer_order_row)
| CartItemUpdated (message : string) (item : cart_row)
| CouponApplied (message : string) (discount : Z)
| CouponCreated (row : coupon_row)
| ProductUpdated (row : product_row)
| CartRows (rows : list cart_view)
| SalesRows (rows : list sales_row)
| StockRows (rows : list stock_row).

Record response := mk_response {
  status : Z;
  json : body
}.

(** ** Asynchronous code: state, and exceptions that keep the state *)

Inductive result (A : Type) :=
| Ok (a : A)
| Thrown.
Arguments Ok {A} a.
Arguments Thrown {A}.

Definition M (A : Type) : Type := Db -> result A * Db.

Definition ret {A} (a : A) : M A := fun s => (Ok a, s).

Definition bind {A B} (m : M A) (k : A -> M B) : M B :=
  fun s => match m s with
           | (Ok a, s') => k a s'
           | (Thrown, s') => (Thrown, s')
           end.

(** [try { body } catch (error) { handler }] *)
Definition try_catch {A} (body : M A) (handler : M A) : M A :=
  fun s => match body s with
           | (Ok a, s') => (Ok a, s')
           | (Thrown, s') => handler s'
           end.

Declare Scope js_scope.
Delimit Scope js_scope with js.
Notation "x <- m ;; k" := (bind m (fun x => k))
  (at level 61, m at next level, right associativity) : js_scope.
Notation "m ;;; k" := (bind m (fun _ => k))
  (at level 61, right associativity) : js_scope.
Open Scope js_scope.

(** [for (const item of rows) { await f(item) }] *)
Fixpoint for_of {A} (rows : list A) (f : A -> M unit) : M unit :=
  match rows with
  | [] => ret tt
  | item :: rest => f item ;;; for_of rest f
  end.

Section Storage.

(** The failure schedule of the storage layer: [raises k] says that the
    statement issued when [k] statements were issued before it raises. *)
Variable raises : nat -> bool.

(** [await client.query(...)] / [await pool.query(...)]: a statement that
    raises leaves the tables as they are. *)
Definition query {A} (run : Db -> A * Db) : M A :=
  fun s => if raises (stmts s) then (Thrown, tick s)
           else let (a, s') := run (tick s) in (Ok a, s').

(** A query on the tables alone. *)
Definition on_tables {A} (run : Tables -> A * Tables) : Db -> A * Db :=
  fun s => let (a, t) := run (tables s) in (a, set_tables t s).

(** [BEGIN]: keeps the tables to go back to.  Inside a transaction it only
    warns. *)
Definition BEGIN (s : Db) : unit * Db :=
  match tx_saved s with
  | Some _ => (tt, s)
  | None => (tt, mk_db (tables s) (Some (tables s)) (customer_order_id_seq s) (stmts s))
  end.

(** [COMMIT]: the changes stay. *)
Definition COMMIT (s : Db) : unit * Db :=
  (tt, mk_db (tables s) None (customer_order_id_seq s) (stmts s)).

(** Going back to the tables of [BEGIN]; the sequence is not reset. *)
Definition undo (s : Db) : Db :=
  match tx_saved s with
  | Some t => mk_db t None (customer_order_id_seq s) (stmts s)
  | None => s
  end.

(** [await client.query('ROLLBACK')]: goes back to the tables of [BEGIN].
    Like every statement it changes nothing when it raises: the transaction
    then stays open, with the writes made so far, on the connection that
    [finally { client.release() }] hands back. *)
Definition ROLLBACK : M unit :=
  fun s => if raises (stmts s) then (Thrown, tick s)
           else (Ok tt, undo (tick s)).

(** ** Statements of the order endpoints *)

(** [INSERT INTO customer_order (customer_id, status, shipping_address)
    VALUES ($1, $2, $3) RETURNING id]: [id] comes from the sequence,
    [payment_method] is NULL and [created_at] is the time of the insert. *)
Definition INSERT_customer_order (now customer_id : Z) (status shipping_address : string)
  (s : Db) : Z * Db :=
  let id := customer_order_id_seq s in
  let row := mk_order id customer_id status shipping_address None now in
  (id, mk_db (with_customer_order (customer_order (tables s) ++ [row]) (tables s))
             (tx_saved s) (id + 1) (stmts s)).

(** [SELECT product_id, quantity FROM cart WHERE customer_id = $1] *)
Definition SELECT_cart (customer_id : Z) (t : Tables) : list cart_row * Tables :=
  (filter (fun c => cart_customer_id c =? customer_id) (cart t), t).

(** [INSERT INTO order_item (order_id, product_id, quantity)
    VALUES ($1, $2, $3)] *)
Definition INSERT_order_item (order_id product_id quantity : Z) (t : Tables)
  : unit * Tables :=
  (tt, with_order_item (order_item t ++ [mk_item order_id product_id quantity]) t).

(** [DELETE FROM cart WHERE customer_id = $1] *)
Definition DELETE_cart (customer_id : Z) (t : Tables) : unit * Tables :=
  (tt, with_cart (filter (fun c => negb (cart_customer_id c =? customer_id)) (cart t)) t).

(** [await pool.connect()]: takes a connection; it can fail like a
    statement, and touches no table. *)
Definition pool_connect : M unit :=
  fun s => if raises (stmts s) then (Thrown, tick s) else (Ok tt, tick s).

(** ** [app.post('/orders')] *)

(** The [try { ... } catch (error) { ... } finally { client.release() }]
    statement of the handler; releasing the connection touches no table. *)
Definition post_orders_try (now userId : Z) (shippingAddress : string) : M response :=
  try_catch
    (query BEGIN ;;;
     (* Create order *)
     orderId <- query (INSERT_customer_order now userId "Pending" shippingAddress) ;;
     (* Get cart items *)
     cartItems <- query (on_tables (SELECT_cart userId)) ;;
     (* Add order items *)
     for_of cartItems (fun item =>
       query (on_tables (INSERT_order_item orderId (cart_product_id item) (cart_quantity item)))) ;;;
     (* Clear cart *)
     query (on_tables (DELETE_cart userId)) ;;;
     query COMMIT ;;;
     ret (mk_response 201 (OrderCreated "Order created successfully" orderId)))
    (ROLLBACK ;;;
     ret (mk_response 400 (Message "Error creating order"))).

Definition post_orders (now userId : Z) (shippingAddress : string) : M response :=
  pool_connect ;;;
  post_orders_try now userId shippingAddress.

(** ** Cart endpoints *)

(** [SELECT c.*, p.name, p.price FROM cart c JOIN product p
    ON c.product_id = p.id WHERE c.customer_id = $1]; the rows are listed
    cart line by cart line, an order the query does not promise. *)
Definition SELECT_cart_JOIN_product (customer_id : Z) (t : Tables)
  : list cart_view * Tables :=
  (flat_map
     (fun c => map (fun p => mk_cart_view c (p_name p) (p_price p))
                   (filter (fun p => cart_product_id c =? p_id p) (product t)))
     (filter (fun c => cart_customer_id c =? customer_id) (cart t)), t).

(** [app.get('/cart')] *)
Definition get_cart (userId : Z) : M response :=
  try_catch
    (result <- query (on_tables (SELECT_cart_JOIN_product userId)) ;;
     ret (mk_response 200 (CartRows result)))
    (ret (mk_response 500 (Message "Error fetching cart"))).

Definition cart_key (customer_id product_id : Z) (c : cart_row) : bool :=
  (cart_customer_id c =? customer_id) && (cart_product_id c =? product_id).

(** [INSERT INTO cart (customer_id, product_id, quantity) VALUES ($1, $2, $3)
    ON CONFLICT (customer_id, product_id)
    DO UPDATE SET quantity = cart.quantity + $3] *)
Definition INSERT_cart_ON_CONFLICT (customer_id product_id quantity : Z) (t : Tables)
  : unit * Tables :=
  if existsb (cart_key customer_id product_id) (cart t) then
    (tt, with_cart
           (map (fun c => if cart_key customer_id product_id c
                          then mk_cart (cart_customer_id c) (cart_product_id c)
                                       (cart_quantity c + quantity)
                          else c) (cart t)) t)
  else
    (tt, with_cart (cart t ++ [mk_cart customer_id product_id quantity]) t).

(** [app.post('/cart')] *)
Definition post_cart (userId productId quantity : Z) : M response :=
  try_catch
    (query (on_tables (INSERT_cart_ON_CONFLICT userId productId quantity)) ;;;
     ret (mk_response 201 (Message "Product added to cart")))
    (ret (mk_response 400 (Message "Error adding to cart"))).

(** [UPDATE cart SET quantity = $1 WHERE customer_id = $2 AND product_id = $3
    RETURNING *] *)
Definition UPDATE_cart (quantity customer_id product_id : Z) (t : Tables)
  : list cart_row * Tables :=
  let set c := mk_cart (cart_customer_id c) (cart_product_id c) quantity in
  (map set (filter (cart_key customer_id product_id) (cart t)),
   with_cart (map (fun c => if cart_key customer_id product_id c then set c else c)
                  (cart t)) t).

(** [app.put('/cart/:productId')] *)
Definition put_cart_productId (userId productId quantity : Z) : M response :=
  try_catch
    (result <- query (on_tables (UPDATE_cart quantity userId productId)) ;;
     match result with
     | [] => ret (mk_response 404 (Message "Cart item not found"))
     | item :: _ =>
         ret (mk_response 200 (CartItemUpdated "Cart item quantity updated" item))
     end)
    (ret (mk_response 400 (Message "Error updating cart item quantity"))).

(** [DELETE FROM cart WHERE customer_id = $1 AND product_id = $2] *)
Definition DELETE_cart_line (customer_id product_id : Z) (t : Tables) : unit * Tables :=
  (tt, with_cart (filter (fun c => negb (cart_key customer_id product_id c)) (cart t)) t).

(** [app.delete('/cart/:productId')] *)
Definition delete_cart_productId (userId productId : Z) : M response :=
  try_catch
    (query (on_tables (DELETE_cart_line userId productId)) ;;;
     ret (mk_response 200 (Message "Product removed from cart")))
    (ret (mk_response 400 (Message "Error removing from cart"))).

(** [app.delete('/cart')] *)
Definition delete_cart (userId : Z) : M response :=
  try_catch
    (query (on_tables (DELETE_cart userId)) ;;;
     ret (mk_response 200 (Message "Cart cleared successfully")))
    (ret (mk_response 500 (Message "Error clearing cart"))).

(** ** Reading and paying an order *)

(** [SELECT * FROM customer_order WHERE id = $1 AND customer_id = $2] *)
Definition SELECT_customer_order (id customer_id : Z) (t : Tables)
  : list customer_order_row * Tables :=
  (filter (fun o => (co_id o =? id) && (co_customer_id o =? customer_id))
          (customer_order t), t).

(** [SELECT oi.*, p.name, p.price FROM order_item oi JOIN product p
    ON oi.product_id = p.id WHERE oi.order_id = $1]; the rows are listed
    order line by order line, an order the query does not promise. *)
Definition SELECT_order_item_JOIN_product (order_id : Z) (t : Tables)
  : list order_item_view * Tables :=
  (flat_map
     (fun oi => map (fun p => mk_item_view oi (p_name p) (p_price p))
                    (filter (fun p => oi_product_id oi =? p_id p) (product t)))
     (filter (fun oi => oi_order_id oi =? order_id) (order_item t)), t).

(** [app.get('/orders/:orderId')] *)
Definition get_orders_orderId (userId orderId : Z) : M response :=
  try_catch
    (orderResult <- query (on_tables (SELECT_customer_order orderId userId)) ;;
     match orderResult with
     | [] => ret (mk_response 404 (Message "Order not found"))
     | order :: _ =>
         itemsResult <- query (on_tables (SELECT_order_item_JOIN_product orderId)) ;;
         ret (mk_response 200 (OrderDetails order itemsResult))
     end)
    (ret (mk_response 500 (Message "Error fetching order details"))).

(** [UPDATE customer_order SET status = $1, payment_method = $2 WHERE id = $3] *)
Definition UPDATE_customer_order_paid (status paymentMethod : string) (id : Z)
  (t : Tables) : unit * Tables :=
  (tt, with_customer_order
         (map (fun o => if co_id o =? id
                        then mk_order (co_id o) (co_customer_id o) status
                                      (co_shipping_address o) (Some paymentMethod)
                                      (co_created_at o)
                        else o) (customer_order t)) t).

(** [app.post('/orders/:orderId/pay')] *)
Definition post_orders_pay (userId orderId : Z) (paymentMethod : string) : M response :=
  try_catch
    ((* Check if order exists and belongs to the user *)
     orderResult <- query (on_tables (SELECT_customer_order orderId userId)) ;;
     match orderResult with
     | [] => ret (mk_response 404 (Message "Order not found"))
     | _ :: _ =>
         (* Update order status *)
         query (on_tables (UPDATE_customer_order_paid "Paid" paymentMethod orderId)) ;;;
         ret (mk_response 200 (Message "Payment processed successfully"))
     end)
    (ret (mk_response 500 (Message "Error processing payment"))).

(** [UPDATE customer_order SET status = $1 WHERE id = $2 RETURNING *] *)
Definition UPDATE_customer_order_status (status : string) (id : Z) (t : Tables)
  : list customer_order_row * Tables :=
  let set o := mk_order (co_id o) (co_customer_id o) status (co_shipping_address o)
                        (co_payment_method o) (co_created_at o) in
  (map set (filter (fun o => co_id o =? id) (customer_order t)),
   with_customer_order
     (map (fun o => if co_id o =? id then set o else o) (customer_order t)) t).

(** [app.patch('/orders/:orderId/status')] *)
Definition patch_orders_status (orderId : Z) (newStatus : string) : M response :=
  try_catch
    (result <- query (on_tables (UPDATE_customer_order_status newStatus orderId)) ;;
     match result with
     | [] => ret (mk_response 404 (Message "Order not found"))
     | order :: _ => ret (mk_response 200 (OrderUpdated "Order status updated" order))
     end)
    (ret (mk_response 400 (Message "Error updating order status"))).

(** ** Catalog maintenance (admin) *)

(** [INSERT INTO product (name, description, price, category_id,
    stock_quantity) VALUES ($1, $2, $3, $4, $5) RETURNING *]; the id that
    the storage layer chooses is the [p_id] of [row]. *)
Definition INSERT_product (row : product_row) (t : Tables) : product_row * Tables :=
  (row, with_product (product t ++ [row]) t).

(** [app.post('/products')] *)
Definition post_products (row : product_row) : M response :=
  try_catch
    (result <- query (on_tables (INSERT_product row)) ;;
     ret (mk_response 201 (ProductUpdated result)))
    (ret (mk_response 400 (Message "Error adding product"))).

(** [UPDATE product SET name = $1, description = $2, price = $3,
    category_id = $4, stock_quantity = $5 WHERE id = $6 RETURNING *] *)
Definition UPDATE_product (name description : string) (price category_id stock_quantity id : Z)
  (t : Tables) : list product_row * Tables :=
  let set (p : product_row) :=
    mk_product (p_id p) name description price category_id stock_quantity in
  (map set (filter (fun p => p_id p =? id) (product t)),
   with_product (map (fun p => if p_id p =? id then set p else p) (product t)) t).

(** [app.put('/products/:id')] *)
Definition put_products_id (id : Z) (name description : string)
  (price category_id stock_quantity : Z) : M response :=
  try_catch
    (result <- query (on_tables
                 (UPDATE_product name description price category_id stock_quantity id)) ;;
     match result with
     | [] => ret (mk_response 404 (Message "Product not found"))
     | row :: _ => ret (mk_response 200 (ProductUpdated row))
     end)
    (ret (mk_response 400 (Message "Error updating product"))).

(** [DELETE FROM product WHERE id = $1 RETURNING *] *)
Definition DELETE_product (id : Z) (t : Tables) : list product_row * Tables :=
  (filter (fun p => p_id p =? id) (product t),
   with_product (filter (fun p => negb (p_id p =? id)) (product t)) t).

(** [app.delete('/products/:id')] *)
Definition delete_products_id (id : Z) : M response :=
  try_catch
    (result <- query (on_tables (DELETE_product id)) ;;
     match result with
     | [] => ret (mk_response 404 (Message "Product not found"))
     | _ :: _ => ret (mk_response 200 (Message "Product deleted successfully"))
     end)
    (ret (mk_response 400 (Message "Error deleting product"))).

(** [UPDATE product SET stock_quantity = stock_quantity + $1 WHERE id = $2
    RETURNING *] *)
Definition UPDATE_product_stock (quantity id : Z) (t : Tables)
  : list product_row * Tables :=
  let set (p : product_row) :=
    mk_product (p_id p) (p_name p) (p_description p) (p_price p) (p_category_id p)
               (p_stock_quantity p + quantity) in
  (map set (filter (fun p => p_id p =? id) (product t)),
   with_product (map (fun p => if p_id p =? id then set p else p) (product t)) t).

(** [app.patch('/products/:id/stock')] *)
Definition patch_products_stock (id quantity : Z) : M response :=
  try_catch
    (result <- query (on_tables (UPDATE_product_stock quantity id)) ;;
     match result with
     | [] => ret (mk_response 404 (Message "Product not found"))
     | row :: _ => ret (mk_response 200 (ProductUpdated row))
     end)
    (ret (mk_response 400 (Message "Error updating stock"))).

(** ** Coupons *)

(** [INSERT INTO coupon (code, discount_percent, valid_from, valid_to)
    VALUES ($1, $2, $3, $4) RETURNING *] *)
Definition INSERT_coupon (row : coupon_row) (t : Tables) : coupon_row * Tables :=
  (row, with_coupon (coupon t ++ [row]) t).

(** [app.post('/coupons')] *)
Definition post_coupons (code : string) (discount_percent valid_from valid_to : Z)
  : M response :=
  try_catch
    (result <- query (on_tables
                 (INSERT_coupon (mk_coupon code discount_percent valid_from valid_to))) ;;
     ret (mk_response 201 (CouponCreated result)))
    (ret (mk_response 400 (Message "Error creating coupon"))).

(** [SELECT * FROM coupon WHERE code = $1 AND valid_from <= CURRENT_DATE
    AND valid_to >= CURRENT_DATE]; [today] is [CURRENT_DATE]. *)
Definition SELECT_coupon (today : Z) (code : string) (t : Tables)
  : list coupon_row * Tables :=
  (filter (fun c => String.eqb (cp_code c) code
                    && (cp_valid_from c <=? today) && (cp_valid_to c >=? today))
          (coupon t), t).

(** [app.post('/apply-coupon')] *)
Definition post_apply_coupon (today : Z) (code : string) : M response :=
  try_catch
    (result <- query (on_tables (SELECT_coupon today code)) ;;
     match result with
     | [] => ret (mk_response 404 (Message "Invalid or expired coupon"))
     | row :: _ =>
         ret (mk_response 200
                (CouponApplied "Coupon applied successfully" (cp_discount_percent row)))
     end)
    (ret (mk_response 500 (Message "Error applying coupon"))).

(** ** Reports (admin) *)

(** [ORDER BY]: the rows in the order given by [le], rows that compare equal
    in the order they were produced. *)
Fixpoint insert_by {A} (le : A -> A -> bool) (x : A) (l : list A) : list A :=
  match l with
  | [] => [x]
  | y :: rest => if le x y then x :: l else y :: insert_by le x rest
  end.

Definition ORDER_BY {A} (le : A -> A -> bool) (rows : list A) : list A :=
  fold_right (insert_by le) [] rows.

(** [SELECT id, name, stock_quantity FROM product
    WHERE stock_quantity <= $1 ORDER BY stock_quantity ASC] *)
Definition SELECT_low_stock (threshold : Z) (t : Tables) : list stock_row * Tables :=
  (ORDER_BY (fun a b => st_stock_quantity a <=? st_stock_quantity b)
     (map (fun p => mk_stock (p_id p) (p_name p) (p_stock_quantity p))
          (filter (fun p => p_stock_quantity p <=? threshold) (product t))), t).

(** [app.get('/admin/low-stock-alerts')]; [threshold] is
    [req.query.threshold], [None] when the parameter is absent. *)
Definition get_admin_low_stock_alerts (threshold : option Z) : M response :=
  let threshold := match threshold with Some t => t | None => 10 end in
  try_catch
    (result <- query (on_tables (SELECT_low_stock threshold)) ;;
     ret (mk_response 200 (StockRows result)))
    (ret (mk_response 500 (Message "Error fetching low stock alerts"))).

(** [FROM order_item oi JOIN product p ON oi.product_id = p.id
    JOIN customer_order co ON oi.order_id = co.id
    WHERE co.created_at BETWEEN $1 AND $2] *)
Definition sales_join (startDate endDate : Z) (t : Tables)
  : list (order_item_row * product_row * customer_order_row) :=
  flat_map
    (fun oi =>
       flat_map
         (fun p =>
            map (fun co => (oi, p, co))
                (filter (fun co => (oi_order_id oi =? co_id co)
                                   && (startDate <=? co_created_at co)
                                   && (co_created_at co <=? endDate))
                        (customer_order t)))
         (filter (fun p => oi_product_id oi =? p_id p) (product t)))
    (order_item t).

Definition group_key : Type := Z * string.

Definition group_key_eq_dec (a b : group_key) : {a = b} + {a <> b}.
Proof. decide equality; [apply string_dec | apply Z.eq_dec]. Defined.

Definition group_key_eqb (a b : group_key) : bool :=
  if group_key_eq_dec a b then true else false.

Definition sum_Z (l : list Z) : Z := fold_right Z.add 0 l.

(** [SELECT p.id, p.name, SUM(oi.quantity) as total_sold,
    SUM(oi.quantity * p.price) as revenue ... GROUP BY p.id, p.name] *)
Definition GROUP_BY_product (rows : list (order_item_row * product_row)) : list sales_row :=
  let key (r : order_item_row * product_row) : group_key := (p_id (snd r), p_name (snd r)) in
  map (fun k =>
         let group := filter (fun r => group_key_eqb (key r) k) rows in
         mk_sales (fst k) (snd k)
                  (sum_Z (map (fun r => oi_quantity (fst r)) group))
                  (sum_Z (map (fun r => oi_quantity (fst r) * p_price (snd r)) group)))
      (nodup group_key_eq_dec (map key rows)).

(** The sales query, with its [ORDER BY revenue DESC]. *)
Definition SELECT_sales_report (startDate endDate : Z) (t : Tables)
  : list sales_row * Tables :=
  (ORDER_BY (fun a b => sr_revenue b <=? sr_revenue a)
     (GROUP_BY_product (map fst (sales_join startDate endDate t))), t).

(** [app.get('/admin/sales-report')] *)
Definition get_admin_sales_report (startDate endDate : Z) : M response :=
  try_catch
    (result <- query (on_tables (SELECT_sales_report startDate endDate)) ;;
     ret (mk_response 200 (SalesRows result)))
    (ret (mk_response 500 (Message "Error generating sales report"))).

(** ** The server: one request after the other *)

Inductive request :=
| GET_cart (userId : Z)
| POST_cart (userId productId quantity : Z)
| PUT_cart_productId (userId productId quantity : Z)
| DELETE_cart_productId (userId productId : Z)
| DELETE_cart_all (userId : Z)
| POST_orders (now userId : Z) (shippingAddress : string)
| GET_orders_orderId (userId orderId : Z)
| POST_orders_pay (userId orderId : Z) (paymentMethod : string)
| PATCH_orders_status (orderId : Z) (newStatus : string)
| POST_products (row : product_row)
| PUT_products_id (id : Z) (name description : string) (price category_id stock_quantity : Z)
| DELETE_products_id (id : Z)
| PATCH_products_stock (id quantity : Z)
| POST_coupons (code : string) (discount_percent valid_from valid_to : Z)
| POST_apply_coupon (today : Z) (code : string)
| GET_admin_sales_report (startDate endDate : Z)
| GET_admin_low_stock_alerts (threshold : option Z).

Definition handle (r : request) : M response :=
  match r with
  | GET_cart u => get_cart u
  | POST_cart u p q => post_cart u p q
  | PUT_cart_productId u p q => put_cart_productId u p q
  | DELETE_cart_productId u p => delete_cart_productId u p
  | DELETE_cart_all u => delete_cart u
  | POST_orders now u a => post_orders now u a
  | GET_orders_orderId u o => get_orders_orderId u o
  | POST_orders_pay u o m => post_orders_pay u o m
  | PATCH_orders_status o st => patch_orders_status o st
  | POST_products row => post_products row
  | PUT_products_id id n d pr c sq => put_products_id id n d pr c sq
  | DELETE_products_id id => delete_products_id id
  | PATCH_products_stock id q => patch_products_stock id q
  | POST_coupons c d f t => post_coupons c d f t
  | POST_apply_coupon today c => post_apply_coupon today c
  | GET_admin_sales_report a b => get_admin_sales_report a b
  | GET_admin_low_stock_alerts th => get_admin_low_stock_alerts th
  end.

(** The state the server is in after it has answered the requests [rs]. *)
Fixpoint serve (rs : list request) (s : Db) : Db :=
  match rs with
  | [] => s
  | r :: rest => serve rest (snd (handle r s))
  end.

End Storage.

(** ** Further endpoints *)

(** The answers of the endpoints below carry bodies that are not among
    [body]: either the data of [res.json(...)] or a [{ message }]. *)
Inductive payload (B : Type) :=
| Data (b : B)
| Failure (message : string).
Arguments Data {B} b.
Arguments Failure {B} message.

Record reply (B : Type) := mk_reply {
  reply_status : Z;
  reply_body : payload B
}.
Arguments mk_reply {B} _ _.
Arguments reply_status {B} _.
Arguments reply_body {B} _.

(** [res.status(code).send({ message })], for both kinds of answer. *)
Definition send_response (code : Z) (message : string) : response :=
  mk_response code (Message message).
Definition send_reply {B} (code : Z) (message : string) : reply B :=
  mk_reply code (Failure message).

(** [customer (id, ..., is_admin)]; no endpoint modelled here writes it, so
    the handlers take the table as an argument. *)
Record customer_row := mk_customer {
  cu_id : Z;
  cu_is_admin : option bool
}.

(** [product_category (id, name, ...)], read by [GET /products]. *)
Record product_category_row := mk_category {
  pc_id : Z;
  pc_name : string
}.

(** A row of [SELECT p.*, pc.name as category_name FROM product p JOIN
    product_category pc]. *)
Record product_view := mk_product_view {
  pv_row : product_row;
  pv_category_name : string
}.

(** The body of [GET /products]. *)
Record product_page (R : Type) := mk_page {
  products : list R;
  currentPage : Z;
  totalPages : Z;
  totalProducts : Z
}.
Arguments mk_page {R} _ _ _ _.
Arguments products {R} _.
Arguments currentPage {R} _.
Arguments totalPages {R} _.
Arguments totalProducts {R} _.

(** [throw]: what reading a field of [undefined] does. *)
Definition throw {A} : M A := fun s => (Thrown, s).

(** [parseInt(x) || d], where [parsed] is the value of [parseInt(x)], [None]
    for [NaN]: [NaN] and [0] are falsy. *)
Definition or_default (parsed : option Z) (d : Z) : Z :=
  match parsed with
  | None => d
  | Some n => if n =? 0 then d else n
  end.

(** [... LIMIT $1 OFFSET $2]: the storage layer refuses a negative limit and
    a negative offset. *)
Definition LIMIT_OFFSET {A} (limit offset : Z) (rows : list A) : option (list A) :=
  if (limit <? 0) || (offset <? 0) then None
  else Some (firstn (Z.to_nat limit) (skipn (Z.to_nat offset) rows)).

(** [Math.ceil(a / b)] on integers. *)
Definition ceil_div (a b : Z) : Z := - ((- a) / b).

(** A condition on a query parameter that may be absent: [if (category)]
    takes the absent and the empty string for absent. *)
Definition given (x : option string) : option string :=
  match x with
  | Some EmptyString => None
  | other => other
  end.

Section Endpoints.

Variable raises : nat -> bool.

(** A statement that the storage layer itself may refuse. *)
Definition query_checked {A} (run : Db -> option (A * Db)) : M A :=
  fun s => if raises (stmts s) then (Thrown, tick s)
           else match run (tick s) with
                | Some (a, s') => (Ok a, s')
                | None => (Thrown, tick s)
                end.

(** *** Middleware *)

(** [verifyToken]: [jwt_verify token] is [Some id] when
    [jwt.verify(token, AUTH_SECRET)] yields a payload with that [id], [None]
    when it yields an error. *)
Definition verifyToken {R} (send : Z -> string -> R) (jwt_verify : string -> option Z)
  (authorization : option string) (next : Z -> M R) : M R :=
  match authorization with
  | None => ret (send 403 "No token provided.")
  | Some EmptyString => ret (send 403 "No token provided.")
  | Some token =>
      match jwt_verify token with
      | None => ret (send 500 "Failed to authenticate token.")
      | Some id => next id
      end
  end.

(** [SELECT is_admin FROM customer WHERE id = $1] *)
Definition SELECT_is_admin (customer : list customer_row) (id : Z) (s : Db)
  : list customer_row * Db :=
  (filter (fun c => cu_id c =? id) customer, s).

(** [isAdmin].  The [try] block either sends an answer ([Some]) or calls
    [next()] ([None]); the handler that [next()] starts runs outside it. *)
Definition isAdmin {R} (send : Z -> string -> R) (customer : list customer_row)
  (userId : Z) (next : M R) : M R :=
  sent <- try_catch
            (result <- query raises (SELECT_is_admin customer userId) ;;
             match result with
             | [] => throw
             | row :: _ =>
                 match cu_is_admin row with
                 | Some true => ret None
                 | _ => ret (Some (send 403 "Requires admin privileges"))
                 end
             end)
            (ret (Some (send 500 "Error checking admin status"))) ;;
  match sent with
  | None => next
  | Some answer => ret answer
  end.

(** [app.METHOD(path, verifyToken, handler)] *)
Definition user_route {R} (send : Z -> string -> R) (jwt_verify : string -> option Z)
  (authorization : option string) (handler : Z -> M R) : M R :=
  verifyToken send jwt_verify authorization handler.

(** [app.METHOD(path, verifyToken, isAdmin, handler)] *)
Definition admin_route {R} (send : Z -> string -> R) (jwt_verify : string -> option Z)
  (customer : list customer_row) (authorization : option string) (handler : M R) : M R :=
  verifyToken send jwt_verify authorization
    (fun userId => isAdmin send customer userId handler).

(** *** [app.get('/orders')] *)

(** [SELECT * FROM customer_order WHERE customer_id = $1
    ORDER BY created_at DESC] *)
Definition SELECT_customer_orders (customer_id : Z) (t : Tables)
  : list customer_order_row * Tables :=
  (ORDER_BY (fun a b => co_created_at b <=? co_created_at a)
     (filter (fun o => co_customer_id o =? customer_id) (customer_order t)), t).

Definition get_orders (userId : Z) : M (reply (list customer_order_row)) :=
  try_catch
    (result <- query raises (on_tables (SELECT_customer_orders userId)) ;;
     ret (mk_reply 200 (Data result)))
    (ret (send_reply 500 "Error fetching orders")).

(** *** [app.get('/products')] and [app.get('/products/:id')] *)

(** The first server: [SELECT * FROM product LIMIT $1 OFFSET $2] and
    [SELECT COUNT( * ) FROM product]. *)
Definition get_products_plain (page limit : option Z) : M (reply (product_page product_row)) :=
  let page := or_default page 1 in
  let limit := or_default limit 10 in
  let offset := (page - 1) * limit in
  try_catch
    (result <- query_checked
                 (fun s => option_map (fun rows => (rows, s))
                             (LIMIT_OFFSET limit offset (product (tables s)))) ;;
     countResult <- query raises (fun s => (Z.of_nat (List.length (product (tables s))), s)) ;;
     let totalProducts := countResult in
     let totalPages := ceil_div totalProducts limit in
     ret (mk_reply 200 (Data (mk_page result page totalPages totalProducts))))
    (ret (send_reply 500 "Error fetching products")).

(** [FROM product p JOIN product_category pc ON p.category_id = pc.id],
    with [WHERE pc.name = $1] when a category is given. *)
Definition product_JOIN_category (categories : list product_category_row)
  (category : option string) (t : Tables) : list product_view :=
  flat_map
    (fun p =>
       map (fun pc => mk_product_view p (pc_name pc))
           (filter (fun pc => (p_category_id p =? pc_id pc)
                              && match category with
                                 | Some name => String.eqb (pc_name pc) name
                                 | None => true
                                 end)
                   categories))
    (product t).

(** The count query: over [product] alone without a category, over the join
    with one. *)
Definition COUNT_products (categories : list product_category_row)
  (category : option string) (t : Tables) : Z :=
  match category with
  | None => Z.of_nat (List.length (product t))
  | Some _ => Z.of_nat (List.length (product_JOIN_category categories category t))
  end.

(** [app.get('/products')] of [app.js]. *)
Definition get_products (categories : list product_category_row)
  (page limit : option Z) (category : option string)
  : M (reply (product_page product_view)) :=
  let page := or_default page 1 in
  let limit := or_default limit 10 in
  let offset := (page - 1) * limit in
  let category := given category in
  try_catch
    (result <- query_checked
                 (fun s => option_map (fun rows => (rows, s))
                             (LIMIT_OFFSET limit offset
                                (product_JOIN_category categories category (tables s)))) ;;
     countResult <- query raises (fun s => (COUNT_products categories category (tables s), s)) ;;
     let totalProducts := countResult in
     let totalPages := ceil_div totalProducts limit in
     ret (mk_reply 200 (Data (mk_page result page totalPages totalProducts))))
    (ret (send_reply 500 "Error fetching products")).

(** [SELECT * FROM product WHERE id = $1] *)
Definition SELECT_product (id : Z) (t : Tables) : list product_row * Tables :=
  (filter (fun p => p_id p =? id) (product t), t).

(** [app.get('/products/:id')] *)
Definition get_products_id (productId : Z) : M (reply product_row) :=
  try_catch
    (result <- query raises (on_tables (SELECT_product productId)) ;;
     match result with
     | row :: _ => ret (mk_reply 200 (Data row))
     | [] => ret (send_reply 404 "Product not found")
     end)
    (ret (send_reply 500 "Error fetching product")).

End Endpoints.

(** ** The first server: shopping carts and orders with a price *)

(** The first server of the repository keeps the cart in [shopping_cart] and
    [shopping_cart_item] and writes the price of the product on each order
    line.  It has its own tables, so it has its own session. *)
Module Legacy.

(** [shopping_cart (id, customer_id)] *)
Record shopping_cart_row := mk_shopping_cart {
  sc_id : Z;
  sc_customer_id : Z
}.

(** [shopping_cart_item (shopping_cart_id, product_id, quantity)] *)
Record shopping_cart_item_row := mk_cart_item {
  sci_shopping_cart_id : Z;
  sci_product_id : Z;
  sci_quantity : Z
}.

(** ["order" (id, customer_id, status_code_id)] *)
Record order_row := mk_order {
  o_id : Z;
  o_customer_id : Z;
  o_status_code_id : Z
}.

(** [order_item (order_id, product_id, quantity, price)] *)
Record order_item_row := mk_item {
  oi_order_id : Z;
  oi_product_id : Z;
  oi_quantity : Z;
  oi_price : Z
}.

Record Tables := mk_tables {
  shopping_cart : list shopping_cart_row;
  shopping_cart_item : list shopping_cart_item_row;
  order : list order_row;
  order_item : list order_item_row;
  product : list product_row
}.

Record Db := mk_db {
  tables : Tables;
  tx_saved : option Tables;
  order_id_seq : Z;
  shopping_cart_id_seq : Z;
  stmts : nat
}.

Definition fresh_db (t : Tables) (oseq cseq : Z) : Db := mk_db t None oseq cseq 0.

Definition set_tables (t : Tables) (s : Db) : Db :=
  mk_db t (tx_saved s) (order_id_seq s) (shopping_cart_id_seq s) (stmts s).

Definition tick (s : Db) : Db :=
  mk_db (tables s) (tx_saved s) (order_id_seq s) (shopping_cart_id_seq s) (S (stmts s)).

Definition M (A : Type) : Type := Db -> result A * Db.

Definition ret {A} (a : A) : M A := fun s => (Ok a, s).

Definition bind {A B} (m : M A) (k : A -> M B) : M B :=
  fun s => match m s with
           | (Ok a, s') => k a s'
           | (Thrown, s') => (Thrown, s')
           end.

Definition try_catch {A} (body : M A) (handler : M A) : M A :=
  fun s => match body s with
           | (Ok a, s') => (Ok a, s')
           | (Thrown, s') => handler s'
           end.

Declare Scope legacy_scope.
Notation "x <- m ;; k" := (bind m (fun x => k))
  (at level 61, m at next level, right associativity) : legacy_scope.
Notation "m ;;; k" := (bind m (fun _ => k))
  (at level 61, right associativity) : legacy_scope.
Local Open Scope legacy_scope.

Fixpoint for_of {A} (rows : list A) (f : A -> M unit) : M unit :=
  match rows with
  | [] => ret tt
  | item :: rest => f item ;;; for_of rest f
  end.

(** The value of a subquery used as an expression: NULL when it has no row,
    the value when it has one.  With more rows the storage layer refuses the
    statement once it evaluates the subquery; the model takes it to evaluate
    the subquery first, as a plan that uses it as a scan key does.  The
    handlers never give a customer a second cart. *)
Definition scalar {A} (rows : list A) : option (option A) :=
  match rows with
  | [] => Some None
  | [x] => Some (Some x)
  | _ :: _ :: _ => None
  end.

(** [sci.shopping_cart_id = v], false when [v] is NULL. *)
Definition in_cart (v : option Z) (i : shopping_cart_item_row) : bool :=
  match v with
  | Some id => sci_shopping_cart_id i =? id
  | None => false
  end.

Section Storage.

Variable raises : nat -> bool.

(** A statement: it raises when the schedule says so or when the storage
    layer refuses it ([None]), and then changes nothing. *)
Definition query {A} (run : Db -> option (A * Db)) : M A :=
  fun s => if raises (stmts s) then (Thrown, tick s)
           else match run (tick s) with
                | Some (a, s') => (Ok a, s')
                | None => (Thrown, tick s)
                end.

Definition on_tables {A} (run : Tables -> option (A * Tables)) : Db -> option (A * Db) :=
  fun s => match run (tables s) with
           | Some (a, t) => Some (a, set_tables t s)
           | None => None
           end.

Definition pool_connect : M unit :=
  fun s => if raises (stmts s) then (Thrown, tick s) else (Ok tt, tick s).

Definition BEGIN (s : Db) : option (unit * Db) :=
  match tx_saved s with
  | Some _ => Some (tt, s)
  | None => Some (tt, mk_db (tables s) (Some (tables s)) (order_id_seq s)
                            (shopping_cart_id_seq s) (stmts s))
  end.

Definition COMMIT (s : Db) : option (unit * Db) :=
  Some (tt, mk_db (tables s) None (order_id_seq s) (shopping_cart_id_seq s) (stmts s)).

Definition undo (s : Db) : Db :=
  match tx_saved s with
  | Some t => mk_db t None (order_id_seq s) (shopping_cart_id_seq s) (stmts s)
  | None => s
  end.

(** [ROLLBACK] changes nothing when it raises, as in the second server. *)
Definition ROLLBACK : M unit :=
  fun s => if raises (stmts s) then (Thrown, tick s)
           else (Ok tt, undo (tick s)).

(** [SELECT id FROM shopping_cart WHERE customer_id = $1] *)
Definition SELECT_shopping_cart (customer_id : Z) (t : Tables) : list Z :=
  map sc_id (filter (fun c => sc_customer_id c =? customer_id) (shopping_cart t)).

(** [INSERT INTO shopping_cart (customer_id) VALUES ($1) RETURNING id] *)
Definition INSERT_shopping_cart (customer_id : Z) (s : Db) : option (Z * Db) :=
  let id := shopping_cart_id_seq s in
  Some (id, mk_db (mk_tables (shopping_cart (tables s) ++ [mk_shopping_cart id customer_id])
                             (shopping_cart_item (tables s)) (order (tables s))
                             (order_item (tables s)) (product (tables s)))
                  (tx_saved s) (order_id_seq s) (id + 1) (stmts s)).

(** [INSERT INTO shopping_cart_item (shopping_cart_id, product_id, quantity)
    VALUES ($1, $2, $3)] *)
Definition INSERT_shopping_cart_item (cartId productId quantity : Z) (t : Tables)
  : option (unit * Tables) :=
  Some (tt, mk_tables (shopping_cart t)
                      (shopping_cart_item t ++ [mk_cart_item cartId productId quantity])
                      (order t) (order_item t) (product t)).

(** [app.post('/cart/items')] *)
Definition post_cart_items (userId productId quantity : Z) : M response :=
  try_catch
    ((* First, ensure the shopping cart exists for the user *)
     cartResult <- query (on_tables (fun t => Some (SELECT_shopping_cart userId t, t))) ;;
     cartId <- match cartResult with
               | [] => (* Create a new cart if it doesn't exist *)
                       query (INSERT_shopping_cart userId)
               | id :: _ => ret id
               end ;;
     (* Now add the item to the cart *)
     query (on_tables (INSERT_shopping_cart_item cartId productId quantity)) ;;;
     ret (mk_response 201 (Message "Item added to cart")))
    (ret (mk_response 400 (Message "Error adding item to cart"))).

(** [... FROM shopping_cart_item sci JOIN product p ON sci.product_id = p.id
    WHERE sci.shopping_cart_id = (SELECT id FROM shopping_cart
    WHERE customer_id = $1)] *)
Definition SELECT_cart_JOIN_product (customer_id : Z) (t : Tables)
  : option (list (shopping_cart_item_row * product_row) * Tables) :=
  match scalar (SELECT_shopping_cart customer_id t) with
  | None => None
  | Some v =>
      Some (flat_map
              (fun i => map (fun p => (i, p))
                            (filter (fun p => sci_product_id i =? p_id p) (product t)))
              (filter (in_cart v) (shopping_cart_item t)), t)
  end.

(** [app.get('/cart')] *)
Definition get_cart (userId : Z) : M (reply (list (shopping_cart_item_row * product_row))) :=
  try_catch
    (result <- query (on_tables (SELECT_cart_JOIN_product userId)) ;;
     ret (mk_reply 200 (Data result)))
    (ret (send_reply 500 "Error fetching shopping cart")).

(** [INSERT INTO "order" (customer_id, status_code_id) VALUES ($1, 1)
    RETURNING id] *)
Definition INSERT_order (customer_id : Z) (s : Db) : option (Z * Db) :=
  let id := order_id_seq s in
  Some (id, mk_db (mk_tables (shopping_cart (tables s)) (shopping_cart_item (tables s))
                             (order (tables s) ++ [mk_order id customer_id 1])
                             (order_item (tables s)) (product (tables s)))
                  (tx_saved s) (id + 1) (shopping_cart_id_seq s) (stmts s)).

(** [INSERT INTO order_item (order_id, product_id, quantity, price)
    VALUES ($1, $2, $3, $4)] *)
Definition INSERT_order_item (order_id product_id quantity price : Z) (t : Tables)
  : option (unit * Tables) :=
  Some (tt, mk_tables (shopping_cart t) (shopping_cart_item t) (order t)
                      (order_item t ++ [mk_item order_id product_id quantity price])
                      (product t)).

(** [DELETE FROM shopping_cart_item WHERE shopping_cart_id =
    (SELECT id FROM shopping_cart WHERE customer_id = $1)] *)
Definition DELETE_cart_items (customer_id : Z) (t : Tables) : option (unit * Tables) :=
  match scalar (SELECT_shopping_cart customer_id t) with
  | None => None
  | Some v =>
      Some (tt, mk_tables (shopping_cart t)
                          (filter (fun i => negb (in_cart v i)) (shopping_cart_item t))
                          (order t) (order_item t) (product t))
  end.

(** The [try] statement of [app.post('/orders')]. *)
Definition post_orders_try (userId : Z) : M response :=
  try_catch
    (query BEGIN ;;;
     (* Create new order *)
     orderId <- query (INSERT_order userId) ;;
     (* Get items from the user's cart *)
     cartItems <- query (on_tables (SELECT_cart_JOIN_product userId)) ;;
     (* Add items to order *)
     for_of cartItems (fun item =>
       query (on_tables (INSERT_order_item orderId (sci_product_id (fst item))
                           (sci_quantity (fst item)) (p_price (snd item))))) ;;;
     (* Clear the user's cart *)
     query (on_tables (DELETE_cart_items userId)) ;;;
     query COMMIT ;;;
     ret (mk_response 201 (OrderCreated "Order placed successfully" orderId)))
    (ROLLBACK ;;;
     ret (mk_response 400 (Message "Error placing order"))).

(** [app.post('/orders')]; [addressId] is read from the body and not used. *)
Definition post_orders (userId addressId : Z) : M response :=
  pool_connect ;;;
  post_orders_try userId.

End Storage.

(** The cart items of a customer joined with their products, as PlaceOrder
    reads them; none when the customer has no cart. *)
Definition cart_items (customer_id : Z) (t : Tables)
  : list (shopping_cart_item_row * product_row) :=
  match SELECT_cart_JOIN_product customer_id t with
  | Some (rows, _) => rows
  | None => []
  end.

(** The items of the carts of a customer, joined or not. *)
Definition items_of (customer_id : Z) (t : Tables) : list shopping_cart_item_row :=
  filter (fun i => existsb (fun id => sci_shopping_cart_id i =? id)
                           (SELECT_shopping_cart customer_id t))
         (shopping_cart_item t).

(** The order line made from a cart item and its product. *)
Definition to_order_item (order_id : Z) (item : shopping_cart_item_row * product_row)
  : order_item_row :=
  mk_item order_id (sci_product_id (fst item)) (sci_quantity (fst item))
          (p_price (snd item)).

(** No customer has two carts. *)
Definition one_cart_each (t : Tables) : Prop :=
  NoDup (map sc_customer_id (shopping_cart t)).

Definition idle (s : Db) : Prop := tx_saved s = None.

(** Customer 7 has cart 1 with two teas and a cup; tea costs 1000. *)
Definition scenario : Tables :=
  mk_tables [mk_shopping_cart 1 7]
            [mk_cart_item 1 1 2; mk_cart_item 1 2 1] [] []
            [mk_product 1 "tea" "" 1000 1 4; mk_product 2 "cup" "" 500 1 30].

End Legacy.

(** ** Schedules and stores used in the examples *)

Definition no_faults : nat -> bool := fun _ => false.
Definition fault_at (k : nat) : nat -> bool := fun n => Nat.eqb n k.

(** Scenario A: customer 7 has two cart lines, customer 8 one. *)
Definition scenarioA : Tables :=
  mk_tables [mk_cart 7 1 2; mk_cart 7 2 1; mk_cart 8 1 5] [] []
            [mk_product 1 "tea" "" 1000 1 4; mk_product 2 "cup" "" 500 1 30] [].

(** ** Vocabulary of the properties *)

(** No transaction is open. *)
Definition idle (s : Db) : Prop := tx_saved s = None.

(** The request was answered with [201]. *)
Definition created (r : result response) : bool :=
  match r with
  | Ok resp => status resp =? 201
  | Thrown => false
  end.

(** The cart lines of a customer, as PlaceOrder reads them. *)
Definition cart_lines (customer_id : Z) (t : Tables) : list cart_row :=
  fst (SELECT_cart customer_id t).

(** The order lines of an order. *)
Definition order_lines (order_id : Z) (t : Tables) : list order_item_row :=
  filter (fun oi => oi_order_id oi =? order_id) (order_item t).

(** The order line made from a cart line. *)
Definition to_order_item (order_id : Z) (c : cart_row) : order_item_row :=
  mk_item order_id (cart_product_id c) (cart_quantity c).

(** The sequence is ahead of every order id in use. *)
Definition seq_ahead (s : Db) : Prop :=
  forall oi, In oi (order_item (tables s)) -> oi_order_id oi < customer_order_id_seq s.

(** The steps of one call: taking the connection, BEGIN, INSERT, SELECT, one
    INSERT per cart line, DELETE and COMMIT. *)
Definition statements_of_post_orders (userId : Z) (s : Db) (k : nat) : Prop :=
  (stmts s <= k < stmts s + 6 + List.length (cart_lines userId (tables s)))%nat.

(** The tables that a ROLLBACK would go back to: those of the open
    transaction's BEGIN, the present ones when no transaction is open. *)
Definition snapshot_of (s : Db) : Tables :=
  match tx_saved s with
  | Some t => t
  | None => tables s
  end.

(** The tables in the middle of a PlaceOrder that started in [s]: the header
    is inserted, the first [n] cart lines are copied, and the cart is
    cleared or not yet. *)
Definition order_in_progress (now userId : Z) (shippingAddress : string) (s : Db)
  (n : nat) (cleared : bool) : Tables :=
  mk_tables
    (if cleared
     then filter (fun c => negb (cart_customer_id c =? userId)) (cart (tables s))
     else cart (tables s))
    (customer_order (tables s) ++
       [mk_order (customer_order_id_seq s) userId "Pending" shippingAddress None now])
    (order_item (tables s) ++
       map (to_order_item (customer_order_id_seq s))
           (firstn n (cart_lines userId (tables s))))
    (product (tables s)) (coupon (tables s)).

(** What a PlaceOrder that started in [s] leaves when its ROLLBACK raises:
    nothing done yet, or a transaction open on the tables of [s] with
    nothing or part of the order written. *)
Definition interrupted (now userId : Z) (shippingAddress : string) (s s' : Db) : Prop :=
  (tables s' = tables s /\ tx_saved s' = tx_saved s /\
   customer_order_id_seq s' = customer_order_id_seq s) \/
  (tables s' = tables s /\ tx_saved s' = Some (snapshot_of s) /\
   customer_order_id_seq s' = customer_order_id_seq s) \/
  (exists n cleared,
     tables s' = order_in_progress now userId shippingAddress s n cleared /\
     tx_saved s' = Some (snapshot_of s) /\
     customer_order_id_seq s' = customer_order_id_seq s + 1).

(** A property of the tables and the sequence holds now and would hold
    after a ROLLBACK. *)
Definition stable (P : Z -> Tables -> Prop) (s : Db) : Prop :=
  P (customer_order_id_seq s) (tables s) /\
  forall t, tx_saved s = Some t -> P (customer_order_id_seq s) t.

(** Scenario D, after the first payment: order 1 of customer 7 is Paid by
    card. *)
Definition scenarioD_paid : Tables :=
  mk_tables [] [mk_order 1 7 "Paid" "X" (Some "card") 100] [mk_item 1 1 2]
            [mk_product 1 "tea" "" 1000 1 4] [].

(** The order exists and belongs to the customer. *)
Definition owns_order (userId orderId : Z) (t : Tables) : Prop :=
  exists o, In o (customer_order t) /\ co_id o = orderId /\ co_customer_id o = userId.

(** Scenario C: the coupon SAVE10, valid from day 1 to day 31. *)
Definition scenarioC : Tables :=
  mk_tables [] [] [] [] [mk_coupon "SAVE10" 10 1 31; mk_coupon "OLD" 50 (-30) (-1)].

(** [asOf] lies in the validity window of the coupon, ends included. *)
Definition in_window (c : coupon_row) (asOf : Z) : Prop :=
  cp_valid_from c <= asOf <= cp_valid_to c.

(** The row the low-stock query returns for a product. *)
Definition stock_row_of (p : product_row) : stock_row :=
  mk_stock (p_id p) (p_name p) (p_stock_quantity p).

(** The products with [stock_quantity <= threshold], in table order: the
    reading of the requirement, without the sort. *)
Definition low_stock_products (threshold : Z) (t : Tables) : list stock_row :=
  map stock_row_of (filter (fun p => p_stock_quantity p <=? threshold) (product t)).

(** Rewrites the status column of every order; every other column and every
    other table stay. *)
Definition restatus (f : customer_order_row -> string) (t : Tables) : Tables :=
  with_customer_order
    (map (fun o => mk_order (co_id o) (co_customer_id o) (f o) (co_shipping_address o)
                            (co_payment_method o) (co_created_at o))
         (customer_order t)) t.

(** The joined lines of the product with the id and name of [p]. *)
Definition same_product (p : product_row)
  (j : order_item_row * product_row * customer_order_row) : bool :=
  group_key_eqb (p_id (snd (fst j)), p_name (snd (fst j))) (p_id p, p_name p).

(** The quantities of joined lines, and their quantities times the price of
    the product now, added up. *)
Definition total_sold_of (js : list (order_item_row * product_row * customer_order_row)) : Z :=
  sum_Z (map (fun j => oi_quantity (fst (fst j))) js).

Definition revenue_of (js : list (order_item_row * product_row * customer_order_row)) : Z :=
  sum_Z (map (fun j => oi_quantity (fst (fst j)) * p_price (snd (fst j))) js).

(** One order of each kind, all created on day 5, one line of product 1
    each. *)
Definition scenario_report : Tables :=
  mk_tables []
    [mk_order 1 7 "Pending" "X" None 5; mk_order 2 7 "Paid" "X" (Some "card") 5;
     mk_order 3 8 "Cancelled" "Y" None 5; mk_order 4 8 "Shipped" "Y" (Some "card") 5]
    [mk_item 1 1 1; mk_item 2 1 2; mk_item 3 1 4; mk_item 4 1 8]
    [mk_product 1 "tea" "" 1000 1 4] [].

(** The quantity of the cart line of a customer for a product, if there is
    one. *)
Definition line_quantity (customer_id product_id : Z) (t : Tables) : option Z :=
  option_map cart_quantity (find (cart_key customer_id product_id) (cart t)).

(** At most one cart line per customer and product. *)
Definition cart_line_key (c : cart_row) : Z * Z :=
  (cart_customer_id c, cart_product_id c).

Definition cart_keys_unique (t : Tables) : Prop :=
  NoDup (map cart_line_key (cart t)).

(** The sequence is ahead of every order header, and no two headers share
    an id. *)
Definition order_ids_behind (s : Db) : Prop :=
  forall o, In o (customer_order (tables s)) -> co_id o < customer_order_id_seq s.

Definition order_ids_unique (t : Tables) : Prop :=
  NoDup (map co_id (customer_order t)).

Definition product_ids_unique (t : Tables) : Prop :=
  NoDup (map p_id (product t)).

(** The tables other than the cart. *)
Definition same_but_cart (t t' : Tables) : Prop :=
  customer_order t' = customer_order t /\ order_item t' = order_item t /\
  product t' = product t /\ coupon t' = coupon t.

(** The requests that do not write the cart. *)
Definition reads_cart_only (r : request) : bool :=
  match r with
  | POST_cart _ _ _ | PUT_cart_productId _ _ _ | DELETE_cart_productId _ _
  | DELETE_cart_all _ | POST_orders _ _ _ => false
  | _ => true
  end.

(** The columns of an order header other than its status. *)
Definition order_core (o : customer_order_row) : Z * Z * string * option string * Z :=
  (co_id o, co_customer_id o, co_shipping_address o, co_payment_method o, co_created_at o).

(** The requests that do not write [customer_order]. *)
Definition reads_orders_only (r : request) : bool :=
  match r with
  | POST_orders _ _ _ | POST_orders_pay _ _ _ | PATCH_orders_status _ _ => false
  | _ => true
  end.

(** The user a request is authenticated as, if any. *)
Definition authenticated (jwt_verify : string -> option Z) (authorization : option string)
  : option Z :=
  match given authorization with
  | Some token => jwt_verify token
  | None => None
  end.

(** The first customer row with the id, if any. *)
Definition customer_of (customer : list customer_row) (id : Z) : option customer_row :=
  find (fun c => cu_id c =? id) customer.

(** The rows of a page answer, none when the answer is not a page. *)
Definition page_rows {R} (r : result (reply (product_page R))) : list R :=
  match r with
  | Ok (mk_reply _ (Data page)) => products page
  | _ => []
  end.

(** The rows [LIMIT_OFFSET] lets through, none when it refuses. *)
Definition window {A} (limit offset : Z) (rows : list A) : list A :=
  match LIMIT_OFFSET limit offset rows with
  | Some w => w
  | None => []
  end.

(** Two customers, the first an admin, the second not. *)
Definition two_customers : list customer_row :=
  [mk_customer 1 (Some true); mk_customer 2 (Some false); mk_customer 3 None].

(** The tokens [t1], [t2] and [t4] verify, as the users 1, 2 and 4. *)
Definition test_jwt (token : string) : option Z :=
  if String.eqb token "t1" then Some 1
  else if String.eqb token "t2" then Some 2
  else if String.eqb token "t4" then Some 4
  else None.

(** Two categories; product 3 refers to a category that has no row. *)
Definition two_categories : list product_category_row :=
  [mk_category 1 "drinks"; mk_category 2 "dishes"].

Definition scenario_catalog : Tables :=
  mk_tables [] [] []
            [mk_product 1 "tea" "" 1000 1 4; mk_product 2 "cup" "" 500 2 30;
             mk_product 3 "orphan" "" 100 9 1; mk_product 4 "mate" "" 900 1 7] [].

(** * Properties *)

Example scenarioA_run :
  post_orders no_faults 100 7 "X" (fresh_db scenarioA 1) =
  (Ok (mk_response 201 (OrderCreated "Order created successfully" 1)),
   mk_db (mk_tables [mk_cart 8 1 5] [mk_order 1 7 "Pending" "X" None 100]
                    [mk_item 1 1 2; mk_item 1 2 1] (product scenarioA) [])
         None 2 8).
Proof. reflexivity. Qed.

Example scenarioA_fault :
  post_orders (fault_at 4) 100 7 "X" (fresh_db scenarioA 1) =
  (Ok (mk_response 400 (Message "Error creating order")),
   mk_db scenarioA None 2 6).
Proof. reflexivity. Qed.

(** ** The transaction of PlaceOrder *)

Section PlaceOrder.

Variable raises : nat -> bool.

Lemma tables_eta (t : Tables) :
  mk_tables (cart t) (customer_order t) (order_item t) (product t) (coupon t) = t.
Proof. destruct t; reflexivity. Qed.

(** One awaited statement followed by the rest of the handler. *)
Lemma query_step {A B} (run : Db -> A * Db) (k : A -> M B) (s : Db) :
  bind (query raises run) k s =
  if raises (stmts s) then (Thrown, tick s)
  else k (fst (run (tick s))) (snd (run (tick s))).
Proof.
  unfold bind, query. destruct (raises (stmts s)); [reflexivity|].
  destruct (run (tick s)); reflexivity.
Qed.

Lemma order_in_progress_eq (now userId : Z) (shippingAddress : string) (s : Db)
  (n : nat) (cleared : bool) (t : Tables) :
  cart t = (if cleared
            then filter (fun c => negb (cart_customer_id c =? userId)) (cart (tables s))
            else cart (tables s)) ->
  customer_order t =
    customer_order (tables s) ++
      [mk_order (customer_order_id_seq s) userId "Pending" shippingAddress None now] ->
  order_item t =
    order_item (tables s) ++
      map (to_order_item (customer_order_id_seq s)) (firstn n (cart_lines userId (tables s))) ->
  product t = product (tables s) ->
  coupon t = coupon (tables s) ->
  t = order_in_progress now userId shippingAddress s n cleared.
Proof.
  unfold order_in_progress. destruct t; simpl. intros; subst. reflexivity.
Qed.

(** The loop over the cart lines appends one order line per cart line until
    a statement raises or the lines are exhausted, and touches neither the
    snapshot nor the sequence. *)
Lemma for_of_INSERT_order_item (oid : Z) (items : list cart_row) :
  forall s r s',
    for_of items
      (fun item => query raises
         (on_tables (INSERT_order_item oid (cart_product_id item) (cart_quantity item)))) s
    = (r, s') ->
    tx_saved s' = tx_saved s /\
    customer_order_id_seq s' = customer_order_id_seq s /\
    exists n,
      (n <= List.length items)%nat /\
      tables s' = with_order_item
                    (order_item (tables s) ++ map (to_order_item oid) (firstn n items))
                    (tables s) /\
      (forall k, (stmts s <= k < stmts s + n)%nat -> raises k = false) /\
      ((r = Ok tt /\ n = List.length items /\ stmts s' = (stmts s + n)%nat) \/
       (r = Thrown /\ (n < List.length items)%nat /\
        raises (stmts s + n) = true /\ stmts s' = S (stmts s + n))).
Proof.
  induction items as [|c items IH]; intros s r s' H; simpl in H.
  - inversion H; subst. split; [reflexivity|]. split; [reflexivity|].
    exists 0%nat. simpl. split; [lia|]. split.
    { unfold with_order_item. simpl. rewrite app_nil_r. now rewrite tables_eta. }
    split; [intros; lia|]. left. repeat split; lia.
  - unfold bind at 1 in H. unfold query at 1 in H.
    destruct (raises (stmts s)) eqn:E.
    + inversion H; subst. split; [reflexivity|]. split; [reflexivity|].
      exists 0%nat. simpl. split; [lia|]. split.
      { unfold with_order_item. simpl. rewrite app_nil_r. now rewrite tables_eta. }
      split; [intros; lia|]. right. rewrite Nat.add_0_r.
      repeat split; [lia | exact E].
    + simpl in H.
      apply IH in H. simpl in H.
      destruct H as (Htx & Hseq & n & Hn & Ht & Hno & Hend).
      split; [exact Htx|]. split; [exact Hseq|].
      exists (S n). simpl. split; [lia|]. split.
      { rewrite Ht. unfold with_order_item. simpl. rewrite <- app_assoc. reflexivity. }
      split.
      { intros k Hk. destruct (Nat.eq_dec k (stmts s)) as [->|Hne]; [exact E|].
        apply Hno. lia. }
      replace (stmts s + S n)%nat with (S (stmts s) + n)%nat by lia.
      destruct Hend as [(Hr & Hlen & Hst) | (Hr & Hlen & Hraise & Hst)].
      * left. repeat split; auto; lia.
      * right. repeat split; auto; lia.
Qed.

(** The body of the [try] statement, from any state: either no statement
    raised and the order is committed, or the first statement that raises
    stops it where it is, inside the transaction unless [BEGIN] raised. *)
Lemma post_orders_body_outcome (now userId : Z) (shippingAddress : string) (s : Db)
  (rb : result response) (sb : Db) :
  (query raises BEGIN ;;;
   orderId <- query raises (INSERT_customer_order now userId "Pending" shippingAddress) ;;
   cartItems <- query raises (on_tables (SELECT_cart userId)) ;;
   for_of cartItems (fun item =>
     query raises
       (on_tables (INSERT_order_item orderId (cart_product_id item) (cart_quantity item)))) ;;;
   query raises (on_tables (DELETE_cart userId)) ;;;
   query raises COMMIT ;;;
   ret (mk_response 201 (OrderCreated "Order created successfully" orderId))) s
  = (rb, sb) ->
  (rb = Ok (mk_response 201
              (OrderCreated "Order created successfully" (customer_order_id_seq s))) /\
   (forall k, (stmts s <= k < stmts s + 5 +
                 List.length (cart_lines userId (tables s)))%nat -> raises k = false) /\
   customer_order_id_seq sb = customer_order_id_seq s + 1 /\
   tx_saved sb = None /\
   tables sb = order_in_progress now userId shippingAddress s
                 (List.length (cart_lines userId (tables s))) true)
  \/
  (rb = Thrown /\
   exists k, (stmts s <= k < stmts s + 5 +
                List.length (cart_lines userId (tables s)))%nat /\
             raises k = true /\
             (forall j, (stmts s <= j < k)%nat -> raises j = false) /\
             stmts sb = S k /\
             interrupted now userId shippingAddress s sb).
Proof.
  intros H.
  rewrite query_step in H.
  destruct (raises (stmts s)) eqn:E0.
  { (* BEGIN raises *)
    inversion H; subst. right. split; [reflexivity|]. exists (stmts s).
    split; [lia|]. split; [exact E0|]. split; [intros; lia|].
    split; [reflexivity|]. left. auto. }
  set (s1 := snd (BEGIN (tick s))) in H.
  assert (F1 : tables s1 = tables s /\ tx_saved s1 = Some (snapshot_of s) /\
               customer_order_id_seq s1 = customer_order_id_seq s /\
               stmts s1 = S (stmts s)).
  { unfold s1, BEGIN, snapshot_of. simpl.
    destruct (tx_saved s) eqn:Etx; simpl; rewrite ?Etx; auto. }
  clearbody s1. destruct F1 as (T1 & X1 & Q1 & N1). cbv beta in H.
  rewrite query_step in H. rewrite N1 in H.
  destruct (raises (S (stmts s))) eqn:E1.
  { (* INSERT INTO customer_order raises *)
    inversion H; subst. right. split; [reflexivity|]. exists (S (stmts s)).
    split; [lia|]. split; [exact E1|]. split.
    { intros j Hj. assert (j = stmts s) by lia. subst j. exact E0. }
    split; [simpl; lia|]. right. left.
    split; [exact T1|]. split; [exact X1 | exact Q1]. }
  set (oid := fst (INSERT_customer_order now userId "Pending" shippingAddress (tick s1))) in H.
  set (s2 := snd (INSERT_customer_order now userId "Pending" shippingAddress (tick s1))) in H.
  assert (F2 : oid = customer_order_id_seq s /\
               tables s2 = with_customer_order
                 (customer_order (tables s) ++
                    [mk_order (customer_order_id_seq s) userId "Pending"
                              shippingAddress None now]) (tables s) /\
               tx_saved s2 = Some (snapshot_of s) /\
               customer_order_id_seq s2 = customer_order_id_seq s + 1 /\
               stmts s2 = S (S (stmts s))).
  { unfold oid, s2, INSERT_customer_order. simpl. rewrite T1, X1, Q1, N1. auto. }
  clearbody oid s2. destruct F2 as (-> & T2 & X2 & Q2 & N2). cbv beta in H.
  assert (P2 : forall (n : nat) (cleared : bool) (t : Tables),
             cart t = (if cleared
                       then filter (fun c => negb (cart_customer_id c =? userId))
                                   (cart (tables s))
                       else cart (tables s)) ->
             customer_order t = customer_order (tables s2) ->
             order_item t =
               order_item (tables s2) ++
                 map (to_order_item (customer_order_id_seq s))
                     (firstn n (cart_lines userId (tables s))) ->
             product t = product (tables s2) ->
             coupon t = coupon (tables s2) ->
             t = order_in_progress now userId shippingAddress s n cleared).
  { intros n cleared t Hc Ho Hi Hp Hq. rewrite T2 in Ho, Hi, Hp, Hq.
    apply order_in_progress_eq; assumption. }
  rewrite query_step in H. rewrite N2 in H.
  destruct (raises (S (S (stmts s)))) eqn:E2.
  { (* SELECT raises *)
    inversion H; subst. right. split; [reflexivity|]. exists (S (S (stmts s))).
    split; [lia|]. split; [exact E2|]. split.
    { intros j Hj. assert (j = stmts s \/ j = S (stmts s)) as [->| ->] by lia;
        assumption. }
    split; [simpl; lia|]. right. right. exists 0%nat, false.
    split; [|split; [exact X2 | exact Q2]].
    change (tables (tick s2)) with (tables s2).
    apply P2; simpl; try reflexivity; [now rewrite T2 | now rewrite app_nil_r]. }
  set (items := fst (on_tables (SELECT_cart userId) (tick s2))) in H.
  set (s3 := snd (on_tables (SELECT_cart userId) (tick s2))) in H.
  assert (F3 : items = cart_lines userId (tables s) /\
               tables s3 = tables s2 /\
               tx_saved s3 = Some (snapshot_of s) /\
               customer_order_id_seq s3 = customer_order_id_seq s + 1 /\
               stmts s3 = S (S (S (stmts s)))).
  { unfold items, s3, on_tables, SELECT_cart, cart_lines. simpl.
    rewrite T2, X2, Q2, N2. simpl. auto. }
  clearbody items s3. destruct F3 as (-> & T3 & X3 & Q3 & N3). cbv beta in H.
  unfold bind at 1 in H.
  match type of H with
  | context [for_of ?l ?f ?st] => destruct (for_of l f st) as [rl sl] eqn:EL
  end.
  apply for_of_INSERT_order_item in EL.
  destruct EL as (XL & QL & n & Hn & TL & NoL & EndL).
  rewrite X3 in XL. rewrite Q3 in QL. rewrite N3 in NoL, EndL. rewrite T3 in TL.
  assert (Early : forall j, (stmts s <= j < S (S (S (stmts s))) + n)%nat ->
                            raises j = false).
  { intros j Hj.
    destruct (Nat.eq_dec j (stmts s)) as [->|J0]; [exact E0|].
    destruct (Nat.eq_dec j (S (stmts s))) as [->|J1]; [exact E1|].
    destruct (Nat.eq_dec j (S (S (stmts s)))) as [->|J2]; [exact E2|].
    apply NoL. lia. }
  destruct EndL as [(-> & -> & NL) | (-> & Hlt & Hraise & NL)].
  2:{ (* an INSERT INTO order_item raises *)
      inversion H; subst. right. split; [reflexivity|].
      exists (S (S (S (stmts s))) + n)%nat.
      split; [lia|]. split; [exact Hraise|]. split; [exact Early|].
      split; [exact NL|]. right. right. exists n, false.
      split; [|split; [exact XL | exact QL]].
      apply P2; rewrite TL; simpl; try reflexivity. now rewrite T2. }
  set (len := List.length (cart_lines userId (tables s))) in *.
  rewrite query_step in H. rewrite NL in H.
  destruct (raises (S (S (S (stmts s))) + len)%nat) eqn:E3.
  { (* DELETE raises *)
    inversion H; subst. right. split; [reflexivity|].
    exists (S (S (S (stmts s))) + len)%nat.
    split; [lia|]. split; [exact E3|]. split; [exact Early|].
    split; [simpl; lia|]. right. right. exists len, false.
    split; [|split; [exact XL | exact QL]].
    change (tables (tick sl)) with (tables sl).
    apply P2; rewrite TL; simpl; try reflexivity. now rewrite T2. }
  set (s4 := snd (on_tables (DELETE_cart userId) (tick sl))) in H.
  assert (F4 : tables s4 = with_cart
                 (filter (fun c => negb (cart_customer_id c =? userId)) (cart (tables sl)))
                 (tables sl) /\
               tx_saved s4 = Some (snapshot_of s) /\
               customer_order_id_seq s4 = customer_order_id_seq s + 1 /\
               stmts s4 = S (S (S (S (stmts s))) + len)%nat).
  { unfold s4, on_tables, DELETE_cart. simpl. rewrite XL, QL, NL. auto. }
  clearbody s4. destruct F4 as (T4 & X4 & Q4 & N4). cbv beta in H.
  assert (T4' : tables s4 = order_in_progress now userId shippingAddress s len true).
  { apply P2; rewrite T4; simpl; rewrite TL; simpl; try reflexivity. now rewrite T2. }
  rewrite query_step in H. rewrite N4 in H.
  destruct (raises (S (S (S (S (stmts s))) + len))%nat) eqn:E4.
  { (* COMMIT raises *)
    inversion H; subst. right. split; [reflexivity|].
    exists (S (S (S (S (stmts s))) + len))%nat.
    split; [lia|]. split; [exact E4|]. split.
    { intros j Hj.
      destruct (Nat.eq_dec j (S (S (S (stmts s))) + len)%nat) as [->|J3]; [exact E3|].
      apply Early. lia. }
    split; [simpl; lia|]. right. right. exists len, true.
    split; [exact T4'|]. split; [exact X4 | exact Q4]. }
  cbv beta in H. unfold ret in H. inversion H; subst; clear H.
  left. split; [reflexivity|]. split.
  { intros k Hk.
    destruct (Nat.eq_dec k (S (S (S (stmts s))) + len)%nat) as [->|J3]; [exact E3|].
    destruct (Nat.eq_dec k (S (S (S (S (stmts s))) + len))%nat) as [->|J4]; [exact E4|].
    apply Early. lia. }
  simpl. auto.
Qed.

(** The [try ... catch] statement, from any state.  Either no statement
    raised: it answers [201] and the order, its lines and the cleared cart
    are committed.  Or a first statement [k] raises and the handler issues
    [ROLLBACK] as statement [S k]: when that is delivered the call is
    answered [400] on the tables of [BEGIN] with no transaction open, and
    when it raises the exception leaves the handler and the connection is
    released as it is. *)
Lemma post_orders_try_outcome (now userId : Z) (shippingAddress : string) (s : Db)
  (r : result response) (s' : Db) :
  post_orders_try raises now userId shippingAddress s = (r, s') ->
  (r = Ok (mk_response 201
             (OrderCreated "Order created successfully" (customer_order_id_seq s))) /\
   (forall k, (stmts s <= k < stmts s + 5 +
                 List.length (cart_lines userId (tables s)))%nat -> raises k = false) /\
   customer_order_id_seq s' = customer_order_id_seq s + 1 /\
   tx_saved s' = None /\
   tables s' = order_in_progress now userId shippingAddress s
                 (List.length (cart_lines userId (tables s))) true)
  \/
  (exists k, (stmts s <= k < stmts s + 5 +
                List.length (cart_lines userId (tables s)))%nat /\
             raises k = true /\
             (forall j, (stmts s <= j < k)%nat -> raises j = false) /\
             ((raises (S k) = false /\
               r = Ok (mk_response 400 (Message "Error creating order")) /\
               tables s' = snapshot_of s /\ tx_saved s' = None /\
               (customer_order_id_seq s' = customer_order_id_seq s \/
                customer_order_id_seq s' = customer_order_id_seq s + 1))
              \/
              (raises (S k) = true /\ r = Thrown /\
               interrupted now userId shippingAddress s s'))).
Proof.
  intros H. unfold post_orders_try, try_catch in H.
  match type of H with
  | context [match ?b s with _ => _ end] => destruct (b s) as [rb sb] eqn:EB
  end.
  apply post_orders_body_outcome in EB.
  destruct EB as [(-> & Hno & Hq & Hx & Ht) | (-> & k & Hk & Hraise & Hmin & Hn & Hint)].
  - inversion H; subst. left. auto.
  - right. exists k. split; [exact Hk|]. split; [exact Hraise|]. split; [exact Hmin|].
    unfold bind, ROLLBACK, ret in H. rewrite Hn in H.
    destruct (raises (S k)) eqn:ER.
    + (* ROLLBACK raises *)
      right. inversion H; subst. split; [reflexivity|]. split; [reflexivity|].
      exact Hint.
    + (* ROLLBACK is delivered *)
      left. inversion H; subst; clear H. split; [reflexivity|]. split; [reflexivity|].
      unfold undo. simpl.
      destruct Hint as [(Ht & Hx & Hq) | [(Ht & Hx & Hq) | (n & c & Ht & Hx & Hq)]];
        rewrite Hx.
      * unfold snapshot_of. destruct (tx_saved s); simpl; auto.
      * simpl. auto.
      * simpl. auto.
Qed.

(** The handler, from any state: the same, counted from the step that takes
    the connection; when that step raises nothing was done. *)
Lemma post_orders_outcome (now userId : Z) (shippingAddress : string) (s : Db)
  (r : result response) (s' : Db) :
  post_orders raises now userId shippingAddress s = (r, s') ->
  (r = Ok (mk_response 201
             (OrderCreated "Order created successfully" (customer_order_id_seq s))) /\
   (forall k, statements_of_post_orders userId s k -> raises k = false) /\
   customer_order_id_seq s' = customer_order_id_seq s + 1 /\
   tx_saved s' = None /\
   tables s' = order_in_progress now userId shippingAddress s
                 (List.length (cart_lines userId (tables s))) true)
  \/
  (exists k, statements_of_post_orders userId s k /\
             raises k = true /\
             (forall j, (stmts s <= j < k)%nat -> raises j = false) /\
             ((k = stmts s /\ r = Thrown /\
               tables s' = tables s /\ tx_saved s' = tx_saved s /\
               customer_order_id_seq s' = customer_order_id_seq s)
              \/
              ((stmts s < k)%nat /\ raises (S k) = false /\
               r = Ok (mk_response 400 (Message "Error creating order")) /\
               tables s' = snapshot_of s /\ tx_saved s' = None /\
               (customer_order_id_seq s' = customer_order_id_seq s \/
                customer_order_id_seq s' = customer_order_id_seq s + 1))
              \/
              ((stmts s < k)%nat /\ raises (S k) = true /\ r = Thrown /\
               interrupted now userId shippingAddress s s'))).
Proof.
  unfold statements_of_post_orders. intros H.
  unfold post_orders in H. unfold bind at 1 in H. unfold pool_connect in H.
  destruct (raises (stmts s)) eqn:E.
  - inversion H; subst. right. exists (stmts s).
    split; [lia|]. split; [exact E|]. split; [intros; lia|]. left. simpl. auto.
  - apply post_orders_try_outcome in H.
    change (tables (tick s)) with (tables s) in H.
    change (customer_order_id_seq (tick s)) with (customer_order_id_seq s) in H.
    change (stmts (tick s)) with (S (stmts s)) in H.
    change (snapshot_of (tick s)) with (snapshot_of s) in H.
    change (interrupted now userId shippingAddress (tick s) s')
      with (interrupted now userId shippingAddress s s') in H.
    change (order_in_progress now userId shippingAddress (tick s))
      with (order_in_progress now userId shippingAddress s) in H.
    destruct H as [(Hr & Hno & Hq & Hx & Ht) | (k & Hk & Hraise & Hmin & Hend)].
    + left. repeat split; auto.
      intros k Hk. destruct (Nat.eq_dec k (stmts s)) as [->|Hne]; [exact E|].
      apply Hno. lia.
    + right. exists k. split; [lia|]. split; [exact Hraise|]. split.
      { intros j Hj. destruct (Nat.eq_dec j (stmts s)) as [->|Hne]; [exact E|].
        apply Hmin. lia. }
      right. destruct Hend as [(HR & Hend) | (HR & Hend)].
      * left. split; [lia|]. split; [exact HR|]. exact Hend.
      * right. split; [lia|]. split; [exact HR|]. exact Hend.
Qed.

(** The handler when no transaction is open: an answer [201] commits the
    order; any other outcome has a statement that raised, has committed
    nothing, and an answer [400] leaves the tables as they were with no
    transaction open. *)
Lemma post_orders_spec (now userId : Z) (shippingAddress : string) (s : Db) :
  idle s ->
  forall r s', post_orders raises now userId shippingAddress s = (r, s') ->
    (r = Ok (mk_response 201
               (OrderCreated "Order created successfully" (customer_order_id_seq s))) /\
     (forall k, statements_of_post_orders userId s k -> raises k = false) /\
     customer_order_id_seq s' = customer_order_id_seq s + 1 /\
     tables s' =
       mk_tables
         (filter (fun c => negb (cart_customer_id c =? userId)) (cart (tables s)))
         (customer_order (tables s) ++
            [mk_order (customer_order_id_seq s) userId "Pending" shippingAddress None now])
         (order_item (tables s) ++
            map (to_order_item (customer_order_id_seq s)) (cart_lines userId (tables s)))
         (product (tables s)) (coupon (tables s)) /\
     idle s')
    \/
    (created r = false /\
     (exists k, statements_of_post_orders userId s k /\ raises k = true) /\
     snapshot_of s' = tables s /\
     (tables s' = tables s \/
      exists n cleared,
        tables s' = order_in_progress now userId shippingAddress s n cleared) /\
     (r = Ok (mk_response 400 (Message "Error creating order")) \/ r = Thrown) /\
     (r = Ok (mk_response 400 (Message "Error creating order")) ->
      tables s' = tables s /\ idle s')).
Proof.
  unfold idle. intros Hidle r s' H.
  assert (Hsnap : snapshot_of s = tables s).
  { unfold snapshot_of. now rewrite Hidle. }
  apply post_orders_outcome in H. rewrite Hsnap in H.
  destruct H as [(Hr & Hno & Hq & Hx & Ht) | (k & Hk & Hraise & _ & Hend)].
  - left. repeat split; auto.
    rewrite Ht. unfold order_in_progress. now rewrite firstn_all.
  - right.
    assert (Hex : exists k, statements_of_post_orders userId s k /\ raises k = true)
      by (exists k; auto).
    destruct Hend as [(_ & -> & Ht & Hx & _) |
                      [(_ & _ & -> & Ht & Hx & _) | (_ & _ & -> & Hint)]].
    + split; [reflexivity|]. split; [exact Hex|]. split.
      { unfold snapshot_of. now rewrite Hx, Hidle. }
      split; [auto|]. split; [auto|discriminate].
    + split; [reflexivity|]. split; [exact Hex|]. split.
      { unfold snapshot_of. now rewrite Hx. }
      split; [auto|]. split; auto.
    + split; [reflexivity|]. split; [exact Hex|]. unfold interrupted in Hint.
      rewrite Hsnap in Hint.
      destruct Hint as [(Ht & Hx & _) | [(Ht & Hx & _) | (n & c & Ht & Hx & _)]].
      * split; [unfold snapshot_of; now rewrite Hx, Hidle|].
        split; [auto|]. split; [auto|discriminate].
      * split; [unfold snapshot_of; now rewrite Hx|].
        split; [auto|]. split; [auto|discriminate].
      * split; [unfold snapshot_of; now rewrite Hx|].
        split; [eauto|]. split; [auto|discriminate].
Qed.

End PlaceOrder.

(** ** What the other endpoints leave alone *)

Section Server.

Variable raises : nat -> bool.

Ltac run_handler :=
  unfold try_catch, bind, query, on_tables, ret; simpl;
  repeat match goal with
         | |- context [if raises ?k then _ else _] => destruct (raises k); simpl
         | |- context [match ?l with [] => _ | _ :: _ => _ end] => destruct l; simpl
         | |- context [if existsb ?f ?l then _ else _] => destruct (existsb f l); simpl
         end;
  auto.

(** Only [POST /orders] writes order lines, draws from the sequence or
    opens a transaction. *)
Lemma handle_other (r : request) (s : Db) :
  (forall now u a, r <> POST_orders now u a) ->
  let s' := snd (handle raises r s) in
  order_item (tables s') = order_item (tables s) /\
  customer_order_id_seq s' = customer_order_id_seq s /\
  tx_saved s' = tx_saved s.
Proof.
  intros Hr. destruct r; simpl;
    try (exfalso; eapply Hr; reflexivity).
  - unfold get_cart. run_handler.
  - unfold post_cart, INSERT_cart_ON_CONFLICT. run_handler.
  - unfold put_cart_productId. run_handler.
  - unfold delete_cart_productId. run_handler.
  - unfold delete_cart. run_handler.
  - unfold get_orders_orderId. run_handler.
  - unfold post_orders_pay. run_handler.
  - unfold patch_orders_status. run_handler.
  - unfold post_products. run_handler.
  - unfold put_products_id. run_handler.
  - unfold delete_products_id. run_handler.
  - unfold patch_products_stock. run_handler.
  - unfold post_coupons. run_handler.
  - unfold post_apply_coupon. run_handler.
  - unfold get_admin_sales_report. run_handler.
  - unfold get_admin_low_stock_alerts. run_handler.
Qed.

Lemma filter_to_order_item_same (oid : Z) (l : list cart_row) :
  filter (fun oi => oi_order_id oi =? oid) (map (to_order_item oid) l) =
  map (to_order_item oid) l.
Proof.
  induction l as [|c l IH]; simpl; [reflexivity|].
  rewrite Z.eqb_refl, IH. reflexivity.
Qed.

Lemma filter_to_order_item_other (oid oid' : Z) (l : list cart_row) :
  oid' <> oid ->
  filter (fun oi => oi_order_id oi =? oid) (map (to_order_item oid') l) = [].
Proof.
  intros Hne. induction l as [|c l IH]; simpl; [reflexivity|].
  destruct (Z.eqb_spec oid' oid); [contradiction | exact IH].
Qed.

Lemma order_lines_fresh (s : Db) (oid : Z) :
  seq_ahead s -> customer_order_id_seq s <= oid -> order_lines oid (tables s) = [].
Proof.
  unfold seq_ahead, order_lines. intros Hs Hle.
  induction (order_item (tables s)) as [|oi l IH]; simpl; [reflexivity|].
  destruct (Z.eqb_spec (oi_order_id oi) oid) as [E|E].
  - specialize (Hs oi (or_introl eq_refl)). lia.
  - apply IH. intros x Hx. apply Hs. now right.
Qed.

(** A property that holds of the tables and of the snapshot is kept by
    PlaceOrder, wherever it stops, when it allows the sequence to advance
    and an order in progress to be written. *)
Section Stable.

Variable P : Z -> Tables -> Prop.

Hypothesis P_seq : forall n t, P n t -> P (n + 1) t.

Hypothesis P_order :
  forall now u a s n cleared,
    P (customer_order_id_seq s) (tables s) ->
    P (customer_order_id_seq s + 1) (order_in_progress now u a s n cleared).

Hypothesis P_other :
  forall r s,
    (forall now u a, r <> POST_orders now u a) ->
    P (customer_order_id_seq s) (tables s) ->
    P (customer_order_id_seq s) (tables (snd (handle raises r s))).

Lemma stable_snapshot (s : Db) :
  stable P s -> P (customer_order_id_seq s) (snapshot_of s).
Proof.
  unfold stable, snapshot_of. intros (H1 & H2). destruct (tx_saved s); auto.
Qed.

Lemma post_orders_stable (now u : Z) (a : string) (s : Db) :
  stable P s -> stable P (snd (post_orders raises now u a s)).
Proof.
  intros Hst. pose proof (stable_snapshot s Hst) as Hsnap.
  destruct Hst as (H1 & H2).
  destruct (post_orders raises now u a s) as [r s'] eqn:E. simpl.
  apply post_orders_outcome in E. unfold stable.
  destruct E as [(_ & _ & Hq & Hx & Ht) | (k & _ & _ & _ & Hend)].
  - rewrite Hq, Hx, Ht. split; [now apply P_order | discriminate].
  - destruct Hend as [(_ & _ & Ht & Hx & Hq) |
                      [(_ & _ & _ & Ht & Hx & Hq) | (_ & _ & _ & Hint)]].
    + rewrite Ht, Hx, Hq. auto.
    + rewrite Ht, Hx. split; [|discriminate].
      destruct Hq as [-> | ->]; auto.
    + destruct Hint as [(Ht & Hx & Hq) | [(Ht & Hx & Hq) | (n & c & Ht & Hx & Hq)]];
        rewrite Ht, Hx, Hq.
      * auto.
      * split; [exact H1|]. intros t Heq. inversion Heq; subst. exact Hsnap.
      * split; [now apply P_order|]. intros t Heq. inversion Heq; subst.
        apply P_seq. exact Hsnap.
Qed.

Lemma handle_stable (r : request) (s : Db) :
  stable P s -> stable P (snd (handle raises r s)).
Proof.
  intros Hst.
  assert (Hcases : (exists now u a, r = POST_orders now u a) \/
                   (forall now u a, r <> POST_orders now u a)).
  { destruct r; try (right; intros; discriminate). left; eauto. }
  destruct Hcases as [(now & u & a & ->) | Hother].
  - simpl. now apply post_orders_stable.
  - destruct (handle_other r s Hother) as (_ & Hq & Hx).
    destruct Hst as (H1 & H2). unfold stable. cbv zeta in Hq, Hx.
    rewrite Hq, Hx. split; [now apply P_other | exact H2].
Qed.

Lemma serve_stable (rs : list request) :
  forall s, stable P s -> stable P (serve raises rs s).
Proof.
  induction rs as [|r rs IH]; intros s Hst; simpl; [exact Hst|].
  apply IH. now apply handle_stable.
Qed.

End Stable.

Lemma stable_idle (P : Z -> Tables -> Prop) (s : Db) :
  idle s -> P (customer_order_id_seq s) (tables s) -> stable P s.
Proof.
  unfold idle, stable. intros Hidle HP. split; [exact HP|].
  intros t Ht. rewrite Hidle in Ht. discriminate.
Qed.

(** The lines of an order that exists stay what they are, whatever the
    server answers next. *)
Lemma serve_order_lines (rs : list request) (s : Db) (oid : Z) (L : list order_item_row) :
  idle s -> oid < customer_order_id_seq s -> order_lines oid (tables s) = L ->
  order_lines oid (tables (serve raises rs s)) = L.
Proof.
  intros Hidle Hlt HL.
  assert (Hst : stable (fun n t => oid < n /\ order_lines oid t = L) s).
  { apply stable_idle; auto. }
  apply (serve_stable (fun n t => oid < n /\ order_lines oid t = L)) with (rs := rs) in Hst.
  - destruct Hst as ((_ & Ht) & _). exact Ht.
  - intros n t (Hn & Ht). split; [lia | exact Ht].
  - intros now u a s0 n cleared (Hn & Ht). split; [lia|].
    unfold order_lines, order_in_progress. simpl.
    rewrite filter_app, filter_to_order_item_other by lia.
    rewrite app_nil_r. exact Ht.
  - intros r s0 Hother (Hn & Ht). split; [exact Hn|].
    destruct (handle_other r s0 Hother) as (Hi & _). cbv zeta in Hi.
    unfold order_lines in *. now rewrite Hi.
Qed.

End Server.

(** ** PlaceOrder: atomicity, cart clearing, line fidelity *)

Lemma filter_negb_filter {A} (p : A -> bool) (l : list A) :
  filter p (filter (fun x => negb (p x)) l) = [].
Proof.
  induction l as [|x l IH]; simpl; [reflexivity|].
  destruct (p x) eqn:E; simpl; [exact IH|]. rewrite E. exact IH.
Qed.

Lemma filter_none_negb {A} (p : A -> bool) (l : list A) :
  filter p l = [] -> filter (fun x => negb (p x)) l = l.
Proof.
  induction l as [|x l IH]; simpl; [reflexivity|].
  destruct (p x); simpl; [discriminate|]. intros H. now rewrite IH.
Qed.

(** What is left when, in scenario A, the first INSERT INTO order_item
    raises and the ROLLBACK of the handler raises too: no answer is sent,
    and the connection is released with the transaction open on the header
    written so far. *)
Example scenarioA_rollback_raises :
  post_orders (fun k => orb (fault_at 4 k) (fault_at 5 k)) 100 7 "X" (fresh_db scenarioA 1) =
  (Thrown,
   mk_db (mk_tables (cart scenarioA) [mk_order 1 7 "Pending" "X" None 100] []
                    (product scenarioA) [])
         (Some scenarioA) 2 6).
Proof. reflexivity. Qed.

(** C1. PlaceOrder is atomic.  A call fails (is not answered with 201)
    exactly when one of its statements raises, whichever it is, and a
    failed call commits nothing: the tables outside the transaction are
    those of before the call.  When the connection cannot be taken nothing
    is done.  Whichever statement raises first after that, the handler
    issues ROLLBACK as the next statement, and when this ROLLBACK is
    delivered the call is answered 400.  After a call answered 400 the order
    headers, the order lines and the cart, indeed all tables, are what they
    were before the call, and no transaction is open. *)
Theorem place_order_atomic (raises : nat -> bool) (now userId : Z)
  (shippingAddress : string) (s s' : Db) (r : result response) :
  idle s ->
  post_orders raises now userId shippingAddress s = (r, s') ->
  ((exists k, statements_of_post_orders userId s k /\ raises k = true) <->
   created r = false) /\
  (created r = false -> snapshot_of s' = tables s) /\
  (forall k, statements_of_post_orders userId s k -> raises k = true ->
             (forall j, (stmts s <= j < k)%nat -> raises j = false) ->
             (k = stmts s -> r = Thrown /\ tables s' = tables s /\ idle s') /\
             ((stmts s < k)%nat -> raises (S k) = false ->
              r = Ok (mk_response 400 (Message "Error creating order")))) /\
  (r = Ok (mk_response 400 (Message "Error creating order")) ->
   customer_order (tables s') = customer_order (tables s) /\
   order_item (tables s') = order_item (tables s) /\
   cart (tables s') = cart (tables s) /\
   tables s' = tables s /\ idle s').
Proof.
  intros Hidle H.
  assert (Hfirst :
    forall k, statements_of_post_orders userId s k -> raises k = true ->
              (forall j, (stmts s <= j < k)%nat -> raises j = false) ->
              (k = stmts s -> r = Thrown /\ tables s' = tables s /\ idle s') /\
              ((stmts s < k)%nat -> raises (S k) = false ->
               r = Ok (mk_response 400 (Message "Error creating order")))).
  { intros k Hk Hraise Hmin.
    destruct (post_orders_outcome raises now userId shippingAddress s r s' H)
      as [(_ & Hno & _) | (k' & Hk' & Hraise' & Hmin' & Hend)].
    { rewrite (Hno k Hk) in Hraise. discriminate. }
    assert (k' = k).
    { unfold statements_of_post_orders in Hk, Hk'.
      destruct (Nat.lt_trichotomy k' k) as [Hlt | [Heq | Hgt]]; [|exact Heq|].
      - rewrite (Hmin k') in Hraise' by lia. discriminate.
      - rewrite (Hmin' k) in Hraise by lia. discriminate. }
    subst k'. unfold idle in *.
    destruct Hend as [(Hk0 & -> & Ht & Hx & _) |
                      [(Hlt & HR & -> & _) | (Hlt & HR & _)]].
    - split; [intros _|intros; lia].
      split; [reflexivity|]. split; [exact Ht | now rewrite Hx].
    - split; [intros; lia | intros; reflexivity].
    - split; [intros; lia | intros _ HR'; congruence]. }
  destruct (post_orders_spec raises now userId shippingAddress s Hidle r s' H)
    as [(Hr & Hno & _) | (Hr & Hex & Hsnap & _ & _ & H400)].
  - subst r. simpl. split.
    { split; [|discriminate].
      intros (k & Hk & Hraise). rewrite (Hno k Hk) in Hraise. discriminate. }
    split; [discriminate|]. split; [exact Hfirst | discriminate].
  - split; [tauto|]. split; [auto|]. split; [exact Hfirst|].
    intros H4. destruct (H400 H4) as (Ht & Hi). rewrite Ht. auto.
Qed.

Lemma place_order_atomic_witness :
  let s := fresh_db scenarioA 1 in
  let out := post_orders (fault_at 4) 100 7 "X" s in
  idle s /\
  ((exists k, statements_of_post_orders 7 s k /\ fault_at 4 k = true) <->
   created (fst out) = false) /\
  (created (fst out) = false -> snapshot_of (snd out) = tables s) /\
  (forall k, statements_of_post_orders 7 s k -> fault_at 4 k = true ->
             (forall j, (stmts s <= j < k)%nat -> fault_at 4 j = false) ->
             (k = stmts s ->
              fst out = Thrown /\ tables (snd out) = tables s /\ idle (snd out)) /\
             ((stmts s < k)%nat -> fault_at 4 (S k) = false ->
              fst out = Ok (mk_response 400 (Message "Error creating order")))) /\
  (fst out = Ok (mk_response 400 (Message "Error creating order")) ->
   customer_order (tables (snd out)) = customer_order (tables s) /\
   order_item (tables (snd out)) = order_item (tables s) /\
   cart (tables (snd out)) = cart (tables s) /\
   tables (snd out) = tables s /\ idle (snd out)).
Proof.
  split; [reflexivity|].
  apply (place_order_atomic (fault_at 4) 100 7 "X" (fresh_db scenarioA 1));
    reflexivity.
Defined.

(** C5. After a PlaceOrder for customer X that was answered with 201, the
    cart of X has no line: the query PlaceOrder reads the cart with and the
    query of [GET /cart] both return zero rows. *)
Theorem cart_empty_after_place_order (raises : nat -> bool) (now userId : Z)
  (shippingAddress : string) (s s' : Db) (r : result response) :
  idle s ->
  post_orders raises now userId shippingAddress s = (r, s') ->
  created r = true ->
  cart_lines userId (tables s') = [] /\
  fst (SELECT_cart_JOIN_product userId (tables s')) = [] /\
  (raises (stmts s') = false ->
   fst (get_cart raises userId s') = Ok (mk_response 200 (CartRows []))).
Proof.
  intros Hidle H Hok.
  destruct (post_orders_spec raises now userId shippingAddress s Hidle r s' H)
    as [(_ & _ & _ & Ht & _) | (Hr & _)]; [|congruence].
  assert (Hempty : filter (fun c => cart_customer_id c =? userId) (cart (tables s')) = []).
  { rewrite Ht. simpl. apply (filter_negb_filter (fun c => cart_customer_id c =? userId)). }
  split; [exact Hempty|].
  split.
  - unfold SELECT_cart_JOIN_product. simpl. now rewrite Hempty.
  - intros Hno. unfold get_cart, try_catch, bind, query, on_tables, ret.
    rewrite Hno. unfold SELECT_cart_JOIN_product. simpl. now rewrite Hempty.
Qed.

Lemma cart_empty_after_place_order_witness :
  let s := fresh_db scenarioA 1 in
  let out := post_orders no_faults 100 7 "X" s in
  idle s /\ created (fst out) = true /\
  cart_lines 7 (tables (snd out)) = [] /\
  fst (SELECT_cart_JOIN_product 7 (tables (snd out))) = [] /\
  (no_faults (stmts (snd out)) = false ->
   fst (get_cart no_faults 7 (snd out)) = Ok (mk_response 200 (CartRows []))).
Proof.
  split; [reflexivity|]. split; [reflexivity|].
  apply (cart_empty_after_place_order no_faults 100 7 "X" (fresh_db scenarioA 1)
           _ (fst (post_orders no_faults 100 7 "X" (fresh_db scenarioA 1))));
    reflexivity.
Defined.



(** ** PlaceOrder on an empty cart *)

(** C2, refuted as stated: customer 7 has no cart line, no statement raises,
    and PlaceOrder answers 201 and commits an order header. *)
Lemma place_order_empty_cart_counterexample :
  cart_lines 7 empty_tables = [] /\
  post_orders no_faults 100 7 "X" (fresh_db empty_tables 1) =
  (Ok (mk_response 201 (OrderCreated "Order created successfully" 1)),
   mk_db (mk_tables [] [mk_order 1 7 "Pending" "X" None 100] [] [] []) None 2 6).
Proof. split; reflexivity. Qed.

(** C2, amended.  PlaceOrder does not look whether the cart is empty: for
    every customer whose cart has no line, a call in which no statement
    raises is answered with 201 and commits an order header with status
    Pending, no order line, and leaves the cart table as it is. *)
Theorem place_order_empty_cart (raises : nat -> bool) (now userId : Z)
  (shippingAddress : string) (s : Db) :
  idle s ->
  cart_lines userId (tables s) = [] ->
  (forall k, statements_of_post_orders userId s k -> raises k = false) ->
  let out := post_orders raises now userId shippingAddress s in
  let orderId := customer_order_id_seq s in
  fst out = Ok (mk_response 201 (OrderCreated "Order created successfully" orderId)) /\
  customer_order (tables (snd out)) =
    customer_order (tables s) ++ [mk_order orderId userId "Pending" shippingAddress None now] /\
  order_item (tables (snd out)) = order_item (tables s) /\
  cart (tables (snd out)) = cart (tables s).
Proof.
  intros Hidle Hempty Hno out orderId. subst out.
  destruct (post_orders raises now userId shippingAddress s) as [r s'] eqn:E. simpl.
  destruct (post_orders_spec raises now userId shippingAddress s Hidle r s' E)
    as [(Hr & _ & _ & Ht & _) | (_ & (k & Hk & Hraise) & _)].
  - rewrite Ht, Hempty. simpl. rewrite app_nil_r.
    repeat split; auto.
    apply (filter_none_negb (fun c => cart_customer_id c =? userId)). exact Hempty.
  - rewrite (Hno k Hk) in Hraise. discriminate.
Qed.

Lemma place_order_empty_cart_witness :
  let s := fresh_db scenarioA 1 in
  let out := post_orders no_faults 100 9 "X" s in
  idle s /\ cart_lines 9 (tables s) = [] /\
  fst out = Ok (mk_response 201 (OrderCreated "Order created successfully" 1)) /\
  customer_order (tables (snd out)) = [mk_order 1 9 "Pending" "X" None 100] /\
  order_item (tables (snd out)) = [] /\
  cart (tables (snd out)) = cart scenarioA.
Proof.
  split; [reflexivity|]. split; [reflexivity|].
  apply (place_order_empty_cart no_faults 100 9 "X" (fresh_db scenarioA 1));
    reflexivity.
Defined.

(** ** Pay *)

(** C4, refuted as stated: order 1 is already Paid by card; a second Pay is
    answered with 200 and the payment method is overwritten. *)
Lemma pay_twice_counterexample :
  post_orders_pay no_faults 7 1 "paypal" (fresh_db scenarioD_paid 2) =
  (Ok (mk_response 200 (Message "Payment processed successfully")),
   mk_db (mk_tables [] [mk_order 1 7 "Paid" "X" (Some "paypal") 100] [mk_item 1 1 2]
                    [mk_product 1 "tea" "" 1000 1 4] [])
         None 2 2).
Proof. reflexivity. Qed.

Lemma SELECT_customer_order_owned (userId orderId : Z) (t : Tables) :
  owns_order userId orderId t <-> fst (SELECT_customer_order orderId userId t) <> [].
Proof.
  unfold owns_order, SELECT_customer_order. simpl. split.
  - intros (o & Hin & Hid & Hu) Hnil.
    assert (Hf : In o (filter (fun o => (co_id o =? orderId) && (co_customer_id o =? userId))
                              (customer_order t))).
    { apply filter_In. split; [exact Hin|]. subst. now rewrite !Z.eqb_refl. }
    rewrite Hnil in Hf. exact Hf.
  - destruct (filter _ _) as [|o l] eqn:E; [congruence|]. intros _.
    assert (Hf : In o (o :: l)) by now left.
    rewrite <- E in Hf. apply filter_In in Hf. destruct Hf as (Hin & Hb).
    apply andb_true_iff in Hb. destruct Hb as (H1 & H2).
    exists o. repeat split; auto; now apply Z.eqb_eq.
Qed.

(** C4, amended.  Pay does not look at the status of the order.  When its
    two statements do not raise: if the customer owns an order with that
    id, whatever its status, Pay is answered with 200, every row with that
    id has status Paid and the payment method of this call, and the other
    rows are as before; otherwise Pay is answered with 404 and changes
    nothing. *)
Theorem pay_ignores_status (raises : nat -> bool) (userId orderId : Z)
  (paymentMethod : string) (s : Db) :
  raises (stmts s) = false ->
  raises (S (stmts s)) = false ->
  let out := post_orders_pay raises userId orderId paymentMethod s in
  (owns_order userId orderId (tables s) ->
   fst out = Ok (mk_response 200 (Message "Payment processed successfully")) /\
   customer_order (tables (snd out)) =
     map (fun o => if co_id o =? orderId
                   then mk_order (co_id o) (co_customer_id o) "Paid"
                                 (co_shipping_address o) (Some paymentMethod)
                                 (co_created_at o)
                   else o) (customer_order (tables s)) /\
   forall o, In o (customer_order (tables (snd out))) -> co_id o = orderId ->
             co_status o = "Paid" /\ co_payment_method o = Some paymentMethod) /\
  (~ owns_order userId orderId (tables s) ->
   fst out = Ok (mk_response 404 (Message "Order not found")) /\
   tables (snd out) = tables s).
Proof.
  intros H0 H1 out. subst out.
  unfold post_orders_pay, try_catch, bind, query, on_tables, ret.
  rewrite H0. simpl.
  pose proof (SELECT_customer_order_owned userId orderId (tables s)) as Hown.
  unfold SELECT_customer_order in Hown. simpl in Hown.
  destruct (filter _ (customer_order (tables s))) as [|o l] eqn:E; simpl.
  - split.
    + intros Ho. apply Hown in Ho. congruence.
    + intros _. split; reflexivity.
  - rewrite H1. simpl. split.
    + intros _. split; [reflexivity|]. split; [reflexivity|].
      intros o' Hin Hid. apply in_map_iff in Hin.
      destruct Hin as (x & Hx & _).
      destruct (Z.eqb_spec (co_id x) orderId) as [Heq|Hne].
      * subst o'. simpl. auto.
      * subst o'. contradiction.
    + intros Hnot. exfalso. apply Hnot. apply Hown. discriminate.
Qed.

Lemma pay_ignores_status_witness :
  let s := fresh_db scenarioD_paid 2 in
  let out := post_orders_pay no_faults 7 1 "paypal" s in
  owns_order 7 1 (tables s) /\
  fst out = Ok (mk_response 200 (Message "Payment processed successfully")) /\
  customer_order (tables (snd out)) = [mk_order 1 7 "Paid" "X" (Some "paypal") 100].
Proof.
  assert (Hown : owns_order 7 1 (tables (fresh_db scenarioD_paid 2))).
  { exists (mk_order 1 7 "Paid" "X" (Some "card") 100). simpl. auto. }
  split; [exact Hown|].
  destruct (pay_ignores_status no_faults 7 1 "paypal" (fresh_db scenarioD_paid 2)
              eq_refl eq_refl) as ((Hr & Ht & _) & _); [exact Hown|].
  split; [exact Hr | exact Ht].
Defined.

(** ** Coupon validation *)

Lemma NoDup_map_inj {A B} (f : A -> B) (l : list A) (a b : A) :
  NoDup (map f l) -> In a l -> In b l -> f a = f b -> a = b.
Proof.
  induction l as [|x l IH]; simpl; intros Hnd Ha Hb Hf; [contradiction|].
  inversion Hnd as [|? ? Hx Hl]; subst.
  destruct Ha as [->|Ha], Hb as [->|Hb]; auto.
  - exfalso. apply Hx. rewrite Hf. now apply in_map.
  - exfalso. apply Hx. rewrite <- Hf. now apply in_map.
Qed.

Lemma SELECT_coupon_In (today : Z) (code : string) (t : Tables) (c : coupon_row) :
  In c (fst (SELECT_coupon today code t)) <->
  In c (coupon t) /\ cp_code c = code /\ in_window c today.
Proof.
  unfold SELECT_coupon, in_window. simpl. rewrite filter_In.
  rewrite !andb_true_iff, String.eqb_eq, Z.leb_le, Z.geb_le. tauto.
Qed.

(** C7.  With coupon codes unique and the query not raising, validation
    answers 200 with discount [d] if and only if the coupon with that code
    exists, has discount [d], and [validFrom <= today <= validTo], both ends
    included; it answers 404 (invalid or expired) exactly when every coupon
    with that code, if any, has [today] strictly before [validFrom] or
    strictly after [validTo].  It changes no table. *)
Theorem apply_coupon_window (raises : nat -> bool) (today : Z) (code : string) (s : Db) :
  raises (stmts s) = false ->
  NoDup (map cp_code (coupon (tables s))) ->
  let out := post_apply_coupon raises today code s in
  (forall d,
     fst out = Ok (mk_response 200 (CouponApplied "Coupon applied successfully" d)) <->
     exists c, In c (coupon (tables s)) /\ cp_code c = code /\
               cp_discount_percent c = d /\ in_window c today) /\
  (fst out = Ok (mk_response 404 (Message "Invalid or expired coupon")) <->
   forall c, In c (coupon (tables s)) -> cp_code c = code ->
             today < cp_valid_from c \/ cp_valid_to c < today) /\
  tables (snd out) = tables s.
Proof.
  intros Hno Hnd out. subst out.
  pose proof (SELECT_coupon_In today code (tables s)) as Hsel.
  unfold post_apply_coupon, try_catch, bind, query, on_tables, ret.
  rewrite Hno.
  destruct (SELECT_coupon today code (tables (tick s))) as [rows t'] eqn:E.
  assert (Ht : t' = tables s) by (unfold SELECT_coupon in E; now inversion E).
  assert (Hrows : rows = fst (SELECT_coupon today code (tables s)))
    by (change (tables (tick s)) with (tables s) in E; now rewrite E).
  rewrite Hrows. clear E Hrows rows.
  destruct (fst (SELECT_coupon today code (tables s))) as [|c0 rest]; simpl.
  - split; [|split; [|now subst]].
    + intros d. split; [discriminate|].
      intros (c & Hin & Hc & _ & Hw).
      exfalso. apply (proj2 (Hsel c)). auto.
    + split; [|reflexivity]. intros _ c Hin Hc.
      destruct (Z.lt_ge_cases today (cp_valid_from c)) as [?|Hge]; [now left|].
      destruct (Z.lt_ge_cases (cp_valid_to c) today) as [?|Hle]; [now right|].
      exfalso. apply (proj2 (Hsel c)). unfold in_window. auto.
  - destruct (proj1 (Hsel c0) (or_introl eq_refl)) as (Hin0 & Hc0 & Hw0).
    split; [|split; [|now subst]].
    + intros d. split.
      * intros H. inversion H; subst. exists c0. auto.
      * intros (c & Hin & Hc & Hd & Hw).
        assert (c = c0) by (eapply NoDup_map_inj; eauto; congruence).
        subst. reflexivity.
    + split; [discriminate|]. intros H.
      destruct (H c0 Hin0 Hc0); unfold in_window in Hw0; lia.
Qed.

Lemma apply_coupon_window_witness :
  let s := fresh_db scenarioC 1 in
  NoDup (map cp_code (coupon (tables s))) /\
  fst (post_apply_coupon no_faults 1 "SAVE10" s) =
    Ok (mk_response 200 (CouponApplied "Coupon applied successfully" 10)) /\
  fst (post_apply_coupon no_faults 31 "SAVE10" s) =
    Ok (mk_response 200 (CouponApplied "Coupon applied successfully" 10)) /\
  (fst (post_apply_coupon no_faults 32 "SAVE10" s) =
     Ok (mk_response 404 (Message "Invalid or expired coupon")) <->
   forall c, In c (coupon (tables s)) -> cp_code c = "SAVE10" ->
             32 < cp_valid_from c \/ cp_valid_to c < 32).
Proof.
  assert (Hnd : NoDup (map cp_code (coupon (tables (fresh_db scenarioC 1))))).
  { simpl. repeat constructor; simpl; intuition discriminate. }
  split; [exact Hnd|].
  split; [reflexivity|]. split; [reflexivity|].
  exact (proj1 (proj2 (apply_coupon_window no_faults 32 "SAVE10" (fresh_db scenarioC 1)
                         eq_refl Hnd))).
Defined.

(** ** Reports *)

Lemma Sorted_weaken {A} (R R' : A -> A -> Prop) (l : list A) :
  (forall a b, R a b -> R' a b) -> Sorted R l -> Sorted R' l.
Proof.
  intros Himp Hs. induction Hs as [|a l Hl IH Hhd]; constructor; [exact IH|].
  destruct Hhd; constructor. now apply Himp.
Qed.

Section OrderBy.

Context {A : Type} (le : A -> A -> bool).
Hypothesis le_total : forall a b, le a b = true \/ le b a = true.

Lemma insert_by_perm (x : A) (l : list A) : Permutation (insert_by le x l) (x :: l).
Proof.
  induction l as [|y l IH]; simpl; [reflexivity|].
  destruct (le x y); [reflexivity|].
  rewrite IH. apply perm_swap.
Qed.

Lemma ORDER_BY_perm (l : list A) : Permutation (ORDER_BY le l) l.
Proof.
  induction l as [|x l IH]; simpl; [reflexivity|].
  rewrite insert_by_perm. now constructor.
Qed.

Lemma insert_by_sorted (x : A) (l : list A) :
  Sorted (fun a b => le a b = true) l ->
  Sorted (fun a b => le a b = true) (insert_by le x l).
Proof.
  induction l as [|y l IH]; simpl; intros Hs.
  - repeat constructor.
  - destruct (le x y) eqn:E.
    + constructor; [exact Hs | constructor; exact E].
    + inversion Hs as [|? ? Hl Hhd]; subst.
      constructor; [now apply IH|].
      destruct l as [|z l]; simpl.
      * constructor. destruct (le_total x y); congruence.
      * destruct (le x z).
        -- constructor. destruct (le_total x y); congruence.
        -- inversion Hhd; subst. now constructor.
Qed.

Lemma ORDER_BY_sorted (l : list A) : Sorted (fun a b => le a b = true) (ORDER_BY le l).
Proof.
  induction l as [|x l IH]; simpl; [constructor|].
  now apply insert_by_sorted.
Qed.

End OrderBy.

(** C9.  For every threshold, when the query does not raise, the low-stock
    report is answered with 200 and its rows are exactly the products with
    [stock_quantity <= threshold] (a permutation of them: none missing, none
    twice, none with a larger stock), in ascending order of stock
    quantity. *)
Theorem low_stock_alerts_spec (raises : nat -> bool) (threshold : Z) (s : Db) :
  raises (stmts s) = false ->
  exists rows,
    fst (get_admin_low_stock_alerts raises (Some threshold) s) =
      Ok (mk_response 200 (StockRows rows)) /\
    Permutation rows (low_stock_products threshold (tables s)) /\
    (forall p, In p (product (tables s)) ->
               (In (stock_row_of p) rows <-> p_stock_quantity p <= threshold)) /\
    (forall row, In row rows -> st_stock_quantity row <= threshold) /\
    StronglySorted (fun a b => st_stock_quantity a <= st_stock_quantity b) rows.
Proof.
  intros Hno.
  unfold get_admin_low_stock_alerts, try_catch, bind, query, on_tables, ret.
  rewrite Hno. simpl.
  set (le := fun a b => st_stock_quantity a <=? st_stock_quantity b).
  fold stock_row_of. fold (low_stock_products threshold (tables s)).
  exists (ORDER_BY le (low_stock_products threshold (tables s))).
  assert (Hperm : Permutation (ORDER_BY le (low_stock_products threshold (tables s)))
                              (low_stock_products threshold (tables s)))
    by apply ORDER_BY_perm.
  assert (Hin : forall row, In row (ORDER_BY le (low_stock_products threshold (tables s))) ->
                            st_stock_quantity row <= threshold).
  { intros row Hrow. apply (Permutation_in _ Hperm) in Hrow.
    unfold low_stock_products in Hrow. apply in_map_iff in Hrow.
    destruct Hrow as (p & <- & Hp). apply filter_In in Hp.
    simpl. now apply Z.leb_le. }
  split; [reflexivity|]. split; [exact Hperm|]. split; [|split; [exact Hin|]].
  - intros p Hp. split.
    + intros Hrow. apply (Hin _ Hrow).
    + intros Hle. apply (Permutation_in _ (Permutation_sym Hperm)).
      unfold low_stock_products. apply in_map. apply filter_In.
      split; [exact Hp | now apply Z.leb_le].
  - apply Sorted_StronglySorted.
    + intros a b c. lia.
    + apply Sorted_weaken with (R := fun a b => le a b = true).
      * intros a b Hab. unfold le in Hab. now apply Z.leb_le.
      * apply ORDER_BY_sorted. intros a b. unfold le.
        rewrite !Z.leb_le. lia.
Qed.

Lemma low_stock_alerts_spec_witness :
  exists rows,
    fst (get_admin_low_stock_alerts no_faults (Some 10) (fresh_db scenarioA 1)) =
      Ok (mk_response 200 (StockRows rows)) /\
    Permutation rows (low_stock_products 10 scenarioA) /\
    (forall p, In p (product scenarioA) ->
               (In (stock_row_of p) rows <-> p_stock_quantity p <= 10)) /\
    (forall row, In row rows -> st_stock_quantity row <= 10) /\
    StronglySorted (fun a b => st_stock_quantity a <= st_stock_quantity b) rows.
Proof.
  exact (low_stock_alerts_spec no_faults 10 (fresh_db scenarioA 1) eq_refl).
Defined.

Lemma map_flat_map {A B C} (h : B -> C) (f : A -> list B) (l : list A) :
  map h (flat_map f l) = flat_map (fun x => map h (f x)) l.
Proof.
  induction l as [|x l IH]; simpl; [reflexivity|].
  now rewrite map_app, IH.
Qed.

Lemma map_const_filter_map {A B} (b : B) (p : A -> bool) (g : A -> A) (l : list A) :
  (forall x, p (g x) = p x) ->
  map (fun _ => b) (filter p (map g l)) = map (fun _ => b) (filter p l).
Proof.
  intros Hp. induction l as [|x l IH]; simpl; [reflexivity|].
  rewrite Hp. destruct (p x); simpl; now rewrite IH.
Qed.

Lemma sum_Z_app (l1 l2 : list Z) : sum_Z (l1 ++ l2) = sum_Z l1 + sum_Z l2.
Proof.
  induction l1 as [|x l1 IH]; simpl; [reflexivity|]. rewrite IH. lia.
Qed.

Lemma sum_Z_perm (l1 l2 : list Z) : Permutation l1 l2 -> sum_Z l1 = sum_Z l2.
Proof.
  induction 1; simpl; lia.
Qed.

Lemma sum_Z_map_add {A} (f g : A -> Z) (l : list A) :
  sum_Z (map (fun x => f x + g x) l) = sum_Z (map f l) + sum_Z (map g l).
Proof.
  induction l as [|x l IH]; simpl; [reflexivity|]. rewrite IH. lia.
Qed.

Lemma group_key_eqb_refl (k : group_key) : group_key_eqb k k = true.
Proof. unfold group_key_eqb. destruct (group_key_eq_dec k k); congruence. Qed.

Lemma group_key_eqb_neq (a b : group_key) : a <> b -> group_key_eqb a b = false.
Proof. unfold group_key_eqb. destruct (group_key_eq_dec a b); congruence. Qed.

(** A value counted under its own key only is counted once. *)
Lemma sum_Z_indicator (k0 : group_key) (v : Z) (ks : list group_key) :
  NoDup ks -> In k0 ks ->
  sum_Z (map (fun k => if group_key_eqb k0 k then v else 0) ks) = v.
Proof.
  induction ks as [|k ks IH]; simpl; intros Hnd Hin; [contradiction|].
  inversion Hnd as [|? ? Hk Hks]; subst.
  destruct Hin as [->|Hin].
  - rewrite group_key_eqb_refl.
    assert (Hz : sum_Z (map (fun k => if group_key_eqb k0 k then v else 0) ks) = 0).
    { clear IH Hnd Hks. induction ks as [|k ks IH]; simpl; [reflexivity|].
      rewrite group_key_eqb_neq, IH; [reflexivity| |].
      - intros Hin. apply Hk. now right.
      - intros ->. apply Hk. now left. }
    lia.
  - rewrite group_key_eqb_neq by (intros ->; contradiction).
    rewrite IH; auto.
Qed.

(** Grouping loses nothing and counts nothing twice. *)
Lemma group_sum {A} (key : A -> group_key) (g : A -> Z) (ks : list group_key)
  (rows : list A) :
  NoDup ks -> (forall r, In r rows -> In (key r) ks) ->
  sum_Z (map (fun k => sum_Z (map g (filter (fun r => group_key_eqb (key r) k) rows))) ks) =
  sum_Z (map g rows).
Proof.
  intros Hnd. induction rows as [|r rows IH]; simpl; intros Hin.
  - induction ks as [|k ks IHk]; simpl; [reflexivity|].
    inversion Hnd; subst. now rewrite IHk.
  - rewrite <- IH by (intros x Hx; apply Hin; now right).
    rewrite <- (sum_Z_indicator (key r) (g r) ks Hnd) at 1
      by (apply Hin; now left).
    rewrite <- sum_Z_map_add. f_equal. apply map_ext. intros k.
    destruct (group_key_eqb (key r) k); simpl; lia.
Qed.

(** The rows the sales query aggregates do not depend on the status
    column. *)
Lemma sales_join_restatus (f : customer_order_row -> string) (startDate endDate : Z)
  (t : Tables) :
  map fst (sales_join startDate endDate (restatus f t)) =
  map fst (sales_join startDate endDate t).
Proof.
  unfold sales_join, restatus. simpl.
  rewrite !map_flat_map. apply flat_map_ext. intros oi.
  rewrite !map_flat_map. apply flat_map_ext. intros p.
  rewrite !map_map. simpl.
  apply (map_const_filter_map (oi, p)). intros o. reflexivity.
Qed.

Lemma sales_join_In (startDate endDate : Z) (t : Tables)
  (oi : order_item_row) (p : product_row) (co : customer_order_row) :
  In (oi, p, co) (sales_join startDate endDate t) <->
  In oi (order_item t) /\ In p (product t) /\ In co (customer_order t) /\
  oi_product_id oi = p_id p /\ oi_order_id oi = co_id co /\
  startDate <= co_created_at co <= endDate.
Proof.
  unfold sales_join. rewrite in_flat_map. split.
  - intros (oi' & Hoi & H). apply in_flat_map in H. destruct H as (p' & Hp & H).
    apply in_map_iff in H. destruct H as (co' & Heq & Hco).
    inversion Heq; subst. apply filter_In in Hp. apply filter_In in Hco.
    destruct Hp as (Hp & Hpid). destruct Hco as (Hco & Hb).
    rewrite !andb_true_iff, !Z.leb_le in Hb. apply Z.eqb_eq in Hpid.
    destruct Hb as ((Hid & H1) & H2). apply Z.eqb_eq in Hid. tauto.
  - intros (Hoi & Hp & Hco & Hpid & Hid & H1 & H2).
    exists oi. split; [exact Hoi|]. apply in_flat_map.
    exists p. split; [apply filter_In; split; [exact Hp | now apply Z.eqb_eq]|].
    apply in_map_iff. exists co. split; [reflexivity|].
    apply filter_In. split; [exact Hco|].
    rewrite !andb_true_iff, !Z.leb_le. repeat split; auto. now apply Z.eqb_eq.
Qed.

Lemma filter_map_comm {A B} (p : B -> bool) (g : A -> B) (l : list A) :
  filter p (map g l) = map g (filter (fun x => p (g x)) l).
Proof.
  induction l as [|x l IH]; simpl; [reflexivity|].
  destruct (p (g x)); simpl; now rewrite IH.
Qed.

(** The rows of a grouped answer are those of the keys that occur, each
    with the sums over its group. *)
Lemma GROUP_BY_product_In (rows : list (order_item_row * product_row)) (row : sales_row) :
  In row (GROUP_BY_product rows) <->
  exists r, In r rows /\
    row = mk_sales (p_id (snd r)) (p_name (snd r))
            (sum_Z (map (fun x => oi_quantity (fst x))
                        (filter (fun x => group_key_eqb (p_id (snd x), p_name (snd x))
                                                        (p_id (snd r), p_name (snd r)))
                                rows)))
            (sum_Z (map (fun x => oi_quantity (fst x) * p_price (snd x))
                        (filter (fun x => group_key_eqb (p_id (snd x), p_name (snd x))
                                                        (p_id (snd r), p_name (snd r)))
                                rows))).
Proof.
  unfold GROUP_BY_product. rewrite in_map_iff. split.
  - intros (k & <- & Hk). apply nodup_In in Hk. apply in_map_iff in Hk.
    destruct Hk as (r & <- & Hr). exists r. split; [exact Hr | reflexivity].
  - intros (r & Hr & ->). exists (p_id (snd r), p_name (snd r)). split; [reflexivity|].
    apply nodup_In. apply in_map_iff. exists r. split; [reflexivity | exact Hr].
Qed.

(** Grouping by product keeps the totals. *)
Lemma GROUP_BY_product_sums (rows : list (order_item_row * product_row)) :
  sum_Z (map sr_total_sold (GROUP_BY_product rows)) =
    sum_Z (map (fun r => oi_quantity (fst r)) rows) /\
  sum_Z (map sr_revenue (GROUP_BY_product rows)) =
    sum_Z (map (fun r => oi_quantity (fst r) * p_price (snd r)) rows).
Proof.
  set (key := fun r : order_item_row * product_row => (p_id (snd r), p_name (snd r))).
  assert (Hin : forall r, In r rows ->
                          In (key r) (nodup group_key_eq_dec (map key rows))).
  { intros r Hr. apply nodup_In. now apply in_map. }
  unfold GROUP_BY_product. rewrite !map_map. simpl. split.
  - exact (group_sum key (fun r => oi_quantity (fst r)) _ rows (NoDup_nodup _ _) Hin).
  - exact (group_sum key (fun r => oi_quantity (fst r) * p_price (snd r)) _ rows
             (NoDup_nodup _ _) Hin).
Qed.

Example sales_report_counts_every_status :
  fst (get_admin_sales_report no_faults 1 10 (fresh_db scenario_report 5)) =
  Ok (mk_response 200 (SalesRows [mk_sales 1 "tea" 15 15000])).
Proof. reflexivity. Qed.

(** C10.  The sales report does not look at the status of an order.  The
    lines it aggregates are the order lines joined with their product and
    with their order, for every order created in the date range, with no
    condition on the status.  When the query does not raise the answer is
    200, and every such line, of an order of whatever status, is counted in
    it: the answer has the row of the line's product, whose total_sold and
    revenue are the sums over all the joined lines of that product; every
    row of the answer is the row of a joined line; and the total_sold and
    the revenue of the rows add up to the sums over all the joined lines.
    Rewriting the statuses of the orders in any way (Pending, Paid,
    Cancelled or any admin-set value) leaves the answer unchanged. *)
Theorem sales_report_ignores_status (raises : nat -> bool) (startDate endDate : Z)
  (s : Db) :
  raises (stmts s) = false ->
  let joined := sales_join startDate endDate (tables s) in
  (forall oi p co,
     In (oi, p, co) joined <->
     In oi (order_item (tables s)) /\ In p (product (tables s)) /\
     In co (customer_order (tables s)) /\
     oi_product_id oi = p_id p /\ oi_order_id oi = co_id co /\
     startDate <= co_created_at co <= endDate) /\
  (exists rows,
     fst (get_admin_sales_report raises startDate endDate s) =
       Ok (mk_response 200 (SalesRows rows)) /\
     (forall oi p co,
        In (oi, p, co) joined ->
        In (mk_sales (p_id p) (p_name p)
              (total_sold_of (filter (same_product p) joined))
              (revenue_of (filter (same_product p) joined))) rows) /\
     (forall row, In row rows ->
        exists oi p co, In (oi, p, co) joined /\
                        sr_id row = p_id p /\ sr_name row = p_name p) /\
     sum_Z (map sr_total_sold rows) = total_sold_of joined /\
     sum_Z (map sr_revenue rows) = revenue_of joined) /\
  (forall f : customer_order_row -> string,
     fst (get_admin_sales_report raises startDate endDate
            (set_tables (restatus f (tables s)) s)) =
     fst (get_admin_sales_report raises startDate endDate s)).
Proof.
  intros Hno joined. split; [|split].
  - intros oi p co. apply sales_join_In.
  - unfold get_admin_sales_report, try_catch, bind, query, on_tables, ret.
    rewrite Hno. simpl. fold joined.
    set (le := fun a b => sr_revenue b <=? sr_revenue a).
    exists (ORDER_BY le (GROUP_BY_product (map fst joined))).
    assert (Hperm : Permutation (ORDER_BY le (GROUP_BY_product (map fst joined)))
                                (GROUP_BY_product (map fst joined)))
      by apply ORDER_BY_perm.
    destruct (GROUP_BY_product_sums (map fst joined)) as (Hsold & Hrev).
    split; [reflexivity|]. split; [|split; [|split]].
    + intros oi p co Hin.
      apply (Permutation_in _ (Permutation_sym Hperm)).
      apply GROUP_BY_product_In. exists (oi, p). split.
      * apply in_map_iff. exists (oi, p, co). split; [reflexivity | exact Hin].
      * unfold total_sold_of, revenue_of, same_product. simpl.
        rewrite !filter_map_comm, !map_map. reflexivity.
    + intros row Hrow. apply (Permutation_in _ Hperm) in Hrow.
      apply GROUP_BY_product_In in Hrow. destruct Hrow as ((oi & p) & Hr & ->).
      apply in_map_iff in Hr. destruct Hr as (((oi' & p') & co) & Heq & Hin).
      simpl in Heq. inversion Heq; subst. exists oi, p, co. simpl. auto.
    + rewrite (sum_Z_perm _ _ (Permutation_map sr_total_sold Hperm)), Hsold.
      unfold total_sold_of. now rewrite map_map.
    + rewrite (sum_Z_perm _ _ (Permutation_map sr_revenue Hperm)), Hrev.
      unfold revenue_of. now rewrite map_map.
  - intros f.
    unfold get_admin_sales_report, try_catch, bind, query, on_tables, ret. simpl.
    destruct (raises (stmts s)); [reflexivity|]. simpl.
    unfold SELECT_sales_report. simpl. now rewrite sales_join_restatus.
Qed.

Lemma sales_report_ignores_status_witness :
  let s := fresh_db scenario_report 5 in
  let joined := sales_join 1 10 scenario_report in
  no_faults (stmts s) = false /\
  map (fun j => co_status (snd j)) joined = ["Pending"; "Paid"; "Cancelled"; "Shipped"] /\
  (exists rows,
     fst (get_admin_sales_report no_faults 1 10 s) =
       Ok (mk_response 200 (SalesRows rows)) /\
     (forall oi p co,
        In (oi, p, co) joined ->
        In (mk_sales (p_id p) (p_name p)
              (total_sold_of (filter (same_product p) joined))
              (revenue_of (filter (same_product p) joined))) rows) /\
     (forall row, In row rows ->
        exists oi p co, In (oi, p, co) joined /\
                        sr_id row = p_id p /\ sr_name row = p_name p) /\
     sum_Z (map sr_total_sold rows) = 15 /\
     sum_Z (map sr_revenue rows) = 15000) /\
  (forall f : customer_order_row -> string,
     fst (get_admin_sales_report no_faults 1 10
            (set_tables (restatus f scenario_report) s)) =
     Ok (mk_response 200 (SalesRows [mk_sales 1 "tea" 15 15000]))).
Proof.
  split; [reflexivity|]. split; [reflexivity|].
  destruct (sales_report_ignores_status no_faults 1 10 (fresh_db scenario_report 5) eq_refl)
    as (_ & Hrows & Hinv).
  split; [exact Hrows | exact Hinv].
Defined.

(** ** Quantities in the cart *)

(** C8, refuted as stated: a new line with quantity 0 is inserted, an
    existing line is merged with a negative quantity, and an existing line
    is set to a negative quantity; each request is answered with success. *)
Lemma cart_nonpositive_quantity_counterexample :
  post_cart no_faults 9 1 0 (fresh_db scenarioA 1) =
    (Ok (mk_response 201 (Message "Product added to cart")),
     mk_db (with_cart [mk_cart 7 1 2; mk_cart 7 2 1; mk_cart 8 1 5; mk_cart 9 1 0] scenarioA)
           None 1 1) /\
  post_cart no_faults 7 1 (-5) (fresh_db scenarioA 1) =
    (Ok (mk_response 201 (Message "Product added to cart")),
     mk_db (with_cart [mk_cart 7 1 (-3); mk_cart 7 2 1; mk_cart 8 1 5] scenarioA)
           None 1 1) /\
  put_cart_productId no_faults 7 2 (-4) (fresh_db scenarioA 1) =
    (Ok (mk_response 200 (CartItemUpdated "Cart item quantity updated" (mk_cart 7 2 (-4)))),
     mk_db (with_cart [mk_cart 7 1 2; mk_cart 7 2 (-4); mk_cart 8 1 5] scenarioA)
           None 1 1).
Proof. repeat split. Qed.

Lemma cart_key_eq (u p : Z) (c : cart_row) :
  cart_key u p c = true -> cart_customer_id c = u /\ cart_product_id c = p.
Proof.
  unfold cart_key. rewrite andb_true_iff, !Z.eqb_eq. tauto.
Qed.

Lemma find_existsb {A} (f : A -> bool) (l : list A) :
  existsb f l = match find f l with Some _ => true | None => false end.
Proof.
  induction l as [|x l IH]; simpl; [reflexivity|].
  destruct (f x); [reflexivity | exact IH].
Qed.

Lemma find_app_last {A} (f : A -> bool) (l : list A) (x : A) :
  find f l = None -> f x = true -> find f (l ++ [x]) = Some x.
Proof.
  induction l as [|y l IH]; simpl; intros Hn Hx.
  - now rewrite Hx.
  - destruct (f y); [discriminate | now apply IH].
Qed.

Lemma find_map_update {A} (f : A -> bool) (upd : A -> A) (l : list A) :
  (forall x, f x = true -> f (upd x) = true) ->
  find f (map (fun x => if f x then upd x else x) l) = option_map upd (find f l).
Proof.
  intros Hupd. induction l as [|x l IH]; simpl; [reflexivity|].
  destruct (f x) eqn:E.
  - now rewrite (Hupd x E).
  - rewrite E. exact IH.
Qed.

Lemma filter_head_find {A} (f : A -> bool) (l : list A) :
  hd_error (filter f l) = find f l.
Proof.
  induction l as [|x l IH]; simpl; [reflexivity|].
  destruct (f x); [reflexivity | exact IH].
Qed.

(** C8, amended.  The cart handlers do not validate the quantity; what they
    answer and what they write is the same for every quantity, positive or
    not.  When the statement does not raise, AddOrMergeLine is answered with
    201 and the line holds the old quantity plus the new one (the new one
    when there was no line); SetLineQuantity is answered with 200 and the
    line holds the new quantity, or with 404 when there is no line.  Only
    when the storage layer raises is the request answered with 400, and then
    no table has changed. *)
Theorem cart_quantity_not_validated (raises : nat -> bool)
  (userId productId quantity : Z) (s : Db) :
  let add := post_cart raises userId productId quantity s in
  let set := put_cart_productId raises userId productId quantity s in
  let before := line_quantity userId productId (tables s) in
  (raises (stmts s) = false ->
   fst add = Ok (mk_response 201 (Message "Product added to cart")) /\
   line_quantity userId productId (tables (snd add)) =
     Some (match before with Some q0 => q0 + quantity | None => quantity end) /\
   fst set =
     match before with
     | Some _ => Ok (mk_response 200 (CartItemUpdated "Cart item quantity updated"
                                        (mk_cart userId productId quantity)))
     | None => Ok (mk_response 404 (Message "Cart item not found"))
     end /\
   line_quantity userId productId (tables (snd set)) =
     option_map (fun _ => quantity) before) /\
  (raises (stmts s) = true ->
   fst add = Ok (mk_response 400 (Message "Error adding to cart")) /\
   tables (snd add) = tables s /\
   fst set = Ok (mk_response 400 (Message "Error updating cart item quantity")) /\
   tables (snd set) = tables s).
Proof.
  intros add set before. subst add set before.
  unfold post_cart, put_cart_productId, try_catch, bind, query, on_tables, ret,
    line_quantity.
  split; intros Hr; rewrite Hr; simpl; [|auto].
  set (key := cart_key userId productId).
  assert (Hkey : key (mk_cart userId productId quantity) = true)
    by (unfold key, cart_key; simpl; now rewrite !Z.eqb_refl).
  split; [|split; [|split]].
  - unfold INSERT_cart_ON_CONFLICT. fold key.
    destruct (existsb key (cart (tables s))); reflexivity.
  - unfold INSERT_cart_ON_CONFLICT. fold key. rewrite find_existsb.
    destruct (find key (cart (tables s))) as [c|] eqn:E; simpl.
    + rewrite (find_map_update key
                 (fun c => mk_cart (cart_customer_id c) (cart_product_id c)
                                   (cart_quantity c + quantity))), E; [reflexivity|].
      intros x Hx. unfold key, cart_key in *. simpl. exact Hx.
    + now rewrite find_app_last.
  - fold key.
    pose proof (filter_head_find key (cart (tables s))) as Hhd.
    destruct (filter key (cart (tables s))) as [|c rest] eqn:E; simpl in *.
    + now rewrite <- Hhd.
    + rewrite <- Hhd. simpl.
      assert (Hc : key c = true).
      { assert (Hin : In c (filter key (cart (tables s)))) by (rewrite E; now left).
        apply filter_In in Hin. tauto. }
      apply cart_key_eq in Hc. destruct Hc as (-> & ->). reflexivity.
  - fold key.
    destruct (map _ (filter key (cart (tables s)))); simpl;
    rewrite (find_map_update key
               (fun c => mk_cart (cart_customer_id c) (cart_product_id c) quantity));
    try (destruct (find key (cart (tables s))); reflexivity);
    intros x Hx; unfold key, cart_key in *; simpl; exact Hx.
Qed.

Lemma cart_quantity_not_validated_witness :
  let s := fresh_db scenarioA 1 in
  no_faults (stmts s) = false /\
  fst (post_cart no_faults 7 1 (-5) s) =
    Ok (mk_response 201 (Message "Product added to cart")) /\
  line_quantity 7 1 (tables (snd (post_cart no_faults 7 1 (-5) s))) = Some (-3) /\
  fst (put_cart_productId no_faults 7 1 (-5) s) =
    Ok (mk_response 200 (CartItemUpdated "Cart item quantity updated" (mk_cart 7 1 (-5)))) /\
  line_quantity 7 1 (tables (snd (put_cart_productId no_faults 7 1 (-5) s))) = Some (-5).
Proof.
  split; [reflexivity|].
  exact (proj1 (cart_quantity_not_validated no_faults 7 1 (-5) (fresh_db scenarioA 1))
               eq_refl).
Defined.

(** ** The price of an order line *)

(** The price [GET /orders/:orderId] shows for a line is the price that the
    product table holds when the order is read. *)
Lemma order_item_view_price (orderId : Z) (t : Tables) (v : order_item_view) :
  In v (fst (SELECT_order_item_JOIN_product orderId t)) ->
  exists p, In p (product t) /\ p_id p = oi_product_id (iv_row v) /\
            iv_price v = p_price p.
Proof.
  unfold SELECT_order_item_JOIN_product. simpl. rewrite in_flat_map.
  intros (oi & _ & Hv). apply in_map_iff in Hv. destruct Hv as (p & <- & Hp).
  apply filter_In in Hp. destruct Hp as (Hp & Hid). apply Z.eqb_eq in Hid.
  exists p. simpl. auto.
Qed.

(** C3, the code at the failing input.  Customer 7 places an order while
    tea costs 1000; the order lines hold no price.  The admin then sets the
    price of tea to 1500: the order lines are untouched, and yet the order
    that showed tea at 1000 now shows it at 1500. *)
Theorem order_price_follows_catalog :
  let s1 := snd (post_orders no_faults 100 7 "X" (fresh_db scenarioA 1)) in
  let s2 := snd (put_products_id no_faults 1 "tea" "" 1500 1 4 s1) in
  order_item (tables s1) = [mk_item 1 1 2; mk_item 1 2 1] /\
  order_item (tables s2) = order_item (tables s1) /\
  fst (get_orders_orderId no_faults 7 1 s1) =
    Ok (mk_response 200
          (OrderDetails (mk_order 1 7 "Pending" "X" None 100)
             [mk_item_view (mk_item 1 1 2) "tea" 1000;
              mk_item_view (mk_item 1 2 1) "cup" 500])) /\
  fst (get_orders_orderId no_faults 7 1 s2) =
    Ok (mk_response 200
          (OrderDetails (mk_order 1 7 "Pending" "X" None 100)
             [mk_item_view (mk_item 1 1 2) "tea" 1500;
              mk_item_view (mk_item 1 2 1) "cup" 500])).
Proof. repeat split. Qed.

(** * Further properties of the endpoints *)

(** ** The cart *)

Lemma cart_key_other (u p u' p' : Z) (c : cart_row) :
  (u', p') <> (u, p) -> cart_key u' p' c = true -> cart_key u p c = false.
Proof.
  intros Hne H. apply cart_key_eq in H. destruct H as (Hu & Hp).
  unfold cart_key.
  destruct (Z.eqb_spec (cart_customer_id c) u) as [Eu|]; [|reflexivity].
  destruct (Z.eqb_spec (cart_product_id c) p) as [Ep|]; [|reflexivity].
  exfalso. apply Hne. congruence.
Qed.

Lemma find_filter_keeps {A} (f g : A -> bool) (l : list A) :
  (forall x, f x = true -> g x = true) -> find f (filter g l) = find f l.
Proof.
  intros H. induction l as [|x l IH]; simpl; [reflexivity|].
  destruct (g x) eqn:Eg; simpl.
  - destruct (f x); [reflexivity | exact IH].
  - destruct (f x) eqn:Ef; [|exact IH]. rewrite (H x Ef) in Eg. discriminate.
Qed.

Lemma find_filter_none {A} (f : A -> bool) (l : list A) :
  find f (filter (fun x => negb (f x)) l) = None.
Proof.
  induction l as [|x l IH]; simpl; [reflexivity|].
  destruct (f x) eqn:E; simpl; [exact IH|]. now rewrite E.
Qed.

Lemma find_map_other {A} (f g : A -> bool) (upd : A -> A) (l : list A) :
  (forall x, g x = true -> f x = false /\ f (upd x) = false) ->
  find f (map (fun x => if g x then upd x else x) l) = find f l.
Proof.
  intros H. induction l as [|x l IH]; simpl; [reflexivity|].
  destruct (g x) eqn:Eg.
  - destruct (H x Eg) as (H1 & H2). now rewrite H1, H2.
  - destruct (f x); [reflexivity | exact IH].
Qed.

Lemma find_app_other {A} (f : A -> bool) (l : list A) (x : A) :
  f x = false -> find f (l ++ [x]) = find f l.
Proof.
  intros Hx. induction l as [|y l IH]; simpl.
  - now rewrite Hx.
  - destruct (f y); [reflexivity | exact IH].
Qed.

Lemma find_none_filter_negb {A} (f : A -> bool) (l : list A) :
  find f l = None -> filter (fun x => negb (f x)) l = l.
Proof.
  induction l as [|x l IH]; simpl; [reflexivity|].
  destruct (f x); simpl; [discriminate|]. intros H. now rewrite IH.
Qed.

(** X1.  RemoveLine.  When the statement does not raise, the answer is 200
    whether or not the line exists; afterwards the customer has no line for
    the product, every other line of every cart is as before, the other
    tables are untouched, and if there was no such line nothing has changed
    at all.  When the statement raises the answer is 400 and nothing has
    changed. *)
Theorem remove_line_spec (raises : nat -> bool) (userId productId : Z) (s : Db) :
  let out := delete_cart_productId raises userId productId s in
  (raises (stmts s) = false ->
   fst out = Ok (mk_response 200 (Message "Product removed from cart")) /\
   line_quantity userId productId (tables (snd out)) = None /\
   (forall u p, (u, p) <> (userId, productId) ->
      line_quantity u p (tables (snd out)) = line_quantity u p (tables s)) /\
   same_but_cart (tables s) (tables (snd out)) /\
   (line_quantity userId productId (tables s) = None -> tables (snd out) = tables s)) /\
  (raises (stmts s) = true ->
   fst out = Ok (mk_response 400 (Message "Error removing from cart")) /\
   tables (snd out) = tables s).
Proof.
  intros out. subst out.
  unfold delete_cart_productId, try_catch, bind, query, on_tables, ret, line_quantity.
  split; intros Hr; rewrite Hr; simpl; [|auto].
  split; [reflexivity|]. split; [|split; [|split]].
  - now rewrite find_filter_none.
  - intros u p Hne. rewrite find_filter_keeps; [reflexivity|].
    intros c Hc. now rewrite (cart_key_other userId productId u p c Hne Hc).
  - unfold same_but_cart. simpl. auto.
  - intros Hnone. unfold with_cart.
    destruct (find (cart_key userId productId) (cart (tables s))) eqn:E; [discriminate|].
    rewrite (find_none_filter_negb _ _ E). apply tables_eta.
Qed.

Lemma remove_line_spec_witness :
  let s := fresh_db scenarioA 1 in
  let out := delete_cart_productId no_faults 7 1 s in
  no_faults (stmts s) = false /\
  fst out = Ok (mk_response 200 (Message "Product removed from cart")) /\
  line_quantity 7 1 (tables (snd out)) = None /\
  (forall u p, (u, p) <> (7, 1) ->
     line_quantity u p (tables (snd out)) = line_quantity u p (tables s)) /\
  same_but_cart (tables s) (tables (snd out)) /\
  (line_quantity 7 1 (tables s) = None -> tables (snd out) = tables s).
Proof.
  split; [reflexivity|].
  exact (proj1 (remove_line_spec no_faults 7 1 (fresh_db scenarioA 1)) eq_refl).
Defined.

Lemma filter_filter_negb_other (u u' : Z) (l : list cart_row) :
  u' <> u ->
  filter (fun c => cart_customer_id c =? u')
         (filter (fun c => negb (cart_customer_id c =? u)) l) =
  filter (fun c => cart_customer_id c =? u') l.
Proof.
  intros Hne. induction l as [|c l IH]; simpl; [reflexivity|].
  destruct (Z.eqb_spec (cart_customer_id c) u) as [E|E]; simpl.
  - destruct (Z.eqb_spec (cart_customer_id c) u'); [congruence | exact IH].
  - destruct (cart_customer_id c =? u'); now rewrite IH.
Qed.

(** X2.  ClearCart.  When the statement does not raise, the answer is 200,
    the customer has no cart line left, the cart of every other customer and
    the other tables are as before.  When it raises the answer is 500 and
    nothing has changed. *)
Theorem clear_cart_spec (raises : nat -> bool) (userId : Z) (s : Db) :
  let out := delete_cart raises userId s in
  (raises (stmts s) = false ->
   fst out = Ok (mk_response 200 (Message "Cart cleared successfully")) /\
   cart_lines userId (tables (snd out)) = [] /\
   (forall u, u <> userId -> cart_lines u (tables (snd out)) = cart_lines u (tables s)) /\
   same_but_cart (tables s) (tables (snd out))) /\
  (raises (stmts s) = true ->
   fst out = Ok (mk_response 500 (Message "Error clearing cart")) /\
   tables (snd out) = tables s).
Proof.
  intros out. subst out.
  unfold delete_cart, try_catch, bind, query, on_tables, ret, cart_lines.
  split; intros Hr; rewrite Hr; simpl; [|auto].
  split; [reflexivity|]. split; [|split].
  - apply (filter_negb_filter (fun c => cart_customer_id c =? userId)).
  - intros u Hne. now apply filter_filter_negb_other.
  - unfold same_but_cart. simpl. auto.
Qed.

Lemma clear_cart_spec_witness :
  let s := fresh_db scenarioA 1 in
  let out := delete_cart no_faults 7 s in
  no_faults (stmts s) = false /\
  fst out = Ok (mk_response 200 (Message "Cart cleared successfully")) /\
  cart_lines 7 (tables (snd out)) = [] /\
  (forall u, u <> 7 -> cart_lines u (tables (snd out)) = cart_lines u (tables s)) /\
  same_but_cart (tables s) (tables (snd out)).
Proof.
  split; [reflexivity|].
  exact (proj1 (clear_cart_spec no_faults 7 (fresh_db scenarioA 1)) eq_refl).
Defined.

(** X3.  AddOrMergeLine and SetLineQuantity touch one line only: whatever
    the quantity and whether or not the statement raises, the line of every
    other customer or product holds the quantity it held, and the tables
    other than the cart are as before. *)
Theorem cart_write_frame (raises : nat -> bool) (userId productId quantity : Z) (s : Db) :
  let add := post_cart raises userId productId quantity s in
  let set := put_cart_productId raises userId productId quantity s in
  (forall u p, (u, p) <> (userId, productId) ->
     line_quantity u p (tables (snd add)) = line_quantity u p (tables s) /\
     line_quantity u p (tables (snd set)) = line_quantity u p (tables s)) /\
  same_but_cart (tables s) (tables (snd add)) /\
  same_but_cart (tables s) (tables (snd set)).
Proof.
  intros add set. subst add set.
  unfold post_cart, put_cart_productId, INSERT_cart_ON_CONFLICT,
    try_catch, bind, query, on_tables, ret, line_quantity, same_but_cart.
  destruct (raises (stmts s)); simpl; [repeat split; reflexivity|].
  split; [|split].
  - intros u p Hne.
    assert (Hother : forall c, cart_key userId productId c = true ->
                               cart_key u p c = false).
    { intros c Hc. destruct (cart_key u p c) eqn:E; [|reflexivity].
      rewrite (cart_key_other userId productId u p c Hne E) in Hc. discriminate. }
    split.
    + destruct (existsb (cart_key userId productId) (cart (tables s))); simpl.
      * rewrite (find_map_other (cart_key u p) (cart_key userId productId)
                   (fun c => mk_cart (cart_customer_id c) (cart_product_id c)
                                     (cart_quantity c + quantity))); [reflexivity|].
        intros c Hc. split; [now apply Hother|].
        specialize (Hother c Hc). unfold cart_key in *. simpl. exact Hother.
      * rewrite find_app_other; [reflexivity|].
        apply Hother. unfold cart_key. simpl. now rewrite !Z.eqb_refl.
    + destruct (map _ (filter (cart_key userId productId) (cart (tables s)))); simpl;
        rewrite (find_map_other (cart_key u p) (cart_key userId productId)
                   (fun c => mk_cart (cart_customer_id c) (cart_product_id c) quantity));
        try reflexivity;
        intros x Hx; (split; [now apply Hother|]);
        specialize (Hother x Hx); unfold cart_key in *; simpl; exact Hother.
  - destruct (existsb (cart_key userId productId) (cart (tables s))); simpl; auto.
  - destruct (map _ (filter (cart_key userId productId) (cart (tables s)))); simpl; auto.
Qed.

Lemma cart_write_frame_witness :
  let s := fresh_db scenarioA 1 in
  (forall u p, (u, p) <> (7, 1) ->
     line_quantity u p (tables (snd (post_cart no_faults 7 1 3 s))) =
       line_quantity u p (tables s) /\
     line_quantity u p (tables (snd (put_cart_productId no_faults 7 1 3 s))) =
       line_quantity u p (tables s)) /\
  same_but_cart (tables s) (tables (snd (post_cart no_faults 7 1 3 s))) /\
  same_but_cart (tables s) (tables (snd (put_cart_productId no_faults 7 1 3 s))).
Proof.
  exact (cart_write_frame no_faults 7 1 3 (fresh_db scenarioA 1)).
Defined.

Lemma NoDup_map_filter {A B} (f : A -> B) (g : A -> bool) (l : list A) :
  NoDup (map f l) -> NoDup (map f (filter g l)).
Proof.
  induction l as [|x l IH]; simpl; intros H; [constructor|].
  inversion H as [|? ? Hx Hl]; subst.
  destruct (g x); simpl; [|now apply IH].
  constructor; [|now apply IH].
  intros Hin. apply Hx. apply in_map_iff in Hin. destruct Hin as (y & Hy & Hin).
  apply filter_In in Hin. rewrite <- Hy. apply in_map. tauto.
Qed.

Lemma map_update_keys {A B} (f : A -> B) (g : A -> bool) (upd : A -> A) (l : list A) :
  (forall x, f (upd x) = f x) ->
  map f (map (fun x => if g x then upd x else x) l) = map f l.
Proof.
  intros H. rewrite map_map. apply map_ext. intros x. destruct (g x); auto.
Qed.

Lemma existsb_cart_key_false (u p : Z) (l : list cart_row) :
  existsb (cart_key u p) l = false -> ~ In (u, p) (map cart_line_key l).
Proof.
  intros He Hin. apply in_map_iff in Hin. destruct Hin as (c & Hc & Hin).
  assert (Ht : existsb (cart_key u p) l = true).
  { apply existsb_exists. exists c. split; [exact Hin|].
    unfold cart_line_key in Hc. inversion Hc; subst.
    unfold cart_key. now rewrite !Z.eqb_refl. }
  congruence.
Qed.

Lemma NoDup_snoc {A} (l : list A) (x : A) :
  ~ In x l -> NoDup l -> NoDup (l ++ [x]).
Proof.
  intros Hx Hl. induction Hl as [|y l Hy Hl IH]; simpl.
  - repeat constructor. intros [].
  - constructor.
    + intros Hin. apply in_app_or in Hin. destruct Hin as [Hin|[->|[]]].
      * contradiction.
      * apply Hx. now left.
    + apply IH. intros Hin. apply Hx. now right.
Qed.

Section CartInvariant.

Variable raises : nat -> bool.

Ltac run_handler :=
  unfold try_catch, bind, query, on_tables, ret; simpl;
  repeat match goal with
         | |- context [if raises ?k then _ else _] => destruct (raises k); simpl
         | |- context [match ?l with [] => _ | _ :: _ => _ end] => destruct l; simpl
         end;
  auto.

Lemma handle_cart_other (r : request) (s : Db) :
  reads_cart_only r = true ->
  cart (tables (snd (handle raises r s))) = cart (tables s).
Proof.
  destruct r; simpl; try discriminate; intros _.
  - unfold get_cart. run_handler.
  - unfold get_orders_orderId. run_handler.
  - unfold post_orders_pay. run_handler.
  - unfold patch_orders_status. run_handler.
  - unfold post_products. run_handler.
  - unfold put_products_id. run_handler.
  - unfold delete_products_id. run_handler.
  - unfold patch_products_stock. run_handler.
  - unfold post_coupons. run_handler.
  - unfold post_apply_coupon. run_handler.
  - unfold get_admin_sales_report. run_handler.
  - unfold get_admin_low_stock_alerts. run_handler.
Qed.

Lemma handle_cart_keys (r : request) (s : Db) :
  (forall now u a, r <> POST_orders now u a) ->
  cart_keys_unique (tables s) ->
  cart_keys_unique (tables (snd (handle raises r s))).
Proof.
  unfold cart_keys_unique. intros Hother Hu.
  destruct (reads_cart_only r) eqn:Er.
  { now rewrite handle_cart_other. }
  destruct r; simpl in Er; try discriminate; simpl.
  - (* POST /cart *)
    unfold post_cart, INSERT_cart_ON_CONFLICT, try_catch, bind, query, on_tables, ret.
    destruct (raises (stmts s)); simpl; [exact Hu|].
    destruct (existsb (cart_key userId productId) (cart (tables s))) eqn:E; simpl.
    + rewrite map_update_keys; [exact Hu | reflexivity].
    + rewrite map_app. simpl. apply NoDup_snoc; [|exact Hu].
      now apply existsb_cart_key_false.
  - (* PUT /cart/:productId *)
    unfold put_cart_productId, try_catch, bind, query, on_tables, ret.
    destruct (raises (stmts s)); simpl; [exact Hu|].
    destruct (map _ (filter (cart_key userId productId) (cart (tables s)))); simpl;
      (rewrite map_update_keys; [exact Hu | reflexivity]).
  - (* DELETE /cart/:productId *)
    unfold delete_cart_productId, try_catch, bind, query, on_tables, ret.
    destruct (raises (stmts s)); simpl; [exact Hu|].
    now apply NoDup_map_filter.
  - (* DELETE /cart *)
    unfold delete_cart, try_catch, bind, query, on_tables, ret.
    destruct (raises (stmts s)); simpl; [exact Hu|].
    now apply NoDup_map_filter.
  - (* POST /orders *)
    exfalso. eapply Hother. reflexivity.
Qed.

End CartInvariant.

(** X4.  The cart never holds two lines for the same customer and product:
    if it does not when the server starts, it does not after any sequence of
    requests, whichever statements raise. *)
Theorem cart_keys_unique_invariant (raises : nat -> bool) (rs : list request) (s : Db) :
  idle s -> cart_keys_unique (tables s) ->
  cart_keys_unique (tables (serve raises rs s)).
Proof.
  intros Hidle Hu.
  assert (Hst : stable (fun _ t => cart_keys_unique t) (serve raises rs s)).
  { apply serve_stable.
    - auto.
    - intros now u a s0 n cleared Hu0. unfold cart_keys_unique, order_in_progress. simpl.
      destruct cleared; [now apply NoDup_map_filter | exact Hu0].
    - intros r s0 Hother Hu0. now apply handle_cart_keys.
    - now apply stable_idle. }
  exact (proj1 Hst).
Qed.

Lemma cart_keys_unique_invariant_witness :
  idle (fresh_db scenarioA 1) /\ cart_keys_unique (tables (fresh_db scenarioA 1)) /\
  cart_keys_unique
    (tables (serve no_faults
               [POST_cart 7 1 3; POST_cart 9 2 1; PUT_cart_productId 7 2 5;
                POST_orders 100 8 "Y"; DELETE_cart_productId 7 1]
               (fresh_db scenarioA 1))).
Proof.
  assert (Hu : cart_keys_unique (tables (fresh_db scenarioA 1))).
  { unfold cart_keys_unique. simpl.
    repeat (constructor; [simpl; intuition discriminate|]). constructor. }
  split; [reflexivity|]. split; [exact Hu|].
  exact (cart_keys_unique_invariant no_faults _ (fresh_db scenarioA 1) eq_refl Hu).
Defined.

Lemma existsb_false_map_id {A} (g : A -> bool) (upd : A -> A) (l : list A) :
  existsb g l = false -> map (fun x => if g x then upd x else x) l = l.
Proof.
  induction l as [|x l IH]; simpl; [reflexivity|].
  destruct (g x); simpl; [discriminate|]. intros H. now rewrite IH.
Qed.

Lemma existsb_map_update {A} (g : A -> bool) (upd : A -> A) (l : list A) :
  (forall x, g (upd x) = g x) ->
  existsb g (map (fun x => if g x then upd x else x) l) = existsb g l.
Proof.
  intros H. induction l as [|x l IH]; simpl; [reflexivity|].
  rewrite IH. destruct (g x) eqn:E; [now rewrite H, E | now rewrite E].
Qed.

(** X5.  AddOrMergeLine composes: when neither statement raises, adding
    [q1] and then [q2] of a product leaves the tables that adding [q1 + q2]
    at once leaves, whether or not the line existed. *)
Theorem add_to_cart_twice (raises : nat -> bool) (userId productId q1 q2 : Z) (s : Db) :
  raises (stmts s) = false ->
  raises (S (stmts s)) = false ->
  tables (snd (post_cart raises userId productId q2
                 (snd (post_cart raises userId productId q1 s)))) =
  tables (snd (post_cart raises userId productId (q1 + q2) s)).
Proof.
  intros H0 H1.
  unfold post_cart, INSERT_cart_ON_CONFLICT, try_catch, bind, query, on_tables, ret.
  rewrite H0. simpl.
  set (key := cart_key userId productId).
  assert (Hnew : forall q, key (mk_cart userId productId q) = true)
    by (intros q; unfold key, cart_key; simpl; now rewrite !Z.eqb_refl).
  destruct (existsb key (cart (tables s))) eqn:E; simpl; rewrite H1; simpl.
  - rewrite (existsb_map_update key
               (fun c => mk_cart (cart_customer_id c) (cart_product_id c)
                                 (cart_quantity c + q1))), E by reflexivity.
    simpl. unfold with_cart. simpl. f_equal.
    rewrite map_map. apply map_ext. intros c.
    destruct (key c) eqn:Ec.
    + change (key (mk_cart (cart_customer_id c) (cart_product_id c) (cart_quantity c + q1)))
        with (key c). rewrite Ec. simpl. now rewrite Z.add_assoc.
    + now rewrite Ec.
  - rewrite existsb_app. simpl. rewrite Hnew, orb_true_r. simpl.
    unfold with_cart. simpl. f_equal.
    rewrite map_app. simpl. rewrite Hnew. simpl.
    now rewrite existsb_false_map_id.
Qed.

Lemma add_to_cart_twice_witness :
  tables (snd (post_cart no_faults 7 1 3 (snd (post_cart no_faults 7 1 (-1)
                                                 (fresh_db scenarioA 1))))) =
  tables (snd (post_cart no_faults 7 1 (-1 + 3) (fresh_db scenarioA 1))).
Proof.
  exact (add_to_cart_twice no_faults 7 1 (-1) 3 (fresh_db scenarioA 1) eq_refl eq_refl).
Defined.

(** ** Reading orders *)

(** X6.  ListOrders.  When the query does not raise, [GET /orders] is
    answered with 200 and exactly the order headers of the customer (a
    permutation of them: none of another customer, none missing, none
    twice), the most recently created first; it changes no table. *)
Theorem list_orders_spec (raises : nat -> bool) (userId : Z) (s : Db) :
  raises (stmts s) = false ->
  exists rows,
    fst (get_orders raises userId s) = Ok (mk_reply 200 (Data rows)) /\
    Permutation rows
      (filter (fun o => co_customer_id o =? userId) (customer_order (tables s))) /\
    (forall o, In o rows <->
               In o (customer_order (tables s)) /\ co_customer_id o = userId) /\
    StronglySorted (fun a b => co_created_at b <= co_created_at a) rows /\
    tables (snd (get_orders raises userId s)) = tables s.
Proof.
  intros Hno.
  unfold get_orders, try_catch, bind, query, on_tables, ret. rewrite Hno. simpl.
  set (le := fun a b => co_created_at b <=? co_created_at a).
  set (mine := filter (fun o => co_customer_id o =? userId) (customer_order (tables s))).
  exists (ORDER_BY le mine).
  assert (Hperm : Permutation (ORDER_BY le mine) mine) by apply ORDER_BY_perm.
  split; [reflexivity|]. split; [exact Hperm|]. split; [|split].
  - intros o. split.
    + intros Hin. apply (Permutation_in _ Hperm) in Hin.
      apply filter_In in Hin. now rewrite Z.eqb_eq in Hin.
    + intros (Hin & Hu). apply (Permutation_in _ (Permutation_sym Hperm)).
      apply filter_In. split; [exact Hin | now apply Z.eqb_eq].
  - apply Sorted_StronglySorted.
    + intros a b c. lia.
    + apply Sorted_weaken with (R := fun a b => le a b = true).
      * intros a b Hab. unfold le in Hab. now apply Z.leb_le.
      * apply ORDER_BY_sorted. intros a b. unfold le. rewrite !Z.leb_le. lia.
  - destruct (tables s); reflexivity.
Qed.

Lemma list_orders_spec_witness :
  exists rows,
    fst (get_orders no_faults 8 (fresh_db scenario_report 5)) =
      Ok (mk_reply 200 (Data rows)) /\
    Permutation rows
      (filter (fun o => co_customer_id o =? 8) (customer_order scenario_report)) /\
    (forall o, In o rows <-> In o (customer_order scenario_report) /\ co_customer_id o = 8) /\
    StronglySorted (fun a b => co_created_at b <= co_created_at a) rows /\
    tables (snd (get_orders no_faults 8 (fresh_db scenario_report 5))) = scenario_report.
Proof.
  exact (list_orders_spec no_faults 8 (fresh_db scenario_report 5) eq_refl).
Defined.

(** X7.  GetOrder shows a customer only their own orders.  When its
    statements do not raise: if the customer owns an order with that id the
    answer is 200 with a header that has that id and belongs to the
    customer, and with the joined lines of that order; otherwise, also when
    the order exists but belongs to someone else, the answer is 404.  No
    table changes. *)
Theorem get_order_isolation (raises : nat -> bool) (userId orderId : Z) (s : Db) :
  raises (stmts s) = false ->
  raises (S (stmts s)) = false ->
  let out := get_orders_orderId raises userId orderId s in
  (owns_order userId orderId (tables s) ->
   exists o,
     fst out = Ok (mk_response 200
                     (OrderDetails o (fst (SELECT_order_item_JOIN_product orderId (tables s))))) /\
     In o (customer_order (tables s)) /\ co_id o = orderId /\ co_customer_id o = userId) /\
  (~ owns_order userId orderId (tables s) ->
   fst out = Ok (mk_response 404 (Message "Order not found"))) /\
  tables (snd out) = tables s.
Proof.
  intros H0 H1 out. subst out.
  pose proof (SELECT_customer_order_owned userId orderId (tables s)) as Hown.
  unfold get_orders_orderId, try_catch, bind, query, on_tables, ret.
  rewrite H0. simpl.
  unfold SELECT_customer_order in Hown. simpl in Hown.
  destruct (filter _ (customer_order (tables s))) as [|o l] eqn:E; simpl.
  - split; [|split].
    + intros Ho. apply Hown in Ho. congruence.
    + reflexivity.
    + destruct (tables s); reflexivity.
  - rewrite H1. simpl. split; [|split].
    + intros _. exists o. split; [reflexivity|].
      assert (Hin : In o (o :: l)) by now left.
      rewrite <- E in Hin. apply filter_In in Hin. destruct Hin as (Hin & Hb).
      apply andb_true_iff in Hb. rewrite !Z.eqb_eq in Hb. tauto.
    + intros Hnot. exfalso. apply Hnot, Hown. discriminate.
    + destruct (tables s); reflexivity.
Qed.

Lemma get_order_isolation_witness :
  let s := fresh_db scenario_report 5 in
  ~ owns_order 7 3 (tables s) /\
  fst (get_orders_orderId no_faults 7 3 s) =
    Ok (mk_response 404 (Message "Order not found")) /\
  tables (snd (get_orders_orderId no_faults 7 3 s)) = tables s.
Proof.
  assert (Hnot : ~ owns_order 7 3 (tables (fresh_db scenario_report 5))).
  { intros (o & Hin & Hid & Hu). simpl in Hin.
    destruct Hin as [<-|[<-|[<-|[<-|[]]]]]; simpl in *; discriminate. }
  split; [exact Hnot|].
  destruct (get_order_isolation no_faults 7 3 (fresh_db scenario_report 5) eq_refl eq_refl)
    as (_ & H404 & Ht).
  split; [exact (H404 Hnot) | exact Ht].
Defined.

Lemma filter_unique_id (x : Z) (l : list product_row) :
  NoDup (map p_id l) ->
  filter (fun p => x =? p_id p) l =
  match find (fun p => x =? p_id p) l with
  | Some p => [p]
  | None => []
  end.
Proof.
  induction l as [|p l IH]; simpl; intros Hnd; [reflexivity|].
  inversion Hnd as [|? ? Hp Hl]; subst.
  destruct (Z.eqb_spec x (p_id p)) as [E|E].
  - f_equal. rewrite (IH Hl).
    destruct (find (fun q => x =? p_id q) l) as [q|] eqn:F; [|reflexivity].
    exfalso. apply find_some in F. destruct F as (Hq & Hx). apply Z.eqb_eq in Hx.
    apply Hp. rewrite <- E, Hx. now apply in_map.
  - now apply IH.
Qed.

(** X8.  What GetOrder shows of an order.  With product ids unique, the
    lines shown are, up to the order of the rows, exactly the lines of the
    order whose product exists in the product table, each as many times as
    the order has it; a line whose product has no row is not shown, though
    it stays in [order_item]. *)
Theorem get_order_shows_existing_products (orderId : Z) (t : Tables) :
  product_ids_unique t ->
  Permutation
    (map iv_row (fst (SELECT_order_item_JOIN_product orderId t)))
    (filter (fun oi => existsb (fun p => oi_product_id oi =? p_id p) (product t))
            (order_lines orderId t)).
Proof.
  unfold product_ids_unique, SELECT_order_item_JOIN_product, order_lines. simpl.
  intros Hnd.
  induction (filter (fun oi => oi_order_id oi =? orderId) (order_item t)) as [|oi l IH];
    simpl; [constructor|].
  rewrite map_app, (filter_unique_id (oi_product_id oi) (product t) Hnd), find_existsb.
  destruct (find (fun p => oi_product_id oi =? p_id p) (product t)); simpl;
    [apply perm_skip|]; exact IH.
Qed.

Lemma get_order_shows_existing_products_witness :
  product_ids_unique scenario_report /\
  Permutation
    (map iv_row (fst (SELECT_order_item_JOIN_product 3 scenario_report)))
    (filter (fun oi => existsb (fun p => oi_product_id oi =? p_id p)
                               (product scenario_report))
            (order_lines 3 scenario_report)).
Proof.
  assert (Hu : product_ids_unique scenario_report).
  { unfold product_ids_unique. simpl.
    repeat (constructor; [simpl; intuition discriminate|]). constructor. }
  split; [exact Hu|].
  exact (get_order_shows_existing_products 3 scenario_report Hu).
Defined.

(** ** The catalog *)

(** X9.  Deleting a product does not cascade.  When the statement does not
    raise, the answer is 200 if a product with that id existed and 404
    otherwise; afterwards no product has that id and the other products are
    as before; the cart lines and order lines that refer to the product stay
    in their tables, but no line of that product is shown by [GET /cart] or
    by GetOrder any more. *)
Theorem delete_product_spec (raises : nat -> bool) (id : Z) (s : Db) :
  raises (stmts s) = false ->
  let out := delete_products_id raises id s in
  let t' := tables (snd out) in
  fst out =
    (if existsb (fun p => p_id p =? id) (product (tables s))
     then Ok (mk_response 200 (Message "Product deleted successfully"))
     else Ok (mk_response 404 (Message "Product not found"))) /\
  (forall p, In p (product t') <-> In p (product (tables s)) /\ p_id p <> id) /\
  cart t' = cart (tables s) /\ order_item t' = order_item (tables s) /\
  customer_order t' = customer_order (tables s) /\ coupon t' = coupon (tables s) /\
  (forall orderId v, In v (fst (SELECT_order_item_JOIN_product orderId t')) ->
                     oi_product_id (iv_row v) <> id) /\
  (forall userId v, In v (fst (SELECT_cart_JOIN_product userId t')) ->
                    cart_product_id (cv_row v) <> id).
Proof.
  intros Hno out t'. subst out t'.
  unfold delete_products_id, try_catch, bind, query, on_tables, ret.
  rewrite Hno. simpl.
  assert (Hex : existsb (fun p => p_id p =? id) (product (tables s)) =
                match filter (fun p => p_id p =? id) (product (tables s)) with
                | [] => false
                | _ :: _ => true
                end).
  { rewrite find_existsb, <- filter_head_find.
    destruct (filter (fun p => p_id p =? id) (product (tables s))); reflexivity. }
  rewrite Hex. clear Hex.
  assert (Hprod : forall p,
            In p (filter (fun p => negb (p_id p =? id)) (product (tables s))) <->
            In p (product (tables s)) /\ p_id p <> id).
  { intros p. rewrite filter_In, negb_true_iff, Z.eqb_neq. reflexivity. }
  assert (Hoi : forall orderId v,
            In v (fst (SELECT_order_item_JOIN_product orderId
                         (with_product (filter (fun p => negb (p_id p =? id))
                                               (product (tables s))) (tables s)))) ->
            oi_product_id (iv_row v) <> id).
  { intros orderId v Hv. apply order_item_view_price in Hv.
    destruct Hv as (p & Hp & Hid & _). simpl in Hp.
    apply Hprod in Hp. destruct Hp as (_ & Hp). congruence. }
  assert (Hcart : forall userId v,
            In v (fst (SELECT_cart_JOIN_product userId
                         (with_product (filter (fun p => negb (p_id p =? id))
                                               (product (tables s))) (tables s)))) ->
            cart_product_id (cv_row v) <> id).
  { intros userId v Hv. unfold SELECT_cart_JOIN_product in Hv. simpl in Hv.
    apply in_flat_map in Hv. destruct Hv as (c & _ & Hv).
    apply in_map_iff in Hv. destruct Hv as (p & <- & Hp). simpl.
    apply filter_In in Hp. destruct Hp as (Hp & Hid). apply Z.eqb_eq in Hid.
    apply Hprod in Hp. destruct Hp as (_ & Hp). congruence. }
  destruct (filter (fun p => p_id p =? id) (product (tables s))); simpl;
    (split; [reflexivity|]); (split; [exact Hprod|]); repeat split; auto.
Qed.

Lemma delete_product_spec_witness :
  let s := fresh_db scenario_report 5 in
  let out := delete_products_id no_faults 1 s in
  no_faults (stmts s) = false /\
  fst out = Ok (mk_response 200 (Message "Product deleted successfully")) /\
  order_item (tables (snd out)) = order_item (tables s) /\
  (forall orderId v, In v (fst (SELECT_order_item_JOIN_product orderId (tables (snd out)))) ->
                     oi_product_id (iv_row v) <> 1).
Proof.
  split; [reflexivity|].
  destruct (delete_product_spec no_faults 1 (fresh_db scenario_report 5) eq_refl)
    as (Hr & _ & _ & Hoi & _ & _ & Hv & _).
  split; [exact Hr|]. split; [exact Hoi | exact Hv].
Defined.

(** ** The life of an order *)

(** X10.  AdminSetStatus overwrites the status and nothing else, with no
    condition on the status the order has.  When the statement does not
    raise: if an order with that id exists the answer is 200 with the
    updated header, otherwise 404; afterwards every header with that id has
    the new status, the headers with another id are as before, every header
    keeps its id, customer, address, payment method and creation time, and
    the other tables are unchanged. *)
Theorem admin_set_status_spec (raises : nat -> bool) (orderId : Z) (newStatus : string)
  (s : Db) :
  raises (stmts s) = false ->
  let out := patch_orders_status raises orderId newStatus s in
  let t' := tables (snd out) in
  fst out =
    match find (fun o => co_id o =? orderId) (customer_order (tables s)) with
    | Some o =>
        Ok (mk_response 200
              (OrderUpdated "Order status updated"
                 (mk_order (co_id o) (co_customer_id o) newStatus (co_shipping_address o)
                           (co_payment_method o) (co_created_at o))))
    | None => Ok (mk_response 404 (Message "Order not found"))
    end /\
  (forall o, In o (customer_order t') -> co_id o = orderId -> co_status o = newStatus) /\
  (forall o, co_id o <> orderId ->
             (In o (customer_order t') <-> In o (customer_order (tables s)))) /\
  map order_core (customer_order t') = map order_core (customer_order (tables s)) /\
  cart t' = cart (tables s) /\ order_item t' = order_item (tables s) /\
  product t' = product (tables s) /\ coupon t' = coupon (tables s).
Proof.
  intros Hno out t'. subst out t'.
  unfold patch_orders_status, try_catch, bind, query, on_tables, ret.
  rewrite Hno. simpl.
  set (upd := fun o => mk_order (co_id o) (co_customer_id o) newStatus
                                (co_shipping_address o) (co_payment_method o)
                                (co_created_at o)).
  set (hit := fun o => co_id o =? orderId).
  assert (Hhead : forall l : list customer_order_row,
            hd_error (map upd (filter hit l)) = option_map upd (find hit l)).
  { intros l. rewrite <- filter_head_find. destruct (filter hit l); reflexivity. }
  specialize (Hhead (customer_order (tables s))).
  assert (Hmem : forall o, In o (map (fun o => if hit o then upd o else o)
                                     (customer_order (tables s))) ->
                           exists o0, In o0 (customer_order (tables s)) /\
                                      o = (if hit o0 then upd o0 else o0)).
  { intros o Hin. apply in_map_iff in Hin. destruct Hin as (o0 & <- & Hin). eauto. }
  assert (Hrest :
    (forall o, In o (map (fun o => if hit o then upd o else o) (customer_order (tables s))) ->
               co_id o = orderId -> co_status o = newStatus) /\
    (forall o, co_id o <> orderId ->
               (In o (map (fun o => if hit o then upd o else o) (customer_order (tables s)))
                <-> In o (customer_order (tables s)))) /\
    map order_core (map (fun o => if hit o then upd o else o) (customer_order (tables s))) =
    map order_core (customer_order (tables s))).
  { split; [|split].
    - intros o Hin Hid. destruct (Hmem o Hin) as (o0 & _ & ->).
      unfold hit in *. destruct (Z.eqb_spec (co_id o0) orderId); [reflexivity|contradiction].
    - intros o Hid. split.
      + intros Hin. destruct (Hmem o Hin) as (o0 & Hin0 & ->).
        unfold hit in *. destruct (Z.eqb_spec (co_id o0) orderId); [|exact Hin0].
        simpl in Hid. contradiction.
      + intros Hin. apply in_map_iff. exists o. split; [|exact Hin].
        unfold hit. destruct (Z.eqb_spec (co_id o) orderId); [contradiction|reflexivity].
    - rewrite map_map. apply map_ext. intros o. destruct (hit o); reflexivity. }
  destruct Hrest as (R1 & R2 & R3).
  destruct (map upd (filter hit (customer_order (tables s)))) as [|o1 l1] eqn:E;
    simpl in Hhead;
    destruct (find hit (customer_order (tables s))) as [o0|]; simpl in Hhead;
    try discriminate; simpl.
  - repeat split; auto; apply R2; assumption.
  - inversion Hhead; subst. repeat split; auto; apply R2; assumption.
Qed.

Lemma admin_set_status_spec_witness :
  let s := fresh_db scenarioD_paid 2 in
  let out := patch_orders_status no_faults 1 "Pending" s in
  no_faults (stmts s) = false /\
  fst out = Ok (mk_response 200 (OrderUpdated "Order status updated"
                                   (mk_order 1 7 "Pending" "X" (Some "card") 100))) /\
  map order_core (customer_order (tables (snd out))) =
  map order_core (customer_order (tables s)).
Proof.
  split; [reflexivity|].
  destruct (admin_set_status_spec no_faults 1 "Pending" (fresh_db scenarioD_paid 2) eq_refl)
    as (Hr & _ & _ & Hc & _).
  split; [exact Hr | exact Hc].
Defined.

(** X11.  PlaceOrder stays within the customer's own cart and orders.
    Whether it succeeds or fails, the product table (so every stock
    quantity and price) and the coupons are as before, the cart of every
    other customer is as before, and every order header and order line that
    existed before the call is still there. *)
Theorem place_order_frame (raises : nat -> bool) (now userId : Z)
  (shippingAddress : string) (s s' : Db) (r : result response) :
  idle s ->
  post_orders raises now userId shippingAddress s = (r, s') ->
  product (tables s') = product (tables s) /\
  coupon (tables s') = coupon (tables s) /\
  (forall u, u <> userId -> cart_lines u (tables s') = cart_lines u (tables s)) /\
  (forall o, In o (customer_order (tables s)) -> In o (customer_order (tables s'))) /\
  (forall oi, In oi (order_item (tables s)) -> In oi (order_item (tables s'))) /\
  (forall threshold,
     fst (SELECT_low_stock threshold (tables s')) =
     fst (SELECT_low_stock threshold (tables s))).
Proof.
  intros Hidle H.
  destruct (post_orders_spec raises now userId shippingAddress s Hidle r s' H)
    as [(_ & _ & _ & Ht & _) | (_ & _ & _ & [Ht | (n & cleared & Ht)] & _)];
    rewrite Ht.
  - unfold cart_lines, SELECT_low_stock. simpl. repeat split; auto.
    + intros u Hne. now apply filter_filter_negb_other.
    + intros o Hin. apply in_or_app. now left.
    + intros oi Hin. apply in_or_app. now left.
  - repeat split; auto.
  - unfold order_in_progress, cart_lines, SELECT_low_stock. simpl. repeat split; auto.
    + intros u Hne. destruct cleared; [|reflexivity].
      now apply filter_filter_negb_other.
    + intros o Hin. apply in_or_app. now left.
    + intros oi Hin. apply in_or_app. now left.
Qed.

Lemma place_order_frame_witness :
  let s := fresh_db scenarioA 1 in
  let out := post_orders no_faults 100 7 "X" s in
  idle s /\
  product (tables (snd out)) = product (tables s) /\
  coupon (tables (snd out)) = coupon (tables s) /\
  (forall u, u <> 7 -> cart_lines u (tables (snd out)) = cart_lines u (tables s)) /\
  (forall o, In o (customer_order (tables s)) -> In o (customer_order (tables (snd out)))) /\
  (forall oi, In oi (order_item (tables s)) -> In oi (order_item (tables (snd out)))) /\
  (forall threshold,
     fst (SELECT_low_stock threshold (tables (snd out))) =
     fst (SELECT_low_stock threshold (tables s))).
Proof.
  split; [reflexivity|].
  apply (place_order_frame no_faults 100 7 "X" (fresh_db scenarioA 1) _
           (fst (post_orders no_faults 100 7 "X" (fresh_db scenarioA 1))));
    reflexivity.
Defined.

Section OrderIds.

Variable raises : nat -> bool.

Ltac run_handler :=
  unfold try_catch, bind, query, on_tables, ret; simpl;
  repeat match goal with
         | |- context [if raises ?k then _ else _] => destruct (raises k); simpl
         | |- context [match ?l with [] => _ | _ :: _ => _ end] => destruct l; simpl
         | |- context [if existsb ?f ?l then _ else _] => destruct (existsb f l); simpl
         end;
  auto.

Lemma handle_orders_other (r : request) (s : Db) :
  reads_orders_only r = true ->
  customer_order (tables (snd (handle raises r s))) = customer_order (tables s).
Proof.
  destruct r; simpl; try discriminate; intros _.
  - unfold get_cart. run_handler.
  - unfold post_cart, INSERT_cart_ON_CONFLICT. run_handler.
  - unfold put_cart_productId. run_handler.
  - unfold delete_cart_productId. run_handler.
  - unfold delete_cart. run_handler.
  - unfold get_orders_orderId. run_handler.
  - unfold post_products. run_handler.
  - unfold put_products_id. run_handler.
  - unfold delete_products_id. run_handler.
  - unfold patch_products_stock. run_handler.
  - unfold post_coupons. run_handler.
  - unfold post_apply_coupon. run_handler.
  - unfold get_admin_sales_report. run_handler.
  - unfold get_admin_low_stock_alerts. run_handler.
Qed.

Lemma map_co_id_update (g : customer_order_row -> bool)
  (upd : customer_order_row -> customer_order_row) (l : list customer_order_row) :
  (forall o, co_id (upd o) = co_id o) ->
  map co_id (map (fun o => if g o then upd o else o) l) = map co_id l.
Proof. intros H. now apply map_update_keys. Qed.

Lemma behind_of_ids (l l' : list customer_order_row) (n : Z) :
  map co_id l' = map co_id l ->
  (forall o, In o l -> co_id o < n) -> forall o, In o l' -> co_id o < n.
Proof.
  intros Hids Hb o Hin. apply (in_map co_id) in Hin. rewrite Hids in Hin.
  apply in_map_iff in Hin. destruct Hin as (o0 & <- & Hin0). now apply Hb.
Qed.

(** Every request keeps the order ids behind the sequence and distinct. *)
Lemma handle_order_ids (r : request) (s : Db) :
  (forall now u a, r <> POST_orders now u a) ->
  order_ids_behind s -> order_ids_unique (tables s) ->
  let s' := snd (handle raises r s) in
  order_ids_behind s' /\ order_ids_unique (tables s').
Proof.
  unfold order_ids_behind, order_ids_unique. intros Hother Hb Hu.
  destruct (reads_orders_only r) eqn:Er.
  { cbv zeta. rewrite handle_orders_other by exact Er.
    destruct (handle_other raises r s Hother) as (_ & Hs & _).
    rewrite Hs. auto. }
  destruct r; simpl in Er; try discriminate; simpl.
  - (* POST /orders *)
    exfalso. eapply Hother. reflexivity.
  - (* POST /orders/:orderId/pay *)
    unfold post_orders_pay, try_catch, bind, query, on_tables, ret.
    destruct (raises (stmts s)); simpl; [auto|].
    destruct (filter _ (customer_order (tables s))); simpl; [auto|].
    destruct (raises (S (stmts s))); simpl; [auto|].
    assert (Hids : map co_id
                     (map (fun o => if co_id o =? orderId
                                    then mk_order (co_id o) (co_customer_id o) "Paid"
                                           (co_shipping_address o) (Some paymentMethod)
                                           (co_created_at o)
                                    else o) (customer_order (tables s))) =
                   map co_id (customer_order (tables s)))
      by (apply map_co_id_update; reflexivity).
    split; [eapply behind_of_ids; eauto | now rewrite Hids].
  - (* PATCH /orders/:orderId/status *)
    unfold patch_orders_status, try_catch, bind, query, on_tables, ret.
    destruct (raises (stmts s)); simpl; [auto|].
    assert (Hids : map co_id
                     (map (fun o => if co_id o =? orderId
                                    then mk_order (co_id o) (co_customer_id o) newStatus
                                           (co_shipping_address o) (co_payment_method o)
                                           (co_created_at o)
                                    else o) (customer_order (tables s))) =
                   map co_id (customer_order (tables s)))
      by (apply map_co_id_update; reflexivity).
    destruct (map _ (filter _ (customer_order (tables s)))); simpl;
      (split; [eapply behind_of_ids; eauto | now rewrite Hids]).
Qed.

End OrderIds.

(** X12.  Order ids are never reused: if, when the server starts, the order
    headers have distinct ids that the sequence is ahead of, then after any
    sequence of requests, whichever statements raise, the order headers
    still have distinct ids. *)
Theorem order_ids_unique_invariant (raises : nat -> bool) (rs : list request) (s : Db) :
  idle s -> order_ids_behind s -> order_ids_unique (tables s) ->
  order_ids_behind (serve raises rs s) /\ order_ids_unique (tables (serve raises rs s)).
Proof.
  intros Hidle Hb Hu.
  assert (Hst : stable (fun n t => (forall o, In o (customer_order t) -> co_id o < n) /\
                                   NoDup (map co_id (customer_order t)))
                       (serve raises rs s)).
  { apply serve_stable.
    - intros n t (Hb0 & Hu0). split; [|exact Hu0].
      intros o Hin. specialize (Hb0 o Hin). lia.
    - intros now u a s0 n cleared (Hb0 & Hu0). unfold order_in_progress. simpl. split.
      + intros o Hin. apply in_app_or in Hin. destruct Hin as [Hin|[<-|[]]].
        * specialize (Hb0 o Hin). lia.
        * simpl. lia.
      + rewrite map_app. simpl. apply NoDup_snoc; [|exact Hu0].
        intros Hin. apply in_map_iff in Hin. destruct Hin as (o & Hid & Hin).
        specialize (Hb0 o Hin). lia.
    - intros r s0 Hother (Hb0 & Hu0).
      destruct (handle_order_ids raises r s0 Hother Hb0 Hu0) as (Hb' & Hu').
      destruct (handle_other raises r s0 Hother) as (_ & Hq & _).
      cbv zeta in Hq. unfold order_ids_behind in Hb'. rewrite Hq in Hb'.
      split; [exact Hb' | exact Hu'].
    - apply stable_idle; [exact Hidle | split; [exact Hb | exact Hu]]. }
  exact (proj1 Hst).
Qed.

Lemma order_ids_unique_invariant_witness :
  let s := fresh_db scenarioA 1 in
  let rs := [POST_orders 100 7 "X"; POST_cart 7 1 1; POST_orders 101 7 "X";
             POST_orders_pay 7 1 "card"; PATCH_orders_status 2 "Shipped"] in
  idle s /\ order_ids_behind s /\ order_ids_unique (tables s) /\
  order_ids_behind (serve (fault_at 9) rs s) /\
  order_ids_unique (tables (serve (fault_at 9) rs s)).
Proof.
  assert (Hb : order_ids_behind (fresh_db scenarioA 1)) by (intros o []).
  assert (Hu : order_ids_unique (tables (fresh_db scenarioA 1))) by constructor.
  split; [reflexivity|]. split; [exact Hb|]. split; [exact Hu|].
  exact (order_ids_unique_invariant (fault_at 9) _ (fresh_db scenarioA 1) eq_refl Hb Hu).
Defined.

Lemma filter_fresh_id (id u : Z) (l : list customer_order_row) :
  (forall o, In o l -> co_id o < id) ->
  filter (fun o => (co_id o =? id) && (co_customer_id o =? u)) l = [].
Proof.
  induction l as [|o l IH]; simpl; intros Hb; [reflexivity|].
  destruct (Z.eqb_spec (co_id o) id) as [E|E]; simpl.
  - specialize (Hb o (or_introl eq_refl)). lia.
  - apply IH. intros x Hx. apply Hb. now right.
Qed.

(** X13.  PlaceOrder, then GetOrder.  In a state where the sequence is ahead
    of the order ids, after a PlaceOrder answered with 201 the customer who
    placed the order reads it back under the id returned: status Pending, no
    payment method, the shipping address and the time of the call; any other
    customer asking for that id is answered 404. *)
Theorem place_order_then_get (raises : nat -> bool) (now userId : Z)
  (shippingAddress : string) (s s' : Db) (r : result response) :
  idle s -> order_ids_behind s ->
  post_orders raises now userId shippingAddress s = (r, s') ->
  created r = true ->
  raises (stmts s') = false -> raises (S (stmts s')) = false ->
  let orderId := customer_order_id_seq s in
  r = Ok (mk_response 201 (OrderCreated "Order created successfully" orderId)) /\
  fst (get_orders_orderId raises userId orderId s') =
    Ok (mk_response 200
          (OrderDetails (mk_order orderId userId "Pending" shippingAddress None now)
             (fst (SELECT_order_item_JOIN_product orderId (tables s'))))) /\
  (forall u, u <> userId ->
     fst (get_orders_orderId raises u orderId s') =
       Ok (mk_response 404 (Message "Order not found"))).
Proof.
  intros Hidle Hb H Hok H0 H1 orderId.
  destruct (post_orders_spec raises now userId shippingAddress s Hidle r s' H)
    as [(Hr & _ & _ & Ht & _) | (Hr & _)]; [|congruence].
  split; [exact Hr|].
  assert (Hold : forall u,
            filter (fun o => (co_id o =? orderId) && (co_customer_id o =? u))
                   (customer_order (tables s)) = []).
  { intros u. apply filter_fresh_id. intros o Ho. specialize (Hb o Ho).
    unfold orderId. lia. }
  unfold get_orders_orderId, try_catch, bind, query, on_tables, ret.
  rewrite H0. simpl. rewrite Ht. simpl.
  split.
  - rewrite filter_app, Hold. simpl. fold orderId. rewrite !Z.eqb_refl. simpl.
    rewrite H1. simpl. reflexivity.
  - intros u Hne. rewrite filter_app, Hold. simpl. fold orderId. rewrite Z.eqb_refl.
    destruct (Z.eqb_spec userId u); [congruence|]. reflexivity.
Qed.

Lemma place_order_then_get_witness :
  let s := fresh_db scenarioA 1 in
  let out := post_orders no_faults 100 7 "X" s in
  idle s /\ order_ids_behind s /\ created (fst out) = true /\
  fst (get_orders_orderId no_faults 7 1 (snd out)) =
    Ok (mk_response 200
          (OrderDetails (mk_order 1 7 "Pending" "X" None 100)
             (fst (SELECT_order_item_JOIN_product 1 (tables (snd out)))))) /\
  (forall u, u <> 7 ->
     fst (get_orders_orderId no_faults u 1 (snd out)) =
       Ok (mk_response 404 (Message "Order not found"))).
Proof.
  assert (Hb : order_ids_behind (fresh_db scenarioA 1)) by (intros o []).
  split; [reflexivity|]. split; [exact Hb|]. split; [reflexivity|].
  destruct (place_order_then_get no_faults 100 7 "X" (fresh_db scenarioA 1)
              _ _ eq_refl Hb eq_refl eq_refl eq_refl eq_refl) as (_ & H1 & H2).
  split; [exact H1 | exact H2].
Defined.

(** ** Coupons and stock *)

Lemma filter_none {A} (f : A -> bool) (l : list A) :
  (forall x, In x l -> f x = false) -> filter f l = [].
Proof.
  induction l as [|x l IH]; simpl; intros H; [reflexivity|].
  rewrite (H x (or_introl eq_refl)). apply IH. intros y Hy. apply H. now right.
Qed.

(** X14.  Creating a coupon and applying it.  When the statements do not
    raise and no coupon has the code yet, [POST /coupons] is answered with
    201 and the row; applying the code afterwards is answered with 200 and
    the discount exactly on the days from [valid_from] to [valid_to], ends
    included, and with 404 on any other day.  The window is not checked when
    the coupon is created: a coupon whose [valid_to] is before its
    [valid_from] is accepted and can never be applied. *)
Theorem coupon_create_then_apply (raises : nat -> bool) (code : string)
  (discount_percent valid_from valid_to : Z) (s : Db) :
  raises (stmts s) = false ->
  raises (S (stmts s)) = false ->
  (forall c, In c (coupon (tables s)) -> cp_code c <> code) ->
  let made := post_coupons raises code discount_percent valid_from valid_to s in
  fst made = Ok (mk_response 201
                   (CouponCreated (mk_coupon code discount_percent valid_from valid_to))) /\
  (forall today,
     fst (post_apply_coupon raises today code (snd made)) =
       if (valid_from <=? today) && (today <=? valid_to)
       then Ok (mk_response 200 (CouponApplied "Coupon applied successfully" discount_percent))
       else Ok (mk_response 404 (Message "Invalid or expired coupon"))) /\
  (valid_to < valid_from ->
   forall today,
     fst (post_apply_coupon raises today code (snd made)) =
       Ok (mk_response 404 (Message "Invalid or expired coupon"))).
Proof.
  intros H0 H1 Hnew made. subst made.
  assert (Happly : forall today,
    fst (post_apply_coupon raises today code
           (snd (post_coupons raises code discount_percent valid_from valid_to s))) =
    if (valid_from <=? today) && (today <=? valid_to)
    then Ok (mk_response 200 (CouponApplied "Coupon applied successfully" discount_percent))
    else Ok (mk_response 404 (Message "Invalid or expired coupon"))).
  { intros today.
    unfold post_coupons, post_apply_coupon, try_catch, bind, query, on_tables, ret.
    rewrite H0. simpl. rewrite H1. simpl.
    rewrite filter_app, filter_none.
    - simpl. rewrite String.eqb_refl. simpl.
      replace (valid_to >=? today) with (today <=? valid_to)
        by (rewrite Z.geb_leb; reflexivity).
      destruct ((valid_from <=? today) && (today <=? valid_to)); reflexivity.
    - intros c Hc. specialize (Hnew c Hc).
      destruct (String.eqb_spec (cp_code c) code); [contradiction | reflexivity]. }
  split; [|split].
  - unfold post_coupons, try_catch, bind, query, on_tables, ret. now rewrite H0.
  - exact Happly.
  - intros Hinv today. rewrite Happly.
    destruct (Z.leb_spec valid_from today), (Z.leb_spec today valid_to);
      simpl; try reflexivity. lia.
Qed.

Lemma coupon_create_then_apply_witness :
  let s := fresh_db scenarioC 1 in
  let made := post_coupons no_faults "BACKWARDS" 20 31 1 s in
  (forall c, In c (coupon (tables s)) -> cp_code c <> "BACKWARDS") /\
  fst made = Ok (mk_response 201 (CouponCreated (mk_coupon "BACKWARDS" 20 31 1))) /\
  (1 < 31 ->
   forall today,
     fst (post_apply_coupon no_faults today "BACKWARDS" (snd made)) =
       Ok (mk_response 404 (Message "Invalid or expired coupon"))).
Proof.
  assert (Hnew : forall c, In c (coupon (tables (fresh_db scenarioC 1))) ->
                           cp_code c <> "BACKWARDS").
  { intros c [<-|[<-|[]]]; discriminate. }
  split; [exact Hnew|].
  destruct (coupon_create_then_apply no_faults "BACKWARDS" 20 31 1 (fresh_db scenarioC 1)
              eq_refl eq_refl Hnew) as (Hr & _ & Hinv).
  split; [exact Hr | exact Hinv].
Defined.

Lemma product_eta (p : product_row) :
  mk_product (p_id p) (p_name p) (p_description p) (p_price p) (p_category_id p)
             (p_stock_quantity p) = p.
Proof. destruct p; reflexivity. Qed.

(** X15.  Stock adjustments add up.  When the statements do not raise,
    adjusting the stock of a product by [q1] and then by [q2] leaves the
    tables that one adjustment by [q1 + q2] leaves; in particular an
    adjustment followed by the opposite one restores the tables.  No bound
    is checked: the stock quantity may become negative. *)
Theorem stock_adjustments_add (raises : nat -> bool) (id q1 q2 : Z) (s : Db) :
  raises (stmts s) = false ->
  raises (S (stmts s)) = false ->
  let twice := snd (patch_products_stock raises id q2
                      (snd (patch_products_stock raises id q1 s))) in
  tables twice = tables (snd (patch_products_stock raises id (q1 + q2) s)) /\
  (q1 + q2 = 0 -> tables twice = tables s).
Proof.
  intros H0 H1 twice. subst twice.
  assert (Hst : forall (q : Z) (sx : Db),
    raises (stmts sx) = false ->
    tables (snd (patch_products_stock raises id q sx)) =
    with_product
      (map (fun p => if p_id p =? id
                     then mk_product (p_id p) (p_name p) (p_description p) (p_price p)
                                     (p_category_id p) (p_stock_quantity p + q)
                     else p) (product (tables sx))) (tables sx) /\
    stmts (snd (patch_products_stock raises id q sx)) = S (stmts sx)).
  { intros q sx Hx.
    unfold patch_products_stock, try_catch, bind, query, on_tables, ret.
    rewrite Hx. simpl.
    destruct (map _ (filter (fun p => p_id p =? id) (product (tables sx))));
      simpl; auto. }
  destruct (Hst q1 s H0) as (T1 & S1).
  destruct (Hst (q1 + q2) s H0) as (T12 & _).
  assert (H1' : raises (stmts (snd (patch_products_stock raises id q1 s))) = false)
    by now rewrite S1.
  destruct (Hst q2 _ H1') as (T2 & _).
  assert (Hcomp : tables (snd (patch_products_stock raises id q2
                                 (snd (patch_products_stock raises id q1 s)))) =
                  tables (snd (patch_products_stock raises id (q1 + q2) s))).
  { rewrite T2, T12, T1. unfold with_product. simpl. f_equal.
    rewrite map_map. apply map_ext. intros p.
    destruct (Z.eqb_spec (p_id p) id) as [E|E]; simpl.
    - destruct (Z.eqb_spec (p_id p) id); [|contradiction]. now rewrite Z.add_assoc.
    - destruct (Z.eqb_spec (p_id p) id); [contradiction|reflexivity]. }
  split; [exact Hcomp|].
  intros Hz. rewrite Hcomp, T12, Hz. unfold with_product.
  replace (map _ (product (tables s))) with (product (tables s)).
  - apply tables_eta.
  - symmetry. rewrite <- (map_id (product (tables s))) at 2.
    apply map_ext. intros p. destruct (p_id p =? id); [|reflexivity].
    rewrite Z.add_0_r. apply product_eta.
Qed.

Lemma stock_adjustments_add_witness :
  let s := fresh_db scenarioA 1 in
  let twice := snd (patch_products_stock no_faults 1 9
                      (snd (patch_products_stock no_faults 1 (-9) s))) in
  p_stock_quantity
    (hd (mk_product 0 "none" "none" 0 0 0)
        (product (tables (snd (patch_products_stock no_faults 1 (-9) s))))) = -5 /\
  (-9 + 9 = 0 -> tables twice = tables s).
Proof.
  split; [reflexivity|].
  exact (proj2 (stock_adjustments_add no_faults 1 (-9) 9 (fresh_db scenarioA 1)
                  eq_refl eq_refl)).
Defined.

(** X16.  Updating a product and reading it back.  When the statements do
    not raise and product ids are unique: if a product has the id,
    [PUT /products/:id] is answered with 200, and [GET /products/:id] then
    returns the row with the same id and the five new values, while every
    product with another id is as before; if no product has the id, the
    answer is 404 and no table changes (PUT never creates a product). *)
Theorem put_product_then_get (raises : nat -> bool) (id : Z) (name description : string)
  (price category_id stock_quantity : Z) (s : Db) :
  raises (stmts s) = false ->
  raises (S (stmts s)) = false ->
  product_ids_unique (tables s) ->
  let put := put_products_id raises id name description price category_id stock_quantity s in
  let row := mk_product id name description price category_id stock_quantity in
  ((exists p, In p (product (tables s)) /\ p_id p = id) ->
   fst put = Ok (mk_response 200 (ProductUpdated row)) /\
   fst (get_products_id raises id (snd put)) = Ok (mk_reply 200 (Data row)) /\
   (forall p, p_id p <> id ->
              (In p (product (tables (snd put))) <-> In p (product (tables s)))) /\
   product_ids_unique (tables (snd put))) /\
  ((forall p, In p (product (tables s)) -> p_id p <> id) ->
   fst put = Ok (mk_response 404 (Message "Product not found")) /\
   tables (snd put) = tables s).
Proof.
  intros H0 H1 Hu put row. subst put.
  unfold put_products_id, get_products_id, try_catch, bind, query, on_tables, ret.
  rewrite H0. simpl.
  set (hit := fun p => p_id p =? id).
  set (upd := fun p : product_row =>
                mk_product (p_id p) name description price category_id stock_quantity).
  assert (Hids : map p_id (map (fun p => if hit p then upd p else p) (product (tables s))) =
                 map p_id (product (tables s))).
  { rewrite map_map. apply map_ext. intros p. destruct (hit p); reflexivity. }
  split.
  - intros (p0 & Hin0 & Hid0).
    assert (Hf : In p0 (filter hit (product (tables s)))).
    { apply filter_In. split; [exact Hin0|]. unfold hit. now apply Z.eqb_eq. }
    destruct (filter hit (product (tables s))) as [|p1 l1] eqn:E; [contradiction|].
    assert (Hp1 : p_id p1 = id).
    { assert (Hin1 : In p1 (p1 :: l1)) by now left.
      rewrite <- E in Hin1. apply filter_In in Hin1. unfold hit in Hin1.
      now apply Z.eqb_eq. }
    simpl. split; [|split; [|split]].
    + unfold upd at 1. now rewrite Hp1.
    + rewrite H1. simpl.
      assert (Hnd : NoDup (map p_id (map (fun p => if hit p then upd p else p)
                                         (product (tables s))))) by now rewrite Hids.
      pose proof (filter_unique_id id _ Hnd) as Hfu.
      assert (Hsame : forall l : list product_row,
                filter (fun p => p_id p =? id) l = filter (fun p => id =? p_id p) l).
      { intros l. apply filter_ext. intros p. apply Z.eqb_sym. }
      unfold hit, upd in Hfu. rewrite Hsame, Hfu.
      assert (Hfind : find (fun p => id =? p_id p)
                           (map (fun p => if hit p then upd p else p) (product (tables s)))
                      = Some row).
      { clear -Hin0 Hid0. subst hit upd row. simpl.
        induction (product (tables s)) as [|p l IH]; simpl in *; [contradiction|].
        destruct (Z.eqb_spec (p_id p) id) as [Ep|Ep]; simpl.
        - rewrite Ep, Z.eqb_refl. reflexivity.
        - destruct (Z.eqb_spec id (p_id p)); [congruence|].
          apply IH. destruct Hin0 as [->|]; [contradiction|assumption]. }
      unfold hit, upd in Hfind. rewrite Hfind. reflexivity.
    + intros p Hne. split.
      * intros Hin. apply in_map_iff in Hin. destruct Hin as (q & Hq & Hin).
        unfold hit in Hq. destruct (Z.eqb_spec (p_id q) id).
        -- subst p. simpl in Hne. contradiction.
        -- now subst.
      * intros Hin. apply in_map_iff. exists p. split; [|exact Hin].
        unfold hit. destruct (Z.eqb_spec (p_id p) id); [contradiction|reflexivity].
    + unfold product_ids_unique. simpl. unfold hit, upd in Hids. now rewrite Hids.
  - intros Hnone.
    assert (Hf : filter hit (product (tables s)) = []).
    { apply filter_none. intros p Hp. unfold hit. apply Z.eqb_neq. now apply Hnone. }
    rewrite Hf. simpl. split; [reflexivity|].
    unfold with_product.
    replace (map _ (product (tables s))) with (product (tables s)); [apply tables_eta|].
    symmetry. rewrite <- (map_id (product (tables s))) at 2.
    apply map_ext_in. intros p Hp. unfold hit.
    destruct (Z.eqb_spec (p_id p) id) as [E|]; [|reflexivity].
    exfalso. exact (Hnone p Hp E).
Qed.

Lemma put_product_then_get_witness :
  let s := fresh_db scenarioA 1 in
  let put := put_products_id no_faults 2 "mug" "big" 700 1 12 s in
  product_ids_unique (tables s) /\
  (exists p, In p (product (tables s)) /\ p_id p = 2) /\
  fst put = Ok (mk_response 200 (ProductUpdated (mk_product 2 "mug" "big" 700 1 12))) /\
  fst (get_products_id no_faults 2 (snd put)) =
    Ok (mk_reply 200 (Data (mk_product 2 "mug" "big" 700 1 12))).
Proof.
  assert (Hu : product_ids_unique (tables (fresh_db scenarioA 1))).
  { unfold product_ids_unique. simpl.
    repeat (constructor; [simpl; intuition discriminate|]). constructor. }
  assert (Hex : exists p, In p (product (tables (fresh_db scenarioA 1))) /\ p_id p = 2).
  { exists (mk_product 2 "cup" "" 500 1 30). simpl. auto. }
  split; [exact Hu|]. split; [exact Hex|].
  destruct (put_product_then_get no_faults 2 "mug" "big" 700 1 12 (fresh_db scenarioA 1)
              eq_refl eq_refl Hu) as (Hyes & _).
  destruct (Hyes Hex) as (Hr & Hg & _).
  split; [exact Hr | exact Hg].
Defined.

(** ** The sales report *)

(** X17.  The shape of the sales report.  When the query does not raise, the
    answer is 200 with rows in descending order of revenue, at most one row
    per product id and name, and grouping neither loses nor double counts:
    the [total_sold] of the rows add up to the quantities of all the joined
    order lines in the date range, and the revenues add up to the sum of
    quantity times current product price over those lines. *)
Theorem sales_report_structure (raises : nat -> bool) (startDate endDate : Z) (s : Db) :
  raises (stmts s) = false ->
  exists rows,
    fst (get_admin_sales_report raises startDate endDate s) =
      Ok (mk_response 200 (SalesRows rows)) /\
    StronglySorted (fun a b => sr_revenue b <= sr_revenue a) rows /\
    NoDup (map (fun r => (sr_id r, sr_name r)) rows) /\
    sum_Z (map sr_total_sold rows) =
      sum_Z (map (fun j => oi_quantity (fst (fst j)))
                 (sales_join startDate endDate (tables s))) /\
    sum_Z (map sr_revenue rows) =
      sum_Z (map (fun j => oi_quantity (fst (fst j)) * p_price (snd (fst j)))
                 (sales_join startDate endDate (tables s))).
Proof.
  intros Hno.
  unfold get_admin_sales_report, try_catch, bind, query, on_tables, ret.
  rewrite Hno. simpl.
  set (joined := map fst (sales_join startDate endDate (tables s))).
  set (le := fun a b => sr_revenue b <=? sr_revenue a).
  exists (ORDER_BY le (GROUP_BY_product joined)).
  assert (Hperm : Permutation (ORDER_BY le (GROUP_BY_product joined))
                              (GROUP_BY_product joined)) by apply ORDER_BY_perm.
  set (key := fun r : order_item_row * product_row => (p_id (snd r), p_name (snd r))).
  assert (Hkeys : map (fun r => (sr_id r, sr_name r)) (GROUP_BY_product joined) =
                  nodup group_key_eq_dec (map key joined)).
  { unfold GROUP_BY_product. rewrite map_map. simpl.
    etransitivity; [|apply map_id]. apply map_ext. intros [i n]. reflexivity. }
  assert (Hin : forall r, In r joined ->
                          In (key r) (nodup group_key_eq_dec (map key joined))).
  { intros r Hr. apply nodup_In. now apply in_map. }
  split; [reflexivity|]. split; [|split; [|split]].
  - apply Sorted_StronglySorted.
    + intros a b c. lia.
    + apply Sorted_weaken with (R := fun a b => le a b = true).
      * intros a b Hab. unfold le in Hab. now apply Z.leb_le.
      * apply ORDER_BY_sorted. intros a b. unfold le. rewrite !Z.leb_le. lia.
  - apply (Permutation_NoDup
             (l := map (fun r => (sr_id r, sr_name r)) (GROUP_BY_product joined))).
    + apply Permutation_map. now apply Permutation_sym.
    + rewrite Hkeys. apply NoDup_nodup.
  - rewrite (sum_Z_perm _ _ (Permutation_map sr_total_sold Hperm)).
    unfold GROUP_BY_product. rewrite map_map. simpl.
    etransitivity;
      [exact (group_sum key (fun r => oi_quantity (fst r)) _ joined
                (NoDup_nodup _ _) Hin)|].
    unfold joined. now rewrite map_map.
  - rewrite (sum_Z_perm _ _ (Permutation_map sr_revenue Hperm)).
    unfold GROUP_BY_product. rewrite map_map. simpl.
    etransitivity;
      [exact (group_sum key (fun r => oi_quantity (fst r) * p_price (snd r)) _ joined
                (NoDup_nodup _ _) Hin)|].
    unfold joined. now rewrite map_map.
Qed.

Lemma sales_report_structure_witness :
  exists rows,
    fst (get_admin_sales_report no_faults 1 10 (fresh_db scenario_report 5)) =
      Ok (mk_response 200 (SalesRows rows)) /\
    StronglySorted (fun a b => sr_revenue b <= sr_revenue a) rows /\
    NoDup (map (fun r => (sr_id r, sr_name r)) rows) /\
    sum_Z (map sr_total_sold rows) =
      sum_Z (map (fun j => oi_quantity (fst (fst j))) (sales_join 1 10 scenario_report)) /\
    sum_Z (map sr_revenue rows) =
      sum_Z (map (fun j => oi_quantity (fst (fst j)) * p_price (snd (fst j)))
                 (sales_join 1 10 scenario_report)).
Proof.
  exact (sales_report_structure no_faults 1 10 (fresh_db scenario_report 5) eq_refl).
Defined.

(** ** Who may call what *)

(** X18.  The guard of the admin endpoints.  The handler of an admin route
    runs only when the request carries a non-empty token that verifies, the
    lookup of the user does not raise, and the first customer row of the
    user has [is_admin] true; it then runs as the next statement.  In every
    other case the handler does not run and no table changes: no or an empty
    token is answered with 403, a token that does not verify with 500, a
    user who is not an admin with 403, and a user with no customer row, or a
    lookup that raises, with 500. *)
Theorem admin_route_guard (raises : nat -> bool) (jwt_verify : string -> option Z)
  (customer : list customer_row) (authorization : option string)
  (handler : M response) (s : Db) :
  let out := admin_route raises send_response jwt_verify customer authorization handler s in
  (given authorization = None ->
   out = (Ok (send_response 403 "No token provided."), s)) /\
  (forall token, given authorization = Some token -> jwt_verify token = None ->
   out = (Ok (send_response 500 "Failed to authenticate token."), s)) /\
  (forall id, authenticated jwt_verify authorization = Some id ->
   (raises (stmts s) = true ->
    out = (Ok (send_response 500 "Error checking admin status"), tick s)) /\
   (raises (stmts s) = false ->
    match customer_of customer id with
    | None => out = (Ok (send_response 500 "Error checking admin status"), tick s)
    | Some row =>
        match cu_is_admin row with
        | Some true => out = handler (tick s)
        | _ => out = (Ok (send_response 403 "Requires admin privileges"), tick s)
        end
    end)).
Proof.
  intros out. subst out.
  unfold admin_route, verifyToken, authenticated, given.
  destruct authorization as [[|a token]|].
  - split; [reflexivity|]. split; intros; discriminate.
  - split; [discriminate|]. split.
    + intros t Ht Hv. inversion Ht; subst. now rewrite Hv.
    + intros id Hid. rewrite Hid.
      unfold isAdmin, try_catch, bind, query, throw, ret, customer_of, SELECT_is_admin.
      split; intros Hr; rewrite Hr; [reflexivity|].
      rewrite <- filter_head_find.
      destruct (filter (fun c => cu_id c =? id) customer) as [|row rest]; simpl;
        [reflexivity|].
      destruct (cu_is_admin row) as [[|]|]; reflexivity.
  - split; [reflexivity|]. split; intros; discriminate.
Qed.

Lemma admin_route_guard_witness :
  let s := fresh_db scenarioD_paid 2 in
  let run auth := admin_route no_faults send_response test_jwt two_customers auth
                    (patch_orders_status no_faults 1 "Shipped") s in
  authenticated test_jwt (Some "t4") = Some 4 /\
  run (Some "t4") = (Ok (send_response 500 "Error checking admin status"), tick s) /\
  run (Some "t2") = (Ok (send_response 403 "Requires admin privileges"), tick s) /\
  run (Some "t1") = patch_orders_status no_faults 1 "Shipped" (tick s).
Proof.
  split; [reflexivity|].
  pose proof (fun auth =>
    admin_route_guard no_faults test_jwt two_customers auth
      (patch_orders_status no_faults 1 "Shipped") (fresh_db scenarioD_paid 2)) as G.
  split; [|split].
  - exact (proj2 (proj2 (proj2 (G (Some "t4"))) 4 eq_refl) eq_refl).
  - exact (proj2 (proj2 (proj2 (G (Some "t2"))) 2 eq_refl) eq_refl).
  - exact (proj2 (proj2 (proj2 (G (Some "t1"))) 1 eq_refl) eq_refl).
Defined.

(** ** Pages of products *)

Lemma firstn_add {A} (a b : nat) (l : list A) :
  firstn (a + b) l = firstn a l ++ firstn b (skipn a l).
Proof.
  revert l. induction a as [|a IH]; intros l; simpl; [reflexivity|].
  destruct l as [|x l]; simpl.
  - now rewrite firstn_nil.
  - now rewrite IH.
Qed.

Lemma windows_concat {A} (n k : nat) (l : list A) :
  List.concat (map (fun i => firstn n (skipn (i * n) l)) (seq 0 k)) = firstn (k * n) l.
Proof.
  induction k as [|k IH]; [reflexivity|].
  rewrite seq_S, map_app, concat_app, IH. cbn [map List.concat Nat.add].
  rewrite app_nil_r, <- firstn_add. f_equal. lia.
Qed.

Lemma ceil_div_covers (a b : Z) :
  0 <= a -> 0 < b -> 0 <= ceil_div a b /\ a <= ceil_div a b * b /\
                     (ceil_div a b - 1) * b < a \/ (a = 0 /\ ceil_div a b = 0).
Proof.
  intros Ha Hb. unfold ceil_div.
  pose proof (Z.div_mod (- a) b ltac:(lia)) as Hdm.
  pose proof (Z.mod_pos_bound (- a) b Hb) as Hm.
  destruct (Z.eq_dec a 0) as [->|Hne].
  - right. split; reflexivity.
  - left. nia.
Qed.

Lemma window_spec {A} (limit page : Z) (l : list A) :
  0 < limit -> 1 <= page ->
  LIMIT_OFFSET limit ((page - 1) * limit) l =
    Some (firstn (Z.to_nat limit) (skipn (Z.to_nat (page - 1) * Z.to_nat limit) l)).
Proof.
  intros Hl Hp. unfold LIMIT_OFFSET.
  destruct (Z.ltb_spec limit 0); [lia|].
  destruct (Z.ltb_spec ((page - 1) * limit) 0); [nia|]. simpl.
  rewrite Z2Nat.inj_mul by lia. reflexivity.
Qed.

(** The pages of a list: each holds at most [limit] rows, the pages after
    the last are empty, and the pages from the first to the last, put end to
    end, are the list. *)
Lemma pages_partition {A} (limit : Z) (l : list A) :
  0 < limit ->
  let pages := ceil_div (Z.of_nat (List.length l)) limit in
  (forall page, 1 <= page ->
     Z.of_nat (List.length (window limit ((page - 1) * limit) l)) <= limit /\
     (pages < page -> window limit ((page - 1) * limit) l = [])) /\
  List.concat (map (fun i => window limit ((Z.of_nat i - 1) * limit) l)
              (seq 1 (Z.to_nat pages))) = l.
Proof.
  intros Hl pages.
  destruct (ceil_div_covers (Z.of_nat (List.length l)) limit ltac:(lia) Hl) as [Hc|Hc];
    fold pages in Hc.
  - destruct Hc as (Hp0 & Hcov & _). split.
    + intros page Hp. unfold window. rewrite window_spec by assumption. split.
      * pose proof (firstn_le_length (Z.to_nat limit)
                      (skipn (Z.to_nat (page - 1) * Z.to_nat limit) l)). lia.
      * intros Hlast. rewrite skipn_all2; [now rewrite firstn_nil|]. nia.
    + rewrite <- seq_shift, map_map.
      transitivity (List.concat
                      (map (fun i => firstn (Z.to_nat limit) (skipn (i * Z.to_nat limit) l))
                           (seq 0 (Z.to_nat pages)))).
      * f_equal. apply map_ext. intros j. unfold window.
        rewrite (window_spec limit (Z.of_nat (S j))) by lia.
        replace (Z.to_nat (Z.of_nat (S j) - 1)) with j by lia. reflexivity.
      * rewrite (windows_concat (Z.to_nat limit) (Z.to_nat pages) l).
        apply firstn_all2. nia.
  - destruct Hc as (Hlen & Hz).
    assert (Hnil : l = []) by (destruct l; [reflexivity | simpl in Hlen; lia]).
    split.
    + intros page Hp. unfold window. rewrite window_spec by assumption.
      rewrite Hnil, skipn_nil, firstn_nil. simpl. split; [lia | reflexivity].
    + rewrite Hz. simpl. now rewrite Hnil.
Qed.





(** ** The first server *)

Section LegacyOrders.

Variable raises : nat -> bool.

Lemma legacy_tables_eta (t : Legacy.Tables) :
  Legacy.mk_tables (Legacy.shopping_cart t) (Legacy.shopping_cart_item t)
                   (Legacy.order t) (Legacy.order_item t) (Legacy.product t) = t.
Proof. destruct t; reflexivity. Qed.

Lemma legacy_for_of_INSERT_order_item (oid : Z)
  (items : list (Legacy.shopping_cart_item_row * product_row)) :
  forall s r s',
    Legacy.for_of items
      (fun item => Legacy.query raises
         (Legacy.on_tables
            (Legacy.INSERT_order_item oid (Legacy.sci_product_id (fst item))
               (Legacy.sci_quantity (fst item)) (p_price (snd item))))) s = (r, s') ->
    Legacy.tx_saved s' = Legacy.tx_saved s /\
    Legacy.order_id_seq s' = Legacy.order_id_seq s /\
    (r = Ok tt ->
     Legacy.tables s' =
       Legacy.mk_tables
         (Legacy.shopping_cart (Legacy.tables s))
         (Legacy.shopping_cart_item (Legacy.tables s))
         (Legacy.order (Legacy.tables s))
         (Legacy.order_item (Legacy.tables s) ++ map (Legacy.to_order_item oid) items)
         (Legacy.product (Legacy.tables s))).
Proof.
  induction items as [|c items IH]; intros s r s' H; simpl in H.
  - inversion H; subst. repeat split.
    intros _. rewrite app_nil_r. now rewrite legacy_tables_eta.
  - unfold Legacy.bind at 1 in H. unfold Legacy.query at 1 in H.
    destruct (raises (Legacy.stmts s)) eqn:E.
    + inversion H; subst. simpl. repeat split. discriminate.
    + simpl in H. apply IH in H. simpl in H. destruct H as (Htx & Hseq & Hok).
      repeat split; auto.
      intros Hr. rewrite (Hok Hr). rewrite <- app_assoc. reflexivity.
Qed.

Ltac legacy_failed :=
  simpl; right;
  split; [reflexivity
         | first [left; reflexivity
                 | right; repeat split; first [reflexivity | assumption]]].

(** What the [try] statement of the first server's PlaceOrder does: it
    commits the order and answers 201; or a statement raised, and then the
    ROLLBACK of the handler either is delivered, and the call is answered
    400 on the tables of before, or raises, and no answer is sent. *)
Lemma legacy_post_orders_try_spec (userId : Z) (s : Legacy.Db) :
  Legacy.idle s ->
  forall r s', Legacy.post_orders_try raises userId s = (r, s') ->
    ((r = Ok (mk_response 201
                (OrderCreated "Order placed successfully" (Legacy.order_id_seq s))) /\
      exists v,
        Legacy.scalar (Legacy.SELECT_shopping_cart userId (Legacy.tables s)) = Some v /\
        Legacy.tables s' =
          Legacy.mk_tables
            (Legacy.shopping_cart (Legacy.tables s))
            (filter (fun i => negb (Legacy.in_cart v i))
                    (Legacy.shopping_cart_item (Legacy.tables s)))
            (Legacy.order (Legacy.tables s) ++
               [Legacy.mk_order (Legacy.order_id_seq s) userId 1])
            (Legacy.order_item (Legacy.tables s) ++
               map (Legacy.to_order_item (Legacy.order_id_seq s))
                   (Legacy.cart_items userId (Legacy.tables s)))
            (Legacy.product (Legacy.tables s)))
     \/
     (created r = false /\
      (r = Thrown \/
       (r = Ok (mk_response 400 (Message "Error placing order")) /\
        Legacy.tables s' = Legacy.tables s /\ Legacy.idle s')))).
Proof.
  unfold Legacy.idle. intros Hidle r s' H.
  unfold Legacy.post_orders_try, Legacy.try_catch in H.
  unfold Legacy.bind at 1 in H. unfold Legacy.query at 1 in H.
  destruct (raises (Legacy.stmts s)) eqn:E0.
  { unfold Legacy.bind, Legacy.ROLLBACK, Legacy.ret, Legacy.undo in H. simpl in H.
    rewrite Hidle in H.
    destruct (raises (S (Legacy.stmts s))); inversion H; subst; legacy_failed. }
  unfold Legacy.BEGIN in H. simpl in H. rewrite Hidle in H.
  unfold Legacy.bind at 1 in H. unfold Legacy.query at 1 in H. simpl in H.
  destruct (raises (S (Legacy.stmts s))) eqn:E1.
  { unfold Legacy.bind, Legacy.ROLLBACK, Legacy.ret, Legacy.undo in H. simpl in H.
    destruct (raises (S (S (Legacy.stmts s)))); inversion H; subst; legacy_failed. }
  unfold Legacy.bind at 1 in H. unfold Legacy.query at 1 in H. simpl in H.
  destruct (raises (S (S (Legacy.stmts s)))) eqn:E2.
  { unfold Legacy.bind, Legacy.ROLLBACK, Legacy.ret, Legacy.undo in H. simpl in H.
    destruct (raises (S (S (S (Legacy.stmts s))))); inversion H; subst; legacy_failed. }
  unfold Legacy.on_tables at 1 in H. simpl in H.
  unfold Legacy.SELECT_cart_JOIN_product at 1 in H.
  change (Legacy.SELECT_shopping_cart userId
            (Legacy.mk_tables (Legacy.shopping_cart (Legacy.tables s))
               (Legacy.shopping_cart_item (Legacy.tables s))
               (Legacy.order (Legacy.tables s) ++
                  [Legacy.mk_order (Legacy.order_id_seq s) userId 1])
               (Legacy.order_item (Legacy.tables s)) (Legacy.product (Legacy.tables s))))
    with (Legacy.SELECT_shopping_cart userId (Legacy.tables s)) in H.
  assert (Hitems : Legacy.cart_items userId (Legacy.tables s) =
                   match Legacy.scalar (Legacy.SELECT_shopping_cart userId (Legacy.tables s))
                   with
                   | Some v =>
                       flat_map
                         (fun i => map (fun p => (i, p))
                                       (filter (fun p => Legacy.sci_product_id i =? p_id p)
                                               (Legacy.product (Legacy.tables s))))
                         (filter (Legacy.in_cart v)
                                 (Legacy.shopping_cart_item (Legacy.tables s)))
                   | None => []
                   end).
  { unfold Legacy.cart_items, Legacy.SELECT_cart_JOIN_product.
    destruct (Legacy.scalar _); reflexivity. }
  destruct (Legacy.scalar (Legacy.SELECT_shopping_cart userId (Legacy.tables s)))
    as [v|] eqn:Ev.
  2:{ (* the subquery has two rows *)
      unfold Legacy.bind, Legacy.ROLLBACK, Legacy.ret, Legacy.undo in H. simpl in H.
      destruct (raises (S (S (S (Legacy.stmts s))))); inversion H; subst; legacy_failed. }
  simpl in H.
  unfold Legacy.bind at 1 in H.
  match type of H with
  | context [Legacy.for_of ?items ?f ?st] =>
      destruct (Legacy.for_of items f st) as [rl sl] eqn:EL
  end.
  apply legacy_for_of_INSERT_order_item in EL. simpl in EL.
  destruct EL as (Ltx & Lseq & Lok).
  destruct rl as [[]|].
  2:{ unfold Legacy.bind, Legacy.ROLLBACK, Legacy.ret, Legacy.undo in H. simpl in H.
      rewrite Ltx in H.
      destruct (raises (Legacy.stmts sl)); inversion H; subst; legacy_failed. }
  specialize (Lok eq_refl).
  unfold Legacy.bind at 1 in H. unfold Legacy.query at 1 in H.
  destruct (raises (Legacy.stmts sl)) eqn:E3.
  { unfold Legacy.bind, Legacy.ROLLBACK, Legacy.ret, Legacy.undo in H. simpl in H.
    rewrite Ltx in H.
    destruct (raises (S (Legacy.stmts sl))); inversion H; subst; legacy_failed. }
  unfold Legacy.on_tables, Legacy.DELETE_cart_items in H. simpl in H.
  rewrite Lok in H. simpl in H.
  change (Legacy.SELECT_shopping_cart userId
            (Legacy.mk_tables (Legacy.shopping_cart (Legacy.tables s))
               (Legacy.shopping_cart_item (Legacy.tables s))
               (Legacy.order (Legacy.tables s) ++
                  [Legacy.mk_order (Legacy.order_id_seq s) userId 1])
               (Legacy.order_item (Legacy.tables s) ++
                  map (Legacy.to_order_item (Legacy.order_id_seq s))
                      (flat_map
                         (fun i => map (fun p => (i, p))
                                       (filter (fun p => Legacy.sci_product_id i =? p_id p)
                                               (Legacy.product (Legacy.tables s))))
                         (filter (Legacy.in_cart v)
                                 (Legacy.shopping_cart_item (Legacy.tables s)))))
               (Legacy.product (Legacy.tables s))))
    with (Legacy.SELECT_shopping_cart userId (Legacy.tables s)) in H.
  rewrite Ev in H. simpl in H.
  unfold Legacy.bind at 1 in H. unfold Legacy.query at 1 in H. simpl in H.
  destruct (raises (S (Legacy.stmts sl))) eqn:E4.
  { unfold Legacy.bind, Legacy.ROLLBACK, Legacy.ret, Legacy.undo in H. simpl in H.
    rewrite Ltx in H.
    destruct (raises (S (S (Legacy.stmts sl)))); inversion H; subst; legacy_failed. }
  unfold Legacy.ret in H. inversion H; subst; clear H. simpl.
  left. split; [reflexivity|].
  exists v. split; [reflexivity|]. rewrite Hitems. reflexivity.
Qed.

Lemma legacy_post_orders_spec (userId addressId : Z) (s : Legacy.Db) :
  Legacy.idle s ->
  forall r s', Legacy.post_orders raises userId addressId s = (r, s') ->
    ((r = Ok (mk_response 201
                (OrderCreated "Order placed successfully" (Legacy.order_id_seq s))) /\
      exists v,
        Legacy.scalar (Legacy.SELECT_shopping_cart userId (Legacy.tables s)) = Some v /\
        Legacy.tables s' =
          Legacy.mk_tables
            (Legacy.shopping_cart (Legacy.tables s))
            (filter (fun i => negb (Legacy.in_cart v i))
                    (Legacy.shopping_cart_item (Legacy.tables s)))
            (Legacy.order (Legacy.tables s) ++
               [Legacy.mk_order (Legacy.order_id_seq s) userId 1])
            (Legacy.order_item (Legacy.tables s) ++
               map (Legacy.to_order_item (Legacy.order_id_seq s))
                   (Legacy.cart_items userId (Legacy.tables s)))
            (Legacy.product (Legacy.tables s)))
     \/
     (created r = false /\
      (r = Thrown \/
       (r = Ok (mk_response 400 (Message "Error placing order")) /\
        Legacy.tables s' = Legacy.tables s /\ Legacy.idle s')))).
Proof.
  intros Hidle r s' H.
  unfold Legacy.post_orders in H. unfold Legacy.bind at 1 in H.
  unfold Legacy.pool_connect in H.
  destruct (raises (Legacy.stmts s)) eqn:E.
  - inversion H; subst. right. split; [reflexivity | left; reflexivity].
  - apply legacy_post_orders_try_spec in H; [|exact Hidle]. exact H.
Qed.

End LegacyOrders.

(** X21.  The first server writes the price on the order line.  After a
    PlaceOrder answered with 201, the order lines written are one per cart
    item joined with its product, in order, each with the product id and
    quantity of the item and the price the product has at the time of the
    call; the lines that existed are kept and the product table is not
    changed. *)
Theorem legacy_order_keeps_price (raises : nat -> bool) (userId addressId : Z)
  (s s' : Legacy.Db) (r : result response) :
  Legacy.idle s ->
  Legacy.post_orders raises userId addressId s = (r, s') ->
  created r = true ->
  let orderId := Legacy.order_id_seq s in
  let lines := map (Legacy.to_order_item orderId)
                   (Legacy.cart_items userId (Legacy.tables s)) in
  r = Ok (mk_response 201 (OrderCreated "Order placed successfully" orderId)) /\
  Legacy.order_item (Legacy.tables s') = Legacy.order_item (Legacy.tables s) ++ lines /\
  (forall line, In line lines ->
     exists i p,
       In i (Legacy.shopping_cart_item (Legacy.tables s)) /\
       In p (Legacy.product (Legacy.tables s)) /\
       p_id p = Legacy.sci_product_id i /\
       line = Legacy.mk_item orderId (Legacy.sci_product_id i) (Legacy.sci_quantity i)
                             (p_price p)) /\
  Legacy.product (Legacy.tables s') = Legacy.product (Legacy.tables s).
Proof.
  intros Hidle H Hok orderId lines.
  destruct (legacy_post_orders_spec raises userId addressId s Hidle r s' H)
    as [(Hr & v & Hv & Ht) | (Hr & _)]; [|congruence].
  split; [exact Hr|]. rewrite Ht. simpl. split; [reflexivity|]. split; [|reflexivity].
  intros line Hline. unfold lines in Hline. apply in_map_iff in Hline.
  destruct Hline as ((i & p) & <- & Hin).
  unfold Legacy.cart_items, Legacy.SELECT_cart_JOIN_product in Hin. rewrite Hv in Hin.
  apply in_flat_map in Hin. destruct Hin as (i0 & Hi0 & Hin).
  apply in_map_iff in Hin. destruct Hin as (p0 & Heq & Hp0). inversion Heq; subst.
  apply filter_In in Hi0. apply filter_In in Hp0.
  destruct Hi0 as (Hi0 & _). destruct Hp0 as (Hp0 & Hid). apply Z.eqb_eq in Hid.
  exists i, p. auto.
Qed.

Lemma legacy_order_keeps_price_witness :
  let s := Legacy.fresh_db Legacy.scenario 1 2 in
  let s' := Legacy.mk_db
              (Legacy.mk_tables [Legacy.mk_shopping_cart 1 7] []
                 [Legacy.mk_order 1 7 1]
                 [Legacy.mk_item 1 1 2 1000; Legacy.mk_item 1 2 1 500]
                 (Legacy.product Legacy.scenario)) None 2 2 8 in
  let r := Ok (mk_response 201 (OrderCreated "Order placed successfully" 1)) in
  Legacy.idle s /\ Legacy.post_orders no_faults 7 0 s = (r, s') /\ created r = true /\
  Legacy.order_item (Legacy.tables s') =
    Legacy.order_item (Legacy.tables s) ++
    map (Legacy.to_order_item 1) (Legacy.cart_items 7 (Legacy.tables s)) /\
  Legacy.product (Legacy.tables s') = Legacy.product (Legacy.tables s).
Proof.
  intros s s' r.
  assert (Hrun : Legacy.post_orders no_faults 7 0 s = (r, s')) by (vm_compute; reflexivity).
  split; [reflexivity|]. split; [exact Hrun|]. split; [reflexivity|].
  destruct (legacy_order_keeps_price no_faults 7 0 s s' r eq_refl Hrun eq_refl)
    as (_ & Hl & _ & Hp).
  split; [exact Hl | exact Hp].
Defined.

Lemma scalar_cases {A} (rows : list A) (v : option A) :
  Legacy.scalar rows = Some v ->
  (rows = [] /\ v = None) \/ (exists x, rows = [x] /\ v = Some x).
Proof.
  destruct rows as [|x [|y rest]]; simpl; intros H; inversion H; subst; eauto.
Qed.

(** X22.  The first server's PlaceOrder is all or nothing and empties the
    cart.  A call that is not answered with 201 is answered 400 or, when
    the connection cannot be taken or the ROLLBACK of the handler raises,
    not at all.  If it is answered 400, whichever statement raised (also
    when the customer has two carts and the storage layer refuses the
    subquery), every table is as before the call and no transaction is
    open.  If it is answered with 201, no item is left in a cart of the
    customer, ordered or not, and the items of the other carts are exactly
    as before. *)
Theorem legacy_place_order_atomic (raises : nat -> bool) (userId addressId : Z)
  (s s' : Legacy.Db) (r : result response) :
  Legacy.idle s ->
  Legacy.post_orders raises userId addressId s = (r, s') ->
  (created r = false ->
   r = Ok (mk_response 400 (Message "Error placing order")) \/ r = Thrown) /\
  (r = Ok (mk_response 400 (Message "Error placing order")) ->
   Legacy.tables s' = Legacy.tables s /\ Legacy.idle s') /\
  (created r = true ->
   Legacy.items_of userId (Legacy.tables s') = [] /\
   Legacy.cart_items userId (Legacy.tables s') = [] /\
   forall i, In i (Legacy.shopping_cart_item (Legacy.tables s')) <->
             In i (Legacy.shopping_cart_item (Legacy.tables s)) /\
             ~ In i (Legacy.items_of userId (Legacy.tables s))).
Proof.
  intros Hidle H.
  destruct (legacy_post_orders_spec raises userId addressId s Hidle r s' H)
    as [(Hr & v & Hv & Ht) | (Hr & Hend)].
  - split; [subst r; discriminate|]. split; [subst r; discriminate|]. intros _.
    assert (Hsame : Legacy.SELECT_shopping_cart userId (Legacy.tables s') =
                    Legacy.SELECT_shopping_cart userId (Legacy.tables s))
      by (rewrite Ht; reflexivity).
    assert (Hmem : forall i,
              existsb (fun id => Legacy.sci_shopping_cart_id i =? id)
                      (Legacy.SELECT_shopping_cart userId (Legacy.tables s)) =
              Legacy.in_cart v i).
    { intros i. destruct (scalar_cases _ _ Hv) as [(-> & ->)|(x & -> & ->)]; simpl.
      - reflexivity.
      - apply orb_false_r. }
    split; [|split].
    + unfold Legacy.items_of. rewrite Hsame, Ht. simpl.
      apply filter_none. intros i Hi. apply filter_In in Hi. destruct Hi as (_ & Hi).
      rewrite Hmem. now apply negb_true_iff.
    + unfold Legacy.cart_items, Legacy.SELECT_cart_JOIN_product.
      rewrite Hsame, Hv, Ht. simpl.
      rewrite (filter_negb_filter (Legacy.in_cart v)). reflexivity.
    + intros i. rewrite Ht. simpl. rewrite filter_In. unfold Legacy.items_of.
      rewrite filter_In, negb_true_iff, <- Hmem. split.
      * intros (Hin & Hf). split; [exact Hin|]. intros (_ & Ht'). congruence.
      * intros (Hin & Hnot). split; [exact Hin|].
        destruct (existsb _ _) eqn:E; [|reflexivity]. exfalso. apply Hnot. auto.
  - split; [|split; [|congruence]].
    + intros _. destruct Hend as [-> | (-> & _)]; auto.
    + intros ->. destruct Hend as [Hr' | (_ & Ht & Hi)]; [discriminate | auto].
Qed.

Lemma legacy_place_order_atomic_witness :
  let s := Legacy.fresh_db Legacy.scenario 1 2 in
  let s' := Legacy.mk_db Legacy.scenario None 2 2 7 in
  let r := Ok (mk_response 400 (Message "Error placing order")) in
  Legacy.idle s /\ Legacy.post_orders (fault_at 5) 7 0 s = (r, s') /\
  Legacy.tables s' = Legacy.tables s /\ Legacy.idle s'.
Proof.
  intros s s' r.
  assert (Hrun : Legacy.post_orders (fault_at 5) 7 0 s = (r, s'))
    by (vm_compute; reflexivity).
  split; [reflexivity|]. split; [exact Hrun|].
  exact (proj1 (proj2 (legacy_place_order_atomic (fault_at 5) 7 0 s s' r eq_refl Hrun))
           eq_refl).
Defined.

(** X23.  Adding to the cart on the first server.  When no statement
    raises, the answer is 201 and one item is appended to
    [shopping_cart_item], for the cart of the customer: the first cart the
    customer has, or a new one made with the next id when there is none.
    An item is never merged with an existing item of the same product.  No
    customer gets a second cart.  The two or three statements are not one
    transaction: when the customer has no cart and the insert of the item
    raises, the answer is 400 but the new, empty cart stays. *)
Theorem legacy_add_item (raises : nat -> bool) (userId productId quantity : Z)
  (s : Legacy.Db) :
  raises (Legacy.stmts s) = false ->
  raises (S (Legacy.stmts s)) = false ->
  let out := Legacy.post_cart_items raises userId productId quantity s in
  let t := Legacy.tables s in
  let t' := Legacy.tables (snd out) in
  let fresh := Legacy.shopping_cart_id_seq s in
  match Legacy.SELECT_shopping_cart userId t with
  | cartId :: _ =>
      fst out = Ok (mk_response 201 (Message "Item added to cart")) /\
      Legacy.shopping_cart t' = Legacy.shopping_cart t /\
      Legacy.shopping_cart_item t' =
        Legacy.shopping_cart_item t ++ [Legacy.mk_cart_item cartId productId quantity]
  | [] =>
      Legacy.shopping_cart t' =
        Legacy.shopping_cart t ++ [Legacy.mk_shopping_cart fresh userId] /\
      (raises (S (S (Legacy.stmts s))) = false ->
       fst out = Ok (mk_response 201 (Message "Item added to cart")) /\
       Legacy.shopping_cart_item t' =
         Legacy.shopping_cart_item t ++ [Legacy.mk_cart_item fresh productId quantity]) /\
      (raises (S (S (Legacy.stmts s))) = true ->
       fst out = Ok (mk_response 400 (Message "Error adding item to cart")) /\
       Legacy.shopping_cart_item t' = Legacy.shopping_cart_item t)
  end /\
  (Legacy.one_cart_each t -> Legacy.one_cart_each t') /\
  Legacy.order t' = Legacy.order t /\ Legacy.order_item t' = Legacy.order_item t /\
  Legacy.product t' = Legacy.product t.
Proof.
  intros H0 H1 out t t' fresh. subst out t t' fresh.
  unfold Legacy.post_cart_items, Legacy.try_catch, Legacy.bind, Legacy.query,
    Legacy.on_tables, Legacy.ret.
  rewrite H0. simpl.
  destruct (Legacy.SELECT_shopping_cart userId (Legacy.tables s)) as [|cartId rest] eqn:E;
    simpl.
  - rewrite H1. simpl.
    assert (Hone : Legacy.one_cart_each (Legacy.tables s) ->
                   NoDup (map Legacy.sc_customer_id
                            (Legacy.shopping_cart (Legacy.tables s) ++
                             [Legacy.mk_shopping_cart (Legacy.shopping_cart_id_seq s) userId]))).
    { intros Hu. rewrite map_app. simpl. apply NoDup_snoc; [|exact Hu].
      intros Hin. apply in_map_iff in Hin. destruct Hin as (c & Hc & Hin).
      assert (Hf : In (Legacy.sc_id c)
                      (Legacy.SELECT_shopping_cart userId (Legacy.tables s))).
      { unfold Legacy.SELECT_shopping_cart. apply in_map. apply filter_In.
        split; [exact Hin | now apply Z.eqb_eq]. }
      rewrite E in Hf. exact Hf. }
    destruct (raises (S (S (Legacy.stmts s)))); simpl;
      (split; [split; [reflexivity|]; split; intros Hr;
               try discriminate; split; reflexivity
              | split; [exact Hone | repeat split]]).
  - rewrite H1. simpl. repeat split. auto.
Qed.

Lemma legacy_add_item_witness :
  let s := Legacy.fresh_db Legacy.scenario 1 2 in
  let out := Legacy.post_cart_items no_faults 7 1 5 s in
  fst out = Ok (mk_response 201 (Message "Item added to cart")) /\
  Legacy.shopping_cart (Legacy.tables (snd out)) = Legacy.shopping_cart (Legacy.tables s) /\
  Legacy.shopping_cart_item (Legacy.tables (snd out)) =
    Legacy.shopping_cart_item (Legacy.tables s) ++ [Legacy.mk_cart_item 1 1 5].
Proof.
  exact (proj1 (legacy_add_item no_faults 7 1 5 (Legacy.fresh_db Legacy.scenario 1 2)
                  eq_refl eq_refl)).
Defined.

(** X24.  [GET /cart] of the first server shows a customer the items of
    their own cart only.  When the query does not raise: a customer with no
    cart is answered with 200 and no row; a customer with one cart is
    answered with 200 and rows that all belong to that cart, each paired with
    a product of the same id, and every item of that cart whose product
    exists is shown. *)
Theorem legacy_get_cart_own_items (raises : nat -> bool) (userId : Z) (s : Legacy.Db) :
  raises (Legacy.stmts s) = false ->
  let t := Legacy.tables s in
  (Legacy.SELECT_shopping_cart userId t = [] ->
   fst (Legacy.get_cart raises userId s) = Ok (mk_reply 200 (Data []))) /\
  (forall cartId, Legacy.SELECT_shopping_cart userId t = [cartId] ->
   exists rows,
     fst (Legacy.get_cart raises userId s) = Ok (mk_reply 200 (Data rows)) /\
     forall i p,
       In (i, p) rows <->
       In i (Legacy.shopping_cart_item t) /\ Legacy.sci_shopping_cart_id i = cartId /\
       In p (Legacy.product t) /\ p_id p = Legacy.sci_product_id i).
Proof.
  intros Hno t. subst t.
  unfold Legacy.get_cart, Legacy.try_catch, Legacy.bind, Legacy.query,
    Legacy.on_tables, Legacy.ret, Legacy.SELECT_cart_JOIN_product.
  rewrite Hno. simpl. split.
  - intros E. rewrite E. simpl.
    rewrite (filter_none (Legacy.in_cart None)) by reflexivity. reflexivity.
  - intros cartId E. rewrite E. simpl. eexists. split; [reflexivity|].
    intros i p. rewrite in_flat_map. split.
    + intros (i0 & Hi0 & Hin). apply in_map_iff in Hin.
      destruct Hin as (p0 & Heq & Hp0). inversion Heq; subst.
      apply filter_In in Hi0. apply filter_In in Hp0. simpl in Hi0.
      rewrite Z.eqb_eq in Hi0, Hp0. destruct Hi0, Hp0. auto.
    + intros (Hi & Hc & Hp & Hid). exists i. split.
      * apply filter_In. split; [exact Hi|]. simpl. now apply Z.eqb_eq.
      * apply in_map_iff. exists p. split; [reflexivity|].
        apply filter_In. split; [exact Hp|]. apply Z.eqb_eq. congruence.
Qed.

Lemma legacy_get_cart_own_items_witness :
  let s := Legacy.fresh_db Legacy.scenario 1 2 in
  let t := Legacy.tables s in
  no_faults (Legacy.stmts s) = false /\
  Legacy.SELECT_shopping_cart 7 t = [1] /\
  fst (Legacy.get_cart no_faults 7 s) =
    Ok (mk_reply 200
          (Data [(Legacy.mk_cart_item 1 1 2, mk_product 1 "tea" EmptyString 1000 1 4);
                 (Legacy.mk_cart_item 1 2 1, mk_product 2 "cup" EmptyString 500 1 30)])) /\
  exists rows,
    fst (Legacy.get_cart no_faults 7 s) = Ok (mk_reply 200 (Data rows)) /\
    forall i p,
      In (i, p) rows <->
      In i (Legacy.shopping_cart_item t) /\ Legacy.sci_shopping_cart_id i = 1 /\
      In p (Legacy.product t) /\ p_id p = Legacy.sci_product_id i.
Proof.
  split; [reflexivity|]. split; [reflexivity|]. split; [reflexivity|].
  exact (proj2 (legacy_get_cart_own_items no_faults 7
                  (Legacy.fresh_db Legacy.scenario 1 2) eq_refl) 1 eq_refl).
Defined.

(** ** What [GET /cart] shows *)

(** X25.  [GET /cart] shows a customer their own lines, at today's price.
    With product ids unique and the query not raising, the answer is 200
    and its rows are, up to the order of the rows, exactly the cart lines
    of the customer whose product exists, each with the name and the price
    its product has now; a line whose product has no row is not shown.  No
    table changes. *)
Theorem get_cart_shows_own_lines (raises : nat -> bool) (userId : Z) (s : Db) :
  raises (stmts s) = false ->
  product_ids_unique (tables s) ->
  exists rows,
    fst (get_cart raises userId s) = Ok (mk_response 200 (CartRows rows)) /\
    Permutation
      (map cv_row rows)
      (filter (fun c => existsb (fun p => cart_product_id c =? p_id p) (product (tables s)))
              (cart_lines userId (tables s))) /\
    (forall v, In v rows ->
       cart_customer_id (cv_row v) = userId /\
       exists p, In p (product (tables s)) /\ p_id p = cart_product_id (cv_row v) /\
                 cv_name v = p_name p /\ cv_price v = p_price p) /\
    tables (snd (get_cart raises userId s)) = tables s.
Proof.
  intros Hno Hu.
  unfold get_cart, try_catch, bind, query, on_tables, ret. rewrite Hno. simpl.
  eexists. split; [reflexivity|]. split; [|split].
  - unfold cart_lines. simpl.
    induction (filter (fun c => cart_customer_id c =? userId) (cart (tables s)))
      as [|c l IH]; simpl; [constructor|].
    rewrite map_app, (filter_unique_id (cart_product_id c) (product (tables s)) Hu),
      find_existsb.
    destruct (find (fun p => cart_product_id c =? p_id p) (product (tables s))); simpl;
      [apply perm_skip|]; exact IH.
  - intros v Hv. apply in_flat_map in Hv. destruct Hv as (c & Hc & Hv).
    apply in_map_iff in Hv. destruct Hv as (p & <- & Hp). simpl.
    apply filter_In in Hc. apply filter_In in Hp.
    destruct Hc as (_ & Hc). destruct Hp as (Hp & Hid).
    rewrite Z.eqb_eq in Hc, Hid. split; [exact Hc|]. exists p. auto.
  - destruct (tables s); reflexivity.
Qed.

Lemma get_cart_shows_own_lines_witness :
  exists rows,
    fst (get_cart no_faults 7 (fresh_db scenarioA 1)) =
      Ok (mk_response 200 (CartRows rows)) /\
    Permutation
      (map cv_row rows)
      (filter (fun c => existsb (fun p => cart_product_id c =? p_id p) (product scenarioA))
              (cart_lines 7 scenarioA)) /\
    (forall v, In v rows ->
       cart_customer_id (cv_row v) = 7 /\
       exists p, In p (product scenarioA) /\ p_id p = cart_product_id (cv_row v) /\
                 cv_name v = p_name p /\ cv_price v = p_price p) /\
    tables (snd (get_cart no_faults 7 (fresh_db scenarioA 1))) = scenarioA.
Proof.
  assert (Hu : product_ids_unique (tables (fresh_db scenarioA 1))).
  { unfold product_ids_unique. simpl.
    repeat (constructor; [simpl; intuition discriminate|]). constructor. }
  exact (get_cart_shows_own_lines no_faults 7 (fresh_db scenarioA 1) eq_refl Hu).
Defined.
